(** * MovieMatch: the client-side discovery loop

    A shallow embedding of the React components that drive the swipe loop
    ([SwipeCard.tsx], [MovieCard.tsx], [MovieMatchApp.tsx]) and the
    properties of the discovery loop checked against it.

    Conventions of the embedding.
    - A JavaScript [number] that holds an identifier, a year, a pixel
      displacement, a delay or a counter is a [Z]; the preference vector,
      which the client only stores and forwards, is a [list float].
    - A [Set<number>] is the list of its elements in insertion order.
    - [useState] cells and [useRef] cells are the fields of one record;
      a setter takes effect at once.  What a callback captured when it was
      created (the [useCallback] dependencies of [fetchNextMovie]) is an
      explicit [Closure] value, so a retry timer runs the closure that
      scheduled it.
    - An [async] function is cut at its [await]: the part before returns the
      continuation it is suspended on, the part after takes the outcome of
      the awaited call.
    - Calls that leave the component (requests, feedback, toasts, timers) are
      appended to logs kept in the state. *)

From Stdlib Require Import ZArith List Bool String Lia PrimFloat.
Import ListNotations.
Open Scope Z_scope.

Set Implicit Arguments.

(** ** JavaScript arrays and insertion-ordered sets *)

Module JS.

(** [arr.slice(-n)] for [n >= 0]: the last [n] elements, the whole array
    when it is shorter. *)
Definition slice_last {A : Type} (n : nat) (arr : list A) : list A :=
  skipn (List.length arr - n)%nat arr.

(** [arr.includes(x)] on an array of numbers. *)
Definition includes (arr : list Z) (x : Z) : bool :=
  existsb (Z.eqb x) arr.

(** [set.add(x)]: [x] goes last unless it is already a member. *)
Definition set_add (x : Z) (s : list Z) : list Z :=
  if includes s x then s else s ++ [x].

(** [new Set(arr)]: the elements of [arr] added one by one. *)
Definition set_of_array (arr : list Z) : list Z :=
  fold_left (fun s x => set_add x s) arr [].

(** [Array.from(set)]. *)
Definition array_from (s : list Z) : list Z := s.

(** [set.size]. *)
Definition size (s : list Z) : Z := Z.of_nat (List.length s).

(** Truthiness of a string-valued optional field: absent and the empty
    string are both falsy.  (An optional object or array is truthy exactly
    when it is present; such tests are written as a [match].) *)
Definition truthy_string (o : option string) : bool :=
  match o with
  | Some s => negb (String.eqb s EmptyString)
  | None => false
  end.

End JS.

(** ** types/movie.ts *)

Record Movie := {
  movieId : Z;
  title : string;
  poster_path : string;
  overview : string;
  genres : string;
  release_date : string
}.

Record UserMovieList := {
  liked : list Movie;
  saved : list Movie;
  disliked : list Movie
}.

Inductive ListName := Liked | Saved | Disliked.

Inductive Action := Like | Dislike | Skip | Save.

Definition ListName_eqb (a b : ListName) : bool :=
  match a, b with
  | Liked, Liked | Saved, Saved | Disliked, Disliked => true
  | _, _ => false
  end.

(** ** SwipeCard.tsx *)

Module SwipeCard.

Inductive Swipe := SwipeLeft | SwipeRight | SwipeUp.

Record State := {
  isDragging : bool;
  startX : Z;
  startY : Z;
  translateX : Z;
  translateY : Z
}.

Definition threshold : Z := 120.
Definition verticalThreshold : Z := 100.

(** [handleStart] on a pointer (mouse, or first touch) at [(clientX, clientY)]. *)
Definition handleStart (disabled : bool) (clientX clientY : Z) (st : State) : State :=
  if disabled then st
  else {| isDragging := true;
          startX := clientX;
          startY := clientY;
          translateX := translateX st;
          translateY := translateY st |}.

(** [handleMove] on a pointer at [(clientX, clientY)]. *)
Definition handleMove (disabled : bool) (clientX clientY : Z) (st : State) : State :=
  if negb (isDragging st) || disabled then st
  else {| isDragging := isDragging st;
          startX := startX st;
          startY := startY st;
          translateX := clientX - startX st;
          translateY := clientY - startY st |}.

(** [handleEnd]: the callback that is invoked, if any, and the next state. *)
Definition handleEnd (disabled : bool) (st : State) : State * option Swipe :=
  if negb (isDragging st) || disabled then (st, None)
  else
    let fired :=
      if (translateY st <? - verticalThreshold) && (Z.abs (translateX st) <? threshold)
      then Some SwipeUp
      else if translateX st >? threshold then Some SwipeRight
      else if translateX st <? - threshold then Some SwipeLeft
      else None in
    ({| isDragging := false;
        startX := startX st;
        startY := startY st;
        translateX := 0;
        translateY := 0 |}, fired).

(** [getSwipeIndicator]: the preview shown during the drag. *)
Definition getSwipeIndicator (st : State) : option string :=
  let threshold := 60 in
  if (translateY st <? - threshold) && (Z.abs (translateX st) <? threshold)
  then Some "SAVE"%string
  else if translateX st >? threshold then Some "LIKE"%string
  else if translateX st <? - threshold then Some "PASS"%string
  else None.

(** A card being dragged, released at displacement [(dx, dy)]. *)
Definition dragged (dx dy : Z) : State :=
  {| isDragging := true; startX := 0; startY := 0;
     translateX := dx; translateY := dy |}.

End SwipeCard.

(** ** MovieCard.tsx: the action each swipe callback reports *)

Module MovieCard.

Definition handleSwipe (sw : SwipeCard.Swipe) : Action :=
  match sw with
  | SwipeCard.SwipeLeft => Dislike
  | SwipeCard.SwipeRight => Like
  | SwipeCard.SwipeUp => Save
  end.

(** The action given to [onAction] when the card is released. *)
Definition released (disabled : bool) (st : SwipeCard.State) : option Action :=
  option_map handleSwipe (snd (SwipeCard.handleEnd disabled st)).

End MovieCard.

(** ** Filters.tsx: the filter state *)

Module Filters.

Record FilterState := {
  genres : list string;
  languages : list string;
  yearRange : Z * Z
}.

(** [arr.includes(x)] on an array of strings. *)
Definition includes (arr : list string) (x : string) : bool :=
  existsb (String.eqb x) arr.

(** [handleGenreToggle]: the filters given to [onFiltersChange]. *)
Definition handleGenreToggle (genre : string) (filters : FilterState) : FilterState :=
  let newGenres :=
    if includes (genres filters) genre
    then filter (fun g => negb (String.eqb g genre)) (genres filters)
    else genres filters ++ [genre] in
  {| genres := newGenres; languages := languages filters;
     yearRange := yearRange filters |}.

(** [handleLanguageToggle]: the filters given to [onFiltersChange]. *)
Definition handleLanguageToggle (language : string) (filters : FilterState) : FilterState :=
  let newLanguages :=
    if includes (languages filters) language
    then filter (fun l => negb (String.eqb l language)) (languages filters)
    else languages filters ++ [language] in
  {| genres := genres filters; languages := newLanguages;
     yearRange := yearRange filters |}.

(** [handleYearRangeChange] on the two values of the slider. *)
Definition handleYearRangeChange (newRange : Z * Z) (filters : FilterState) : FilterState :=
  {| genres := genres filters; languages := languages filters;
     yearRange := (fst newRange, snd newRange) |}.

(** [clearFilters]; [full] is the [yearRange] prop, the full allowed range. *)
Definition clearFilters (full : Z * Z) : FilterState :=
  {| genres := []; languages := []; yearRange := full |}.

Definition hasActiveFilters (full : Z * Z) (filters : FilterState) : bool :=
  (Z.of_nat (List.length (genres filters)) >? 0)
  || (Z.of_nat (List.length (languages filters)) >? 0)
  || (negb (fst (yearRange filters) =? fst full)
      || negb (snd (yearRange filters) =? snd full)).

Definition activeFilterCount (full : Z * Z) (filters : FilterState) : Z :=
  Z.of_nat (List.length (genres filters)) + Z.of_nat (List.length (languages filters))
  + (if negb (fst (yearRange filters) =? fst full)
        || negb (snd (yearRange filters) =? snd full)
     then 1 else 0).

End Filters.

(** ** services/movieAPI.ts: the messages exchanged with the backend *)

Module MovieAPI.

Module Request.
Record t := {
  user_vector : option (list float);
  seen_ids : list Z;
  liked_ids : list Z;
  genre : option string;
  language : option string;
  year_start : option Z;
  year_end : option Z
}.
End Request.

Module Response.
Record t := {
  movie : option Movie;
  user_vector : option (list float);
  error : option string
}.
End Response.

Module Feedback.
Record t := {
  user_vector : option (list float);
  movie_id : Z;
  feedback : Action
}.
End Feedback.

(** How an awaited call ends: the promise resolves with the decoded body, or
    it rejects ([request] throws on a network failure and on a status that
    is not ok). *)
Inductive Outcome :=
| Resolved (response : Response.t)
| Rejected.

End MovieAPI.

(** ** MovieMatchApp.tsx: state *)

Inductive View := Intro | Swipe | Lists.

Definition View_eqb (a b : View) : bool :=
  match a, b with
  | Intro, Intro | Swipe, Swipe | Lists, Lists => true
  | _, _ => false
  end.

(** What [fetchNextMovie] closes over: the values of its [useCallback]
    dependencies in the render that created it. *)
Record Closure := {
  cl_isLoading : bool;
  cl_userLists : UserMovieList;
  cl_filters : Filters.FilterState;
  cl_userVector : option (list float)
}.

(** A pending [setTimeout(() => fetchNextMovie(), delay)]. *)
Record Timer := {
  delay : Z;
  callback : Closure
}.

(** A call of [fetchNextMovie] suspended on [await MovieAPI.getRecommendation]:
    the request it sent, its local [allExcludedIds], and the closure it runs in. *)
Record Pending := {
  request : MovieAPI.Request.t;
  allExcludedIds : list Z;
  self : Closure
}.

Record App := {
  (* useState *)
  currentView : View;
  currentMovie : option Movie;
  userLists : UserMovieList;
  userVector : option (list float);
  isLoading : bool;
  hasStarted : bool;
  showControlsTip : bool;
  filters : Filters.FilterState;
  (* useRef *)
  recentlyFetchedIds : list Z;
  fetchTimeoutRef : option Timer;
  fetchAttemptCount : Z;
  (* calls that leave the component, oldest first *)
  requests : list MovieAPI.Request.t;
  feedbacks : list MovieAPI.Feedback.t;
  toasts : list string;
  timeouts : list Z
}.

Definition maxFetchAttempts : Z := 5.

Definition movieYearRange : Z * Z := (1900, 2024).

Definition initial : App :=
  {| currentView := Intro; currentMovie := None;
     userLists := {| liked := []; saved := []; disliked := [] |};
     userVector := None; isLoading := false; hasStarted := false;
     showControlsTip := false;
     filters := {| Filters.genres := []; Filters.languages := [];
                   Filters.yearRange := (1990, 2024) |};
     recentlyFetchedIds := []; fetchTimeoutRef := None;
     fetchAttemptCount := 0;
     requests := []; feedbacks := []; toasts := []; timeouts := [] |}.

(** The closure of the [fetchNextMovie] created by the render of state [s]. *)
Definition closure_of (s : App) : Closure :=
  {| cl_isLoading := isLoading s; cl_userLists := userLists s;
     cl_filters := filters s; cl_userVector := userVector s |}.

(** *** Field updates *)

Definition set_currentView (v : View) (s : App) : App :=
  {| currentView := v; currentMovie := currentMovie s;
     userLists := userLists s; userVector := userVector s;
     isLoading := isLoading s; hasStarted := hasStarted s;
     showControlsTip := showControlsTip s; filters := filters s;
     recentlyFetchedIds := recentlyFetchedIds s;
     fetchTimeoutRef := fetchTimeoutRef s;
     fetchAttemptCount := fetchAttemptCount s; requests := requests s;
     feedbacks := feedbacks s; toasts := toasts s; timeouts := timeouts s |}.

Definition set_currentMovie (v : option Movie) (s : App) : App :=
  {| currentView := currentView s; currentMovie := v;
     userLists := userLists s; userVector := userVector s;
     isLoading := isLoading s; hasStarted := hasStarted s;
     showControlsTip := showControlsTip s; filters := filters s;
     recentlyFetchedIds := recentlyFetchedIds s;
     fetchTimeoutRef := fetchTimeoutRef s;
     fetchAttemptCount := fetchAttemptCount s; requests := requests s;
     feedbacks := feedbacks s; toasts := toasts s; timeouts := timeouts s |}.

Definition set_userLists (v : UserMovieList) (s : App) : App :=
  {| currentView := currentView s; currentMovie := currentMovie s;
     userLists := v; userVector := userVector s; isLoading := isLoading s;
     hasStarted := hasStarted s; showControlsTip := showControlsTip s;
     filters := filters s; recentlyFetchedIds := recentlyFetchedIds s;
     fetchTimeoutRef := fetchTimeoutRef s;
     fetchAttemptCount := fetchAttemptCount s; requests := requests s;
     feedbacks := feedbacks s; toasts := toasts s; timeouts := timeouts s |}.

Definition set_userVector (v : option (list float)) (s : App) : App :=
  {| currentView := currentView s; currentMovie := currentMovie s;
     userLists := userLists s; userVector := v; isLoading := isLoading s;
     hasStarted := hasStarted s; showControlsTip := showControlsTip s;
     filters := filters s; recentlyFetchedIds := recentlyFetchedIds s;
     fetchTimeoutRef := fetchTimeoutRef s;
     fetchAttemptCount := fetchAttemptCount s; requests := requests s;
     feedbacks := feedbacks s; toasts := toasts s; timeouts := timeouts s |}.

Definition set_isLoading (v : bool) (s : App) : App :=
  {| currentView := currentView s; currentMovie := currentMovie s;
     userLists := userLists s; userVector := userVector s; isLoading := v;
     hasStarted := hasStarted s; showControlsTip := showControlsTip s;
     filters := filters s; recentlyFetchedIds := recentlyFetchedIds s;
     fetchTimeoutRef := fetchTimeoutRef s;
     fetchAttemptCount := fetchAttemptCount s; requests := requests s;
     feedbacks := feedbacks s; toasts := toasts s; timeouts := timeouts s |}.

Definition set_hasStarted (v : bool) (s : App) : App :=
  {| currentView := currentView s; currentMovie := currentMovie s;
     userLists := userLists s; userVector := userVector s;
     isLoading := isLoading s; hasStarted := v;
     showControlsTip := showControlsTip s; filters := filters s;
     recentlyFetchedIds := recentlyFetchedIds s;
     fetchTimeoutRef := fetchTimeoutRef s;
     fetchAttemptCount := fetchAttemptCount s; requests := requests s;
     feedbacks := feedbacks s; toasts := toasts s; timeouts := timeouts s |}.

Definition set_showControlsTip (v : bool) (s : App) : App :=
  {| currentView := currentView s; currentMovie := currentMovie s;
     userLists := userLists s; userVector := userVector s;
     isLoading := isLoading s; hasStarted := hasStarted s;
     showControlsTip := v; filters := filters s;
     recentlyFetchedIds := recentlyFetchedIds s;
     fetchTimeoutRef := fetchTimeoutRef s;
     fetchAttemptCount := fetchAttemptCount s; requests := requests s;
     feedbacks := feedbacks s; toasts := toasts s; timeouts := timeouts s |}.

Definition set_filters (v : Filters.FilterState) (s : App) : App :=
  {| currentView := currentView s; currentMovie := currentMovie s;
     userLists := userLists s; userVector := userVector s;
     isLoading := isLoading s; hasStarted := hasStarted s;
     showControlsTip := showControlsTip s; filters := v;
     recentlyFetchedIds := recentlyFetchedIds s;
     fetchTimeoutRef := fetchTimeoutRef s;
     fetchAttemptCount := fetchAttemptCount s; requests := requests s;
     feedbacks := feedbacks s; toasts := toasts s; timeouts := timeouts s |}.

Definition set_recentlyFetchedIds (v : list Z) (s : App) : App :=
  {| currentView := currentView s; currentMovie := currentMovie s;
     userLists := userLists s; userVector := userVector s;
     isLoading := isLoading s; hasStarted := hasStarted s;
     showControlsTip := showControlsTip s; filters := filters s;
     recentlyFetchedIds := v; fetchTimeoutRef := fetchTimeoutRef s;
     fetchAttemptCount := fetchAttemptCount s; requests := requests s;
     feedbacks := feedbacks s; toasts := toasts s; timeouts := timeouts s |}.

Definition set_fetchTimeoutRef (v : option Timer) (s : App) : App :=
  {| currentView := currentView s; currentMovie := currentMovie s;
     userLists := userLists s; userVector := userVector s;
     isLoading := isLoading s; hasStarted := hasStarted s;
     showControlsTip := showControlsTip s; filters := filters s;
     recentlyFetchedIds := recentlyFetchedIds s; fetchTimeoutRef := v;
     fetchAttemptCount := fetchAttemptCount s; requests := requests s;
     feedbacks := feedbacks s; toasts := toasts s; timeouts := timeouts s |}.

Definition set_fetchAttemptCount (v : Z) (s : App) : App :=
  {| currentView := currentView s; currentMovie := currentMovie s;
     userLists := userLists s; userVector := userVector s;
     isLoading := isLoading s; hasStarted := hasStarted s;
     showControlsTip := showControlsTip s; filters := filters s;
     recentlyFetchedIds := recentlyFetchedIds s;
     fetchTimeoutRef := fetchTimeoutRef s; fetchAttemptCount := v;
     requests := requests s; feedbacks := feedbacks s; toasts := toasts s;
     timeouts := timeouts s |}.

Definition set_requests (v : list MovieAPI.Request.t) (s : App) : App :=
  {| currentView := currentView s; currentMovie := currentMovie s;
     userLists := userLists s; userVector := userVector s;
     isLoading := isLoading s; hasStarted := hasStarted s;
     showControlsTip := showControlsTip s; filters := filters s;
     recentlyFetchedIds := recentlyFetchedIds s;
     fetchTimeoutRef := fetchTimeoutRef s;
     fetchAttemptCount := fetchAttemptCount s; requests := v;
     feedbacks := feedbacks s; toasts := toasts s; timeouts := timeouts s |}.

Definition set_feedbacks (v : list MovieAPI.Feedback.t) (s : App) : App :=
  {| currentView := currentView s; currentMovie := currentMovie s;
     userLists := userLists s; userVector := userVector s;
     isLoading := isLoading s; hasStarted := hasStarted s;
     showControlsTip := showControlsTip s; filters := filters s;
     recentlyFetchedIds := recentlyFetchedIds s;
     fetchTimeoutRef := fetchTimeoutRef s;
     fetchAttemptCount := fetchAttemptCount s; requests := requests s;
     feedbacks := v; toasts := toasts s; timeouts := timeouts s |}.

Definition set_toasts (v : list string) (s : App) : App :=
  {| currentView := currentView s; currentMovie := currentMovie s;
     userLists := userLists s; userVector := userVector s;
     isLoading := isLoading s; hasStarted := hasStarted s;
     showControlsTip := showControlsTip s; filters := filters s;
     recentlyFetchedIds := recentlyFetchedIds s;
     fetchTimeoutRef := fetchTimeoutRef s;
     fetchAttemptCount := fetchAttemptCount s; requests := requests s;
     feedbacks := feedbacks s; toasts := v; timeouts := timeouts s |}.

Definition set_timeouts (v : list Z) (s : App) : App :=
  {| currentView := currentView s; currentMovie := currentMovie s;
     userLists := userLists s; userVector := userVector s;
     isLoading := isLoading s; hasStarted := hasStarted s;
     showControlsTip := showControlsTip s; filters := filters s;
     recentlyFetchedIds := recentlyFetchedIds s;
     fetchTimeoutRef := fetchTimeoutRef s;
     fetchAttemptCount := fetchAttemptCount s; requests := requests s;
     feedbacks := feedbacks s; toasts := toasts s; timeouts := v |}.

(** *** The three lists *)

Definition get_list (n : ListName) (l : UserMovieList) : list Movie :=
  match n with
  | Liked => liked l
  | Saved => saved l
  | Disliked => disliked l
  end.

Definition set_list (n : ListName) (v : list Movie) (l : UserMovieList) : UserMovieList :=
  match n with
  | Liked => {| liked := v; saved := saved l; disliked := disliked l |}
  | Saved => {| liked := liked l; saved := v; disliked := disliked l |}
  | Disliked => {| liked := liked l; saved := saved l; disliked := v |}
  end.

Definition same_id (movie m : Movie) : bool := movieId m =? movieId movie.

Definition getAllSeenIds (l : UserMovieList) : list Z :=
  map movieId (liked l ++ saved l ++ disliked l).

Definition getLikedIds (l : UserMovieList) : list Z :=
  map movieId (liked l).

(** The [switch] of [handleAction]: the lists with the processed movie
    appended to the list the action names. *)
Definition classify (action : Action) (movieToProcess : Movie) (l : UserMovieList)
  : UserMovieList :=
  match action with
  | Like => set_list Liked (liked l ++ [movieToProcess]) l
  | Dislike => set_list Disliked (disliked l ++ [movieToProcess]) l
  | Save => set_list Saved (saved l ++ [movieToProcess]) l
  | Skip => l
  end.

(** The updater [handleMoveMovie] passes to [setUserLists]. *)
Definition moveMovie (movie : Movie) (fromList toList : ListName) (prev : UserMovieList)
  : UserMovieList :=
  let newLists :=
    set_list fromList
      (filter (fun m => negb (same_id movie m)) (get_list fromList prev)) prev in
  match find (same_id movie) (get_list toList newLists) with
  | Some _ => newLists
  | None => set_list toList (get_list toList newLists ++ [movie]) newLists
  end.

(** The updater [handleRemoveMovie] passes to [setUserLists]. *)
Definition removeMovie (movie : Movie) (fromList : ListName) (prev : UserMovieList)
  : UserMovieList :=
  set_list fromList
    (filter (fun m => negb (same_id movie m)) (get_list fromList prev)) prev.

Definition handleMoveMovie (movie : Movie) (fromList toList : ListName) (s : App) : App :=
  set_userLists (moveMovie movie fromList toList (userLists s)) s.

Definition handleRemoveMovie (movie : Movie) (fromList : ListName) (s : App) : App :=
  set_userLists (removeMovie movie fromList (userLists s)) s.

(** *** fetchNextMovie *)

(** The [filterObj] built from the filters: a key is [None] when it is not set. *)
Record FilterObj := {
  fo_genre : option string;
  fo_language : option string;
  fo_year_start : option Z;
  fo_year_end : option Z
}.

Definition buildFilterObj (f : Filters.FilterState) : FilterObj :=
  {| fo_genre :=
       if Z.of_nat (List.length (Filters.genres f)) >? 0
       then nth_error (Filters.genres f) 0 else None;
     fo_language :=
       if Z.of_nat (List.length (Filters.languages f)) >? 0
       then nth_error (Filters.languages f) 0 else None;
     fo_year_start :=
       if negb (fst (Filters.yearRange f) =? fst movieYearRange)
       then Some (fst (Filters.yearRange f)) else None;
     fo_year_end :=
       if negb (snd (Filters.yearRange f) =? snd movieYearRange)
       then Some (snd (Filters.yearRange f)) else None |}.

(** The argument of [MovieAPI.getRecommendation]. *)
Definition buildRequest (c : Closure) (allExcluded likedIds : list Z)
  : MovieAPI.Request.t :=
  let filterObj := buildFilterObj (cl_filters c) in
  {| MovieAPI.Request.user_vector := cl_userVector c;
     MovieAPI.Request.seen_ids := allExcluded;
     MovieAPI.Request.liked_ids := likedIds;
     MovieAPI.Request.genre := fo_genre filterObj;
     MovieAPI.Request.language := fo_language filterObj;
     MovieAPI.Request.year_start := fo_year_start filterObj;
     MovieAPI.Request.year_end := fo_year_end filterObj |}.

(** [Math.min(200 * Math.pow(2, n - 1), 2000)]; the code evaluates it only
    after the increment of the counter, so [n >= 1]. *)
Definition backoffDelay (n : Z) : Z := Z.min (200 * 2 ^ (n - 1)) 2000.

Definition toast_error (msg : string) (s : App) : App :=
  set_toasts (toasts s ++ [msg]) s.

Definition connection_failure : string :=
  "Failed to fetch movie recommendation. Please check your connection and try again.".

(** [fetchNextMovie] up to its [await]: the state it leaves and, when it sent
    a request, the continuation waiting for the answer. *)
Definition fetchNextMovie (c : Closure) (s : App) : App * option Pending :=
  if cl_isLoading c then (s, None)
  else
    (* clearTimeout(fetchTimeoutRef.current) *)
    let s := set_fetchTimeoutRef None s in
    if fetchAttemptCount s >=? maxFetchAttempts then
      let s := set_recentlyFetchedIds [] s in
      let s := set_fetchAttemptCount 0 s in
      let s := set_currentMovie None s in
      let s := set_isLoading false s in
      (s, None)
    else
      let s := set_isLoading true s in
      let seenIds := getAllSeenIds (cl_userLists c) in
      let likedIds := getLikedIds (cl_userLists c) in
      let recentIds := JS.array_from (recentlyFetchedIds s) in
      let allExcluded := seenIds ++ recentIds in
      let req := buildRequest c allExcluded likedIds in
      (set_requests (requests s ++ [req]) s,
       Some {| request := req; allExcludedIds := allExcluded; self := c |}).

(** [fetchNextMovie] from its [await] on: the answer is examined, the
    [catch] handles a rejection, the [finally] runs on every path. *)
Definition fetchNextMovie_resume (k : Pending) (o : MovieAPI.Outcome) (s : App) : App :=
  let finally := set_isLoading false in
  match o with
  | MovieAPI.Rejected =>
      let s := toast_error connection_failure s in
      let s := set_currentMovie None s in
      let s := set_fetchAttemptCount 0 s in
      finally s
  | MovieAPI.Resolved response =>
      if JS.truthy_string (MovieAPI.Response.error response) then
        let s := toast_error
                   (match MovieAPI.Response.error response with
                    | Some msg => msg
                    | None => EmptyString
                    end) s in
        let s := set_currentMovie None s in
        let s := set_fetchAttemptCount 0 s in
        finally s
      else
        match MovieAPI.Response.movie response with
        | None => finally s
        | Some m =>
            let movieExists := JS.includes (allExcludedIds k) (movieId m) in
            if movieExists then
              let s := set_recentlyFetchedIds
                         (JS.set_add (movieId m) (recentlyFetchedIds s)) s in
              let s := set_fetchAttemptCount (fetchAttemptCount s + 1) s in
              let s := set_isLoading false s in
              if fetchAttemptCount s >=? maxFetchAttempts then
                finally (set_currentMovie None s)
              else
                let delay := backoffDelay (fetchAttemptCount s) in
                let s := set_fetchTimeoutRef
                           (Some {| delay := delay; callback := self k |}) s in
                let s := set_timeouts (timeouts s ++ [delay]) s in
                finally s
            else
              let s := set_recentlyFetchedIds
                         (JS.set_add (movieId m) (recentlyFetchedIds s)) s in
              let s :=
                if JS.size (recentlyFetchedIds s) >? 50 then
                  let idsArray := JS.array_from (recentlyFetchedIds s) in
                  set_recentlyFetchedIds
                    (JS.set_of_array (JS.slice_last 50 idsArray)) s
                else s in
              let s := set_fetchAttemptCount 0 s in
              let movie :=
                {| movieId := movieId m; title := title m;
                   poster_path := poster_path m; overview := overview m;
                   genres := genres m; release_date := release_date m |} in
              let s := set_currentMovie (Some movie) s in
              let s :=
                match MovieAPI.Response.user_vector response with
                | Some v => set_userVector (Some v) s
                | None => s
                end in
              finally s
        end
  end.

(** *** Handlers *)

Definition handleStartSwiping (preSelectedMovies : list Movie) (s : App) : App :=
  let s := set_userLists
             (set_list Liked (liked (userLists s) ++ preSelectedMovies) (userLists s)) s in
  let s := set_currentView Swipe s in
  set_hasStarted true s.

Definition handleGoHome (s : App) : App :=
  let s := set_currentView Intro s in
  let s := set_hasStarted false s in
  let s := set_currentMovie None s in
  set_userVector None s.

Definition handleAction (action : Action) (s : App) : App * option Pending :=
  match currentMovie s with
  | None => (s, None)
  | Some movieToProcess =>
      if isLoading s then (s, None)
      else
        let render := s in
        let s := if showControlsTip s then set_showControlsTip false s else s in
        let s := set_currentMovie None s in
        let newUserLists := classify action movieToProcess (userLists render) in
        let s := set_userLists newUserLists s in
        let s :=
          if JS.size (recentlyFetchedIds s) >? 30 then
            let idsArray := JS.array_from (recentlyFetchedIds s) in
            set_recentlyFetchedIds (JS.set_of_array (JS.slice_last 15 idsArray)) s
          else s in
        let '(s, k) := fetchNextMovie (closure_of render) s in
        let s :=
          match action with
          | Like | Dislike =>
              set_feedbacks
                (feedbacks s ++
                 [{| MovieAPI.Feedback.user_vector := userVector render;
                     MovieAPI.Feedback.movie_id := movieId movieToProcess;
                     MovieAPI.Feedback.feedback := action |}]) s
          | Save | Skip => s
          end in
        (s, k)
  end.

Definition resetMovies (s : App) : App * option Pending :=
  let render := s in
  let s := set_currentMovie None s in
  let s := set_userVector None s in
  let s := set_recentlyFetchedIds [] s in
  let s := set_fetchAttemptCount 0 s in
  let s := set_filters
             {| Filters.genres := []; Filters.languages := [];
                Filters.yearRange := movieYearRange |} s in
  fetchNextMovie (closure_of render) s.

(** The effect on [filters, hasStarted, currentView], run by the render that
    follows a change of one of them. *)
Definition fetchEffect (s : App) : App * option Pending :=
  if hasStarted s && View_eqb (currentView s) Swipe
  then fetchNextMovie (closure_of s) s
  else (s, None).

(** ** IntroScreen.tsx: the onboarding selection *)

Module IntroScreen.

Record State := {
  searchTerm : string;
  selectedMovies : list Movie
}.

(** [filteredMovies]: the movies on offer ([moviesToShow], search results or
    popular movies) that are not selected yet. *)
Definition filteredMovies (moviesToShow : list Movie) (st : State) : list Movie :=
  filter
    (fun movie =>
       match find (fun selected => movieId selected =? movieId movie) (selectedMovies st) with
       | Some _ => false
       | None => true
       end)
    moviesToShow.

Definition handleMovieSelect (movie : Movie) (st : State) : State :=
  {| searchTerm := EmptyString; selectedMovies := selectedMovies st ++ [movie] |}.

Definition handleRemoveMovie (movieId' : Z) (st : State) : State :=
  {| searchTerm := searchTerm st;
     selectedMovies :=
       filter (fun m => negb (movieId m =? movieId')) (selectedMovies st) |}.

(** [handleStartSwiping]: the argument given to [onStartSwiping]. *)
Definition handleStartSwiping (st : State) : list Movie := selectedMovies st.

End IntroScreen.

(** ** MovieLists.tsx: the buttons on a card of the collection *)

Module MovieLists.

Definition quote : string := String (Ascii.ascii_of_nat 34) EmptyString.

Definition listName (n : ListName) : string :=
  match n with
  | Liked => "liked"
  | Saved => "saved"
  | Disliked => "disliked"
  end.

Definition toast_success (msg : string) (s : App) : App :=
  set_toasts (toasts s ++ [msg]) s.

Definition moved_message (movie : Movie) (target : string) : string :=
  ("Moved " ++ quote ++ title movie ++ quote ++ " to " ++ target)%string.

(** The handlers of a card shown in the list [currentList]; [onMoveMovie] and
    [onRemoveMovie] are the handlers of [MovieMatchApp]. *)
Definition handleMoveToLiked (movie : Movie) (currentList : ListName) (s : App) : App :=
  if negb (ListName_eqb currentList Liked)
  then toast_success (moved_message movie "Liked")
         (handleMoveMovie movie currentList Liked s)
  else s.

Definition handleMoveToSaved (movie : Movie) (currentList : ListName) (s : App) : App :=
  if negb (ListName_eqb currentList Saved)
  then toast_success (moved_message movie "Saved")
         (handleMoveMovie movie currentList Saved s)
  else s.

Definition handleMoveToDisliked (movie : Movie) (currentList : ListName) (s : App) : App :=
  if negb (ListName_eqb currentList Disliked)
  then toast_success (moved_message movie "Disliked")
         (handleMoveMovie movie currentList Disliked s)
  else s.

Definition handleRemove (movie : Movie) (currentList : ListName) (s : App) : App :=
  toast_success
    ("Removed " ++ quote ++ title movie ++ quote ++ " from your "
     ++ listName currentList ++ " list")%string
    (handleRemoveMovie movie currentList s).

(** The button of the card that moves it to [target]. *)
Definition handleMoveTo (target : ListName) : Movie -> ListName -> App -> App :=
  match target with
  | Liked => handleMoveToLiked
  | Saved => handleMoveToSaved
  | Disliked => handleMoveToDisliked
  end.

End MovieLists.

(** *** The component in its environment

    The browser delivers user events, settles pending requests and fires
    the retry timer; [inflight] holds the calls of [fetchNextMovie] that
    wait for an answer. *)

Record World := {
  component : App;
  inflight : list Pending
}.

Inductive Event :=
| StartSwiping (preSelectedMovies : list Movie)
| GoHome
| SetView (v : View)
| FiltersChange (f : Filters.FilterState)
| Act (action : Action)
| MoveMovie (movie : Movie) (fromList toList : ListName)
| RemoveMovie (movie : Movie) (fromList : ListName)
| Reset
| ControlsTip (shown : bool)
| Settle (i : nat) (o : MovieAPI.Outcome)
| TimerFires.

Definition opt_list {A : Type} (o : option A) : list A :=
  match o with Some a => [a] | None => [] end.

Fixpoint remove_nth {A : Type} (i : nat) (l : list A) : list A :=
  match i, l with
  | _, [] => []
  | O, _ :: l' => l'
  | S i', a :: l' => a :: remove_nth i' l'
  end.

(** The render after a handler: the effect runs when one of its dependencies
    changed ([filtersReplaced]: [setFilters] was given a new object). *)
Definition rerender (filtersReplaced : bool) (before after : App) : App * option Pending :=
  if filtersReplaced
     || negb (Bool.eqb (hasStarted before) (hasStarted after))
     || negb (View_eqb (currentView before) (currentView after))
  then fetchEffect after
  else (after, None).

Definition step (e : Event) (w : World) : World :=
  let s := component w in
  match e with
  | StartSwiping pre =>
      let '(s', k) := rerender false s (handleStartSwiping pre s) in
      {| component := s'; inflight := inflight w ++ opt_list k |}
  | GoHome =>
      let '(s', k) := rerender false s (handleGoHome s) in
      {| component := s'; inflight := inflight w ++ opt_list k |}
  | SetView v =>
      let '(s', k) := rerender false s (set_currentView v s) in
      {| component := s'; inflight := inflight w ++ opt_list k |}
  | FiltersChange f =>
      let '(s', k) := rerender true s (set_filters f s) in
      {| component := s'; inflight := inflight w ++ opt_list k |}
  | Act action =>
      let '(s', k) := handleAction action s in
      {| component := s'; inflight := inflight w ++ opt_list k |}
  | MoveMovie movie fromList toList =>
      {| component := handleMoveMovie movie fromList toList s; inflight := inflight w |}
  | RemoveMovie movie fromList =>
      {| component := handleRemoveMovie movie fromList s; inflight := inflight w |}
  | Reset =>
      let '(s1, k1) := resetMovies s in
      let '(s2, k2) := rerender true s s1 in
      {| component := s2; inflight := inflight w ++ opt_list k1 ++ opt_list k2 |}
  | ControlsTip shown =>
      {| component := set_showControlsTip shown s; inflight := inflight w |}
  | Settle i o =>
      match nth_error (inflight w) i with
      | Some k =>
          {| component := fetchNextMovie_resume k o s; inflight := remove_nth i (inflight w) |}
      | None => w
      end
  | TimerFires =>
      match fetchTimeoutRef s with
      | Some t =>
          let '(s', k) := fetchNextMovie (callback t) (set_fetchTimeoutRef None s) in
          {| component := s'; inflight := inflight w ++ opt_list k |}
      | None => w
      end
  end.

Definition run (es : list Event) (w : World) : World :=
  fold_left (fun w e => step e w) es w.

Definition boot : World := {| component := initial; inflight := [] |}.

(** ** Vocabulary of the statements *)

(** Whether some movie of [ms] carries the identifier [x]. *)
Definition has_id (x : Z) (ms : list Movie) : bool :=
  existsb (fun m => movieId m =? x) ms.

(** How many movies of [ms] carry the identifier [x]. *)
Definition occurrences (x : Z) (ms : list Movie) : nat :=
  List.length (filter (fun m => movieId m =? x) ms).

(** No identifier is in two of the three lists. *)
Definition disjoint_lists (l : UserMovieList) : Prop :=
  forall (x : Z) (a b : ListName),
    has_id x (get_list a l) = true -> has_id x (get_list b l) = true -> a = b.

(** The operations on the three lists: the [switch] of [handleAction] and
    the two updaters. *)
Inductive ListOp :=
| OpClassify (action : Action) (movie : Movie)
| OpMove (movie : Movie) (fromList toList : ListName)
| OpRemove (movie : Movie) (fromList : ListName).

Definition apply_op (op : ListOp) (l : UserMovieList) : UserMovieList :=
  match op with
  | OpClassify action movie => classify action movie l
  | OpMove movie fromList toList => moveMovie movie fromList toList l
  | OpRemove movie fromList => removeMovie movie fromList l
  end.

Definition apply_ops (ops : list ListOp) (l : UserMovieList) : UserMovieList :=
  fold_left (fun l op => apply_op op l) ops l.

(** The list an action appends to. *)
Definition target_of (action : Action) : option ListName :=
  match action with
  | Like => Some Liked
  | Dislike => Some Disliked
  | Save => Some Saved
  | Skip => None
  end.

(** Whether [x] is in a list other than the ones named in [keep]. *)
Definition elsewhere (x : Z) (keep : list ListName) (l : UserMovieList) : bool :=
  existsb
    (fun n => negb (existsb (ListName_eqb n) keep) && has_id x (get_list n l))
    [Liked; Saved; Disliked].

(** An operation that puts a movie into a list is given a movie that is in
    no list besides the ones it works on. *)
Definition op_confined (op : ListOp) (l : UserMovieList) : bool :=
  match op with
  | OpClassify action movie =>
      match target_of action with
      | Some n => negb (elsewhere (movieId movie) [n] l)
      | None => true
      end
  | OpMove movie fromList toList =>
      negb (elsewhere (movieId movie) [fromList; toList] l)
  | OpRemove _ _ => true
  end.

(** The answer [response] to the suspended call [k] carries a movie that the
    call had asked to exclude. *)
Definition is_duplicate (k : Pending) (o : MovieAPI.Outcome) : bool :=
  match o with
  | MovieAPI.Resolved response =>
      negb (JS.truthy_string (MovieAPI.Response.error response)) &&
      match MovieAPI.Response.movie response with
      | Some m => JS.includes (MovieAPI.Request.seen_ids (request k)) (movieId m)
      | None => false
      end
  | MovieAPI.Rejected => false
  end.

(** The answer [o] to the suspended call [k] carries a movie that is taken
    as the next candidate. *)
Definition is_accepted (k : Pending) (o : MovieAPI.Outcome) : option Movie :=
  match o with
  | MovieAPI.Resolved response =>
      if JS.truthy_string (MovieAPI.Response.error response) then None
      else match MovieAPI.Response.movie response with
           | Some m => if JS.includes (allExcludedIds k) (movieId m) then None else Some m
           | None => None
           end
  | MovieAPI.Rejected => None
  end.

(** One round of the retry loop: the pending request is answered, then the
    retry timer, if one was set, fires. *)
Definition retry_round (o : MovieAPI.Outcome) (w : World) : World :=
  step TimerFires (step (Settle 0 o) w).

(** Every answer of [os], given in turn to the request pending at that
    moment, is a duplicate for that request. *)
Fixpoint answered_with_duplicates (os : list MovieAPI.Outcome) (w : World) : bool :=
  match os with
  | [] => true
  | o :: rest =>
      match inflight w with
      | k :: _ => is_duplicate k o && answered_with_duplicates rest (retry_round o w)
      | [] => false
      end
  end.

Definition retry_rounds (os : list MovieAPI.Outcome) (w : World) : World :=
  fold_left (fun w o => retry_round o w) os w.

(** A fetch started by the current render. *)
Definition start_fetch (s : App) : World :=
  let '(s', k) := fetchNextMovie (closure_of s) s in
  {| component := s'; inflight := opt_list k |}.

(** *** Sample data *)

Definition sample_movie (i : Z) : Movie :=
  {| movieId := i; title := "t"; poster_path := "p"; overview := "o";
     genres := "g"; release_date := "d" |}.

Definition answer_movie (i : Z) : MovieAPI.Outcome :=
  MovieAPI.Resolved
    {| MovieAPI.Response.movie := Some (sample_movie i);
       MovieAPI.Response.user_vector := None;
       MovieAPI.Response.error := None |}.

Definition answer_error (msg : string) : MovieAPI.Outcome :=
  MovieAPI.Resolved
    {| MovieAPI.Response.movie := None;
       MovieAPI.Response.user_vector := None;
       MovieAPI.Response.error := Some msg |}.

(** [n] identifiers counting up from [i]. *)
Fixpoint ids_from (i : Z) (n : nat) : list Z :=
  match n with
  | O => []
  | S n' => i :: ids_from (i + 1) n'
  end.

(** A session in which [n] fresh candidates are offered and skipped. *)
Definition skipping_session (n : nat) : list Event :=
  StartSwiping [] ::
  flat_map (fun i => [Settle 0 (answer_movie i); Act Skip]) (ids_from 1 n).

(** The world waits for the answer to one request, sent by a fetch that
    runs in closure [c], with the counter at [n], no retry timer set, the
    delays [tl] scheduled and [nr] requests sent so far. *)
Definition requesting (c : Closure) (n : Z) (tl : list Z) (nr : nat) (w : World) : Prop :=
  exists k,
    inflight w = [k] /\ self k = c /\
    MovieAPI.Request.seen_ids (request k) = allExcludedIds k /\
    fetchAttemptCount (component w) = n /\
    fetchTimeoutRef (component w) = None /\
    timeouts (component w) = tl /\
    List.length (requests (component w)) = nr.

(** What holds of every world the environment can bring about: the counter
    stays within its budget and is below it while a candidate is displayed,
    the window repeats no identifier, at most one request is pending, and a
    pending request and a retry timer exclude each other. *)
Definition consistent (w : World) : Prop :=
  let s := component w in
  0 <= fetchAttemptCount s <= maxFetchAttempts /\
  (fetchAttemptCount s = maxFetchAttempts -> currentMovie s = None) /\
  NoDup (recentlyFetchedIds s) /\
  match inflight w with
  | [] =>
      match fetchTimeoutRef s with
      | Some t =>
          isLoading s = false /\ cl_isLoading (callback t) = false /\
          fetchAttemptCount s < maxFetchAttempts
      | None => True
      end
  | [k] =>
      isLoading s = true /\ fetchTimeoutRef s = None /\
      fetchAttemptCount s < maxFetchAttempts /\
      cl_isLoading (self k) = false /\
      MovieAPI.Request.seen_ids (request k) = allExcludedIds k
  | _ :: _ :: _ => False
  end.

(** What the environment keeps besides [consistent]: a displayed candidate
    is in the window, the window is covered by the exclusions of the pending
    request, and the loading flag is down when nothing is pending. *)
Definition tracked (w : World) : Prop :=
  let s := component w in
  (forall m, currentMovie s = Some m -> In (movieId m) (recentlyFetchedIds s)) /\
  (forall k, In k (inflight w) -> incl (recentlyFetchedIds s) (allExcludedIds k)) /\
  (inflight w = [] -> isLoading s = false).

(** That no identifier is twice in [ms]. *)
Definition distinct_ids (ms : list Movie) : Prop := NoDup (map movieId ms).

(** The events of the onboarding screen. *)
Inductive IntroEvent :=
| Select (movie : Movie)
| Unselect (movieId' : Z).

(** A run of the onboarding screen in which every selected movie is taken
    from the movies on offer at that moment ([offer] gives them, by step). *)
Fixpoint intro_run (offer : nat -> list Movie) (es : list IntroEvent)
         (st : IntroScreen.State) : option IntroScreen.State :=
  match es with
  | [] => Some st
  | Select movie :: rest =>
      if existsb (fun m => movieId m =? movieId movie)
                 (IntroScreen.filteredMovies (offer (List.length rest)) st)
      then intro_run offer rest (IntroScreen.handleMovieSelect movie st)
      else None
  | Unselect i :: rest =>
      intro_run offer rest (IntroScreen.handleRemoveMovie i st)
  end.

(** The events whose handlers write the three lists. *)
Definition writes_lists (e : Event) : bool :=
  match e with
  | Act _ | MoveMovie _ _ _ | RemoveMovie _ _ | StartSwiping _ => true
  | _ => false
  end.

(** What an orderly use of the component keeps besides [consistent] and
    [tracked]: no identifier is in two lists; the stored candidate is in no
    list, and at most as many identifiers were added to the window after
    its own as the counter says; whatever may still send a request or take
    an answer (a pending call, the retry timer) runs with exclusions that
    cover every identifier in the lists. *)
Definition screened (w : World) : Prop :=
  let s := component w in
  let listed := getAllSeenIds (userLists s) in
  disjoint_lists (userLists s) /\
  (forall m, currentMovie s = Some m ->
     ~ In (movieId m) listed /\
     In (movieId m)
        (JS.slice_last (Z.to_nat (fetchAttemptCount s + 1)) (recentlyFetchedIds s))) /\
  (forall k, In k (inflight w) ->
     incl listed (allExcludedIds k) /\
     incl listed (getAllSeenIds (cl_userLists (self k)) ++ recentlyFetchedIds s)) /\
  (forall t, fetchTimeoutRef s = Some t ->
     incl listed (getAllSeenIds (cl_userLists (callback t)) ++ recentlyFetchedIds s)).

(** An orderly event.  Swiping is started from the intro view, while no
    request is in progress, with movies whose identifiers are neither in the
    saved or the disliked list nor that of the stored candidate; a move
    names a source list that holds the identifier of the moved movie; the
    reset is used while no request is in progress.  Every other event is
    orderly whenever it comes. *)
Definition orderly (e : Event) (w : World) : bool :=
  let s := component w in
  match e with
  | StartSwiping preSelectedMovies =>
      View_eqb (currentView s) Intro && negb (isLoading s) &&
      forallb
        (fun m =>
           negb (has_id (movieId m) (saved (userLists s))) &&
           negb (has_id (movieId m) (disliked (userLists s))) &&
           match currentMovie s with
           | Some candidate => negb (movieId candidate =? movieId m)
           | None => true
           end)
        preSelectedMovies
  | MoveMovie movie fromList _ =>
      has_id (movieId movie) (get_list fromList (userLists s))
  | Reset => negb (isLoading s)
  | _ => true
  end.

(** Every event of [es] is orderly in the world it comes in. *)
Fixpoint orderly_run (es : list Event) (w : World) : bool :=
  match es with
  | [] => true
  | e :: rest => orderly e w && orderly_run rest (step e w)
  end.

(** * Properties *)

(** ** Arrays and sets *)

Lemma includes_In (l : list Z) (x : Z) : JS.includes l x = true <-> In x l.
Proof.
  unfold JS.includes. rewrite existsb_exists. split.
  - intros [y [Hy Heq]]. apply Z.eqb_eq in Heq. now subst.
  - intros H. exists x. split; [assumption | apply Z.eqb_refl].
Qed.

Lemma includes_not_In (l : list Z) (x : Z) : JS.includes l x = false <-> ~ In x l.
Proof.
  rewrite <- includes_In. destruct (JS.includes l x); split; congruence.
Qed.

Lemma set_add_NoDup (x : Z) (s : list Z) : NoDup s -> NoDup (JS.set_add x s).
Proof.
  intros Hs. unfold JS.set_add. destruct (JS.includes s x) eqn:E; [assumption|].
  apply includes_not_In in E. apply NoDup_app; [assumption | repeat constructor; auto | ].
  intros a Ha [<- | []]. contradiction.
Qed.

Lemma set_of_array_acc (arr acc : list Z) :
  NoDup (acc ++ arr) ->
  fold_left (fun s x => JS.set_add x s) arr acc = acc ++ arr.
Proof.
  revert acc. induction arr as [|a arr IH]; intros acc H; simpl.
  - now rewrite app_nil_r.
  - assert (Ha : JS.includes acc a = false).
    { apply includes_not_In. intros Hin. apply NoDup_remove_2 in H.
      apply H. apply in_or_app. now left. }
    unfold JS.set_add at 2. rewrite Ha.
    change (a :: arr) with ([a] ++ arr) in H. rewrite app_assoc in H.
    rewrite (IH _ H). now rewrite <- app_assoc.
Qed.

(** A set rebuilt from an array without repetitions is that array. *)
Lemma set_of_array_NoDup (arr : list Z) : NoDup arr -> JS.set_of_array arr = arr.
Proof. intros H. unfold JS.set_of_array. now rewrite set_of_array_acc. Qed.

Lemma slice_last_length {A : Type} (n : nat) (arr : list A) :
  List.length (JS.slice_last n arr) = Nat.min n (List.length arr).
Proof. unfold JS.slice_last. rewrite length_skipn. lia. Qed.

Lemma slice_last_short {A : Type} (n : nat) (arr : list A) :
  (List.length arr <= n)%nat -> JS.slice_last n arr = arr.
Proof.
  intros H. unfold JS.slice_last.
  replace (List.length arr - n)%nat with O by lia. reflexivity.
Qed.

Lemma NoDup_skipn {A : Type} (n : nat) (l : list A) : NoDup l -> NoDup (skipn n l).
Proof.
  intros H. rewrite <- (firstn_skipn n l) in H. now apply NoDup_app_remove_l in H.
Qed.

Lemma slice_last_NoDup {A : Type} (n : nat) (arr : list A) :
  NoDup arr -> NoDup (JS.slice_last n arr).
Proof. apply NoDup_skipn. Qed.

(** The set kept by [new Set(idsArray.slice(-n))]. *)
Lemma trimmed_set (n : nat) (s : list Z) :
  NoDup s -> JS.set_of_array (JS.slice_last n (JS.array_from s)) = JS.slice_last n s.
Proof. intros H. apply set_of_array_NoDup. now apply slice_last_NoDup. Qed.

(** ** Gesture classification *)

(** C4 (amended): a card released at displacement (dx, dy) reports, first
    match winning: save when dy < -100 (strictly) and |dx| < 120; else like
    when dx > 120; else dislike when dx < -120; else nothing.  In every case
    the card position is reset to the origin.  In particular (130, 0) gives
    like, (-130, 0) dislike, (20, -110) save and (50, 30) nothing. *)
Theorem release_classification (st : SwipeCard.State) :
  SwipeCard.isDragging st = true ->
  let dx := SwipeCard.translateX st in
  let dy := SwipeCard.translateY st in
  let up := dy < -100 /\ Z.abs dx < 120 in
  (up -> MovieCard.released false st = Some Save) /\
  (~ up -> dx > 120 -> MovieCard.released false st = Some Like) /\
  (~ up -> dx < -120 -> MovieCard.released false st = Some Dislike) /\
  (~ up -> -120 <= dx <= 120 -> MovieCard.released false st = None) /\
  SwipeCard.translateX (fst (SwipeCard.handleEnd false st)) = 0 /\
  SwipeCard.translateY (fst (SwipeCard.handleEnd false st)) = 0 /\
  MovieCard.released false (SwipeCard.dragged 130 0) = Some Like /\
  MovieCard.released false (SwipeCard.dragged (-130) 0) = Some Dislike /\
  MovieCard.released false (SwipeCard.dragged 20 (-110)) = Some Save /\
  MovieCard.released false (SwipeCard.dragged 50 30) = None.
Proof.
  intros Hdrag dx dy up. subst up.
  unfold MovieCard.released, SwipeCard.handleEnd,
    SwipeCard.threshold, SwipeCard.verticalThreshold.
  rewrite Hdrag. fold dx dy. cbn [negb orb fst snd].
  rewrite (Z.gtb_ltb dx).
  destruct (Z.ltb_spec dy (- (100))); destruct (Z.ltb_spec (Z.abs dx) 120);
    destruct (Z.ltb_spec 120 dx); destruct (Z.ltb_spec dx (- (120)));
    cbn [andb option_map MovieCard.handleSwipe snd fst
         SwipeCard.translateX SwipeCard.translateY];
    repeat split; intros; try reflexivity; try lia.
Qed.

Lemma release_classification_witness :
  SwipeCard.isDragging (SwipeCard.dragged 20 (-110)) = true /\
  MovieCard.released false (SwipeCard.dragged 20 (-110)) = Some Save.
Proof.
  split; [reflexivity|].
  destruct (release_classification (SwipeCard.dragged 20 (-110)) eq_refl) as [Hup _].
  apply Hup. simpl. lia.
Defined.

(** C4, as stated, fails on the boundary: a release at (0, -100) satisfies
    "dy <= -100 and |dx| < 120" and reports nothing. *)
Lemma release_at_minus_100 :
  (-100 <= -100 /\ Z.abs 0 < 120) /\
  MovieCard.released false (SwipeCard.dragged 0 (-100)) = None.
Proof. split; [lia | reflexivity]. Qed.

(** ** The three lists *)

Lemma ListName_eqb_eq (a b : ListName) : ListName_eqb a b = true <-> a = b.
Proof. destruct a, b; simpl; split; congruence. Qed.

Lemma ListName_eq_dec (a b : ListName) : {a = b} + {a <> b}.
Proof. decide equality. Defined.

Lemma get_set_same (n : ListName) (v : list Movie) (l : UserMovieList) :
  get_list n (set_list n v l) = v.
Proof. destruct n; reflexivity. Qed.

Lemma get_set_other (n n' : ListName) (v : list Movie) (l : UserMovieList) :
  n <> n' -> get_list n' (set_list n v l) = get_list n' l.
Proof. destruct n, n'; intros H; try reflexivity; congruence. Qed.

Lemma has_id_app (x : Z) (l1 l2 : list Movie) :
  has_id x (l1 ++ l2) = has_id x l1 || has_id x l2.
Proof. apply existsb_app. Qed.

Lemma has_id_without (x : Z) (movie : Movie) (ms : list Movie) :
  has_id x (filter (fun m => negb (same_id movie m)) ms)
  = has_id x ms && negb (x =? movieId movie).
Proof.
  unfold same_id. induction ms as [|m ms IH]; simpl; [reflexivity|].
  destruct (movieId m =? movieId movie) eqn:E1; simpl; rewrite IH;
    destruct (movieId m =? x) eqn:E2; simpl; try reflexivity.
  - apply Z.eqb_eq in E1, E2. replace (x =? movieId movie) with true.
    + simpl. now rewrite andb_false_r.
    + symmetry. apply Z.eqb_eq. congruence.
  - replace (x =? movieId movie) with false; [reflexivity|].
    symmetry. apply Z.eqb_neq. apply Z.eqb_neq in E1. apply Z.eqb_eq in E2. congruence.
Qed.

Lemma find_same_id (movie : Movie) (ms : list Movie) :
  (exists m, find (same_id movie) ms = Some m) <-> has_id (movieId movie) ms = true.
Proof.
  unfold same_id, has_id. induction ms as [|m ms IH]; simpl.
  - split; [intros [m H]; discriminate | discriminate].
  - destruct (movieId m =? movieId movie); simpl; [|exact IH].
    split; [reflexivity | intros _; now exists m].
Qed.

Lemma find_same_id_none (movie : Movie) (ms : list Movie) :
  find (same_id movie) ms = None <-> has_id (movieId movie) ms = false.
Proof.
  pose proof (find_same_id movie ms) as [H1 H2].
  destruct (find (same_id movie) ms) as [m|] eqn:E;
    destruct (has_id (movieId movie) ms) eqn:E'; split; try congruence.
  - intros _. exfalso. assert (false = true) by (apply H1; now exists m). discriminate.
  - intros _. destruct (H2 eq_refl). discriminate.
Qed.

Lemma occurrences_app (x : Z) (l1 l2 : list Movie) :
  occurrences x (l1 ++ l2) = (occurrences x l1 + occurrences x l2)%nat.
Proof. unfold occurrences. now rewrite filter_app, length_app. Qed.

Lemma occurrences_zero (x : Z) (ms : list Movie) :
  has_id x ms = false <-> occurrences x ms = O.
Proof.
  unfold occurrences, has_id. induction ms as [|m ms IH]; simpl; [tauto|].
  destruct (movieId m =? x); simpl; [split; discriminate | exact IH].
Qed.

Lemma occurrences_without (movie : Movie) (ms : list Movie) :
  occurrences (movieId movie) (filter (fun m => negb (same_id movie m)) ms) = O.
Proof.
  apply occurrences_zero. rewrite has_id_without, Z.eqb_refl. apply andb_false_r.
Qed.

(** The source list after a move: every entry with the identifier is gone. *)
Lemma moveMovie_source (movie : Movie) (fromList toList : ListName) (l : UserMovieList) :
  fromList <> toList ->
  get_list fromList (moveMovie movie fromList toList l)
  = filter (fun m => negb (same_id movie m)) (get_list fromList l).
Proof.
  intros Hne. unfold moveMovie.
  destruct (find _ _); [| rewrite get_set_other by congruence]; apply get_set_same.
Qed.

(** The target list after a move between two lists. *)
Lemma moveMovie_target (movie : Movie) (fromList toList : ListName) (l : UserMovieList) :
  fromList <> toList ->
  get_list toList (moveMovie movie fromList toList l)
  = if has_id (movieId movie) (get_list toList l)
    then get_list toList l
    else get_list toList l ++ [movie].
Proof.
  intros Hne. unfold moveMovie.
  rewrite (get_set_other _ _ Hne).
  destruct (find (same_id movie) (get_list toList l)) as [m|] eqn:E.
  - replace (has_id _ _) with true.
    + now rewrite get_set_other.
    + symmetry. apply find_same_id. now exists m.
  - apply find_same_id_none in E. rewrite E.
    rewrite get_set_same. reflexivity.
Qed.

(** A move inside one list takes the entries with the identifier out and
    puts the movie last. *)
Lemma moveMovie_same_list (movie : Movie) (n : ListName) (l : UserMovieList) :
  get_list n (moveMovie movie n n l)
  = filter (fun m => negb (same_id movie m)) (get_list n l) ++ [movie].
Proof.
  unfold moveMovie. rewrite get_set_same.
  destruct (find _ _) as [m|] eqn:E.
  - assert (H : has_id (movieId movie)
                  (filter (fun m => negb (same_id movie m)) (get_list n l)) = true)
      by (apply find_same_id; now exists m).
    rewrite has_id_without, Z.eqb_refl, andb_false_r in H. discriminate.
  - now rewrite get_set_same.
Qed.

Lemma moveMovie_other (movie : Movie) (fromList toList n : ListName) (l : UserMovieList) :
  n <> fromList -> n <> toList ->
  get_list n (moveMovie movie fromList toList l) = get_list n l.
Proof.
  intros H1 H2. unfold moveMovie.
  destruct (find _ _); rewrite ?(@get_set_other toList n) by congruence;
    apply get_set_other; congruence.
Qed.

(** C7 (amended): [move] takes every entry with the item's identifier out of the source
    list and leaves the other entries of that list as they were; it appends
    the item to the target list exactly when the target does not hold the
    identifier yet, and otherwise leaves the target as it was (when source
    and target are the same list, the item is taken out and put back last);
    the remaining list is untouched.  When the item is absent from the source
    list, the move is still defined and the target holds the identifier
    afterwards: exactly once, if it held the identifier at most once before
    (a target that holds the identifier is left as it is). *)
Theorem move_source_target (movie : Movie) (fromList toList : ListName)
        (l : UserMovieList) :
  let l' := moveMovie movie fromList toList l in
  let without := filter (fun m => negb (same_id movie m)) in
  (fromList <> toList ->
     get_list fromList l' = without (get_list fromList l) /\
     has_id (movieId movie) (get_list fromList l') = false) /\
  (fromList <> toList ->
     has_id (movieId movie) (get_list toList l) = true ->
     get_list toList l' = get_list toList l) /\
  (fromList <> toList ->
     has_id (movieId movie) (get_list toList l) = false ->
     get_list toList l' = get_list toList l ++ [movie]) /\
  (fromList = toList ->
     get_list toList l' = without (get_list toList l) ++ [movie]) /\
  (forall n, n <> fromList -> n <> toList -> get_list n l' = get_list n l) /\
  has_id (movieId movie) (get_list toList l') = true /\
  (has_id (movieId movie) (get_list fromList l) = false ->
   (occurrences (movieId movie) (get_list toList l) <= 1)%nat ->
   occurrences (movieId movie) (get_list toList l') = 1%nat).
Proof.
  intros l' without. subst l' without.
  assert (Hone : occurrences (movieId movie) [movie] = 1%nat)
    by (unfold occurrences; simpl; now rewrite Z.eqb_refl).
  assert (Hin : has_id (movieId movie) [movie] = true)
    by (unfold has_id; simpl; now rewrite Z.eqb_refl).
  repeat split.
  - now apply moveMovie_source.
  - rewrite moveMovie_source by assumption.
    rewrite has_id_without, Z.eqb_refl. apply andb_false_r.
  - intros Hne H. rewrite moveMovie_target by assumption. now rewrite H.
  - intros Hne H. rewrite moveMovie_target by assumption. now rewrite H.
  - intros ->. apply moveMovie_same_list.
  - intros n. apply moveMovie_other.
  - destruct (ListName_eq_dec fromList toList) as [->|Hne].
    + rewrite moveMovie_same_list, has_id_app, Hin. apply orb_true_r.
    + rewrite moveMovie_target by assumption.
      destruct (has_id (movieId movie) (get_list toList l)) eqn:E; [exact E|].
      rewrite has_id_app, Hin. apply orb_true_r.
  - intros Habsent Hle.
    destruct (ListName_eq_dec fromList toList) as [->|Hne].
    + rewrite moveMovie_same_list, occurrences_app, occurrences_without. exact Hone.
    + rewrite moveMovie_target by assumption.
      destruct (has_id (movieId movie) (get_list toList l)) eqn:E.
      * assert (occurrences (movieId movie) (get_list toList l) <> O)
          by (rewrite <- occurrences_zero; congruence).
        lia.
      * rewrite occurrences_app, Hone. apply occurrences_zero in E. lia.
Qed.

Lemma move_source_target_witness :
  has_id 4 (get_list Liked {| liked := []; saved := [sample_movie 4]; disliked := [] |}) = false /\
  (occurrences 4 (get_list Saved {| liked := []; saved := [sample_movie 4]; disliked := [] |}) <= 1)%nat /\
  occurrences 4
    (get_list Saved
       (moveMovie (sample_movie 4) Liked Saved
          {| liked := []; saved := [sample_movie 4]; disliked := [] |})) = 1%nat.
Proof.
  split; [reflexivity|]. split; [vm_compute; lia|].
  apply (move_source_target (sample_movie 4) Liked Saved
           {| liked := []; saved := [sample_movie 4]; disliked := [] |});
    [reflexivity | vm_compute; lia].
Defined.

(** C7, as stated, fails: the onboarding picks are appended to the liked
    list unchecked, so picking movie 4, going home and picking it again
    leaves it twice in the liked list; a move of movie 4 from the saved
    list, where it is not, to the liked list leaves the two entries there. *)
Lemma move_into_repeating_target :
  let w := run [StartSwiping [sample_movie 4]; GoHome; StartSwiping [sample_movie 4]] boot in
  let w' := step (MoveMovie (sample_movie 4) Saved Liked) w in
  has_id 4 (saved (userLists (component w))) = false /\
  userLists (component w')
  = moveMovie (sample_movie 4) Saved Liked (userLists (component w)) /\
  occurrences 4 (liked (userLists (component w'))) = 2%nat.
Proof. vm_compute. repeat split. Qed.

Lemma elsewhere_false (x : Z) (keep : list ListName) (l : UserMovieList) (n : ListName) :
  elsewhere x keep l = false -> has_id x (get_list n l) = true -> In n keep.
Proof.
  unfold elsewhere. intros H Hn.
  assert (Hk : existsb (ListName_eqb n) keep = true).
  { destruct (existsb (ListName_eqb n) keep) eqn:E; [reflexivity|]. exfalso.
    destruct n; simpl in H, Hn; rewrite Hn, E in H; simpl in H;
      rewrite ?orb_true_r in H; discriminate. }
  apply existsb_exists in Hk. destruct Hk as [n' [Hin Heq]].
  apply ListName_eqb_eq in Heq. now subst.
Qed.

(** Where an identifier can be after a move. *)
Lemma has_id_moveMovie (x : Z) (movie : Movie) (fromList toList n : ListName)
      (l : UserMovieList) :
  has_id x (get_list n (moveMovie movie fromList toList l)) = true ->
  (x <> movieId movie /\ has_id x (get_list n l) = true) \/
  (x = movieId movie /\
   (n = toList \/ (n <> fromList /\ has_id x (get_list n l) = true))).
Proof.
  intros H.
  destruct (Z.eq_dec x (movieId movie)) as [->|Hx].
  - right. split; [reflexivity|].
    destruct (ListName_eq_dec n toList) as [|Hto]; [now left | right].
    destruct (ListName_eq_dec n fromList) as [->|Hfrom].
    + rewrite moveMovie_source in H by congruence.
      rewrite has_id_without, Z.eqb_refl, andb_false_r in H. discriminate.
    + split; [assumption|]. now rewrite moveMovie_other in H.
  - left. split; [assumption|].
    assert (Hneq : (x =? movieId movie) = false) by now apply Z.eqb_neq.
    assert (Hnew : has_id x [movie] = false).
    { unfold has_id. simpl. rewrite orb_false_r. apply Z.eqb_neq. congruence. }
    destruct (ListName_eq_dec fromList toList) as [<-|Hft].
    + destruct (ListName_eq_dec n fromList) as [->|Hfrom].
      * rewrite moveMovie_same_list, has_id_app, has_id_without, Hneq, Hnew in H.
        now rewrite andb_true_r, orb_false_r in H.
      * now rewrite moveMovie_other in H.
    + destruct (ListName_eq_dec n fromList) as [->|Hfrom].
      * rewrite moveMovie_source, has_id_without, Hneq in H by assumption.
        now rewrite andb_true_r in H.
      * destruct (ListName_eq_dec n toList) as [->|Hto].
        -- rewrite moveMovie_target in H by assumption.
           destruct (has_id (movieId movie) (get_list toList l)); [assumption|].
           rewrite has_id_app, Hnew in H. now rewrite orb_false_r in H.
        -- now rewrite moveMovie_other in H.
Qed.

Lemma has_id_removeMovie (x : Z) (movie : Movie) (fromList n : ListName)
      (l : UserMovieList) :
  has_id x (get_list n (removeMovie movie fromList l)) = true ->
  has_id x (get_list n l) = true.
Proof.
  unfold removeMovie. destruct (ListName_eq_dec fromList n) as [->|Hne].
  - rewrite get_set_same, has_id_without. intros H. now apply andb_prop in H.
  - now rewrite get_set_other.
Qed.

(** Where an identifier can be after a classification. *)
Lemma has_id_classify (x : Z) (action : Action) (movie : Movie) (n : ListName)
      (l : UserMovieList) :
  has_id x (get_list n (classify action movie l)) = true ->
  has_id x (get_list n l) = true \/ (x = movieId movie /\ target_of action = Some n).
Proof.
  assert (Hnew : has_id x [movie] = true -> x = movieId movie).
  { unfold has_id. simpl. rewrite orb_false_r. intros H. apply Z.eqb_eq in H. congruence. }
  destruct action, n; simpl; rewrite ?has_id_app; intros H;
    try (now left);
    (apply orb_prop in H; destruct H as [H|H]; [now left | right; auto]).
Qed.

Lemma apply_op_disjoint (op : ListOp) (l : UserMovieList) :
  disjoint_lists l -> op_confined op l = true -> disjoint_lists (apply_op op l).
Proof.
  intros Hdis Hok x a b Ha Hb. destruct op as [action movie|movie fromList toList|movie fromList];
    simpl in *.
  - apply has_id_classify in Ha, Hb.
    destruct (target_of action) as [t|] eqn:Et.
    + apply negb_true_iff in Hok.
      assert (Hold : forall n, x = movieId movie -> has_id x (get_list n l) = true -> n = t).
      { intros n -> Hn. apply (elsewhere_false _ _ _ _ Hok) in Hn.
        destruct Hn as [Hn|[]]. congruence. }
      destruct Ha as [Ha|[Hxa Hta]], Hb as [Hb|[Hxb Htb]].
      * eauto.
      * rewrite (Hold a Hxb Ha). congruence.
      * rewrite (Hold b Hxa Hb). congruence.
      * congruence.
    + destruct Ha as [Ha|[_ Hta]], Hb as [Hb|[_ Htb]]; try discriminate. eauto.
  - apply negb_true_iff in Hok.
    apply has_id_moveMovie in Ha, Hb.
    assert (Hold : forall n, x = movieId movie -> n <> fromList ->
                             has_id x (get_list n l) = true -> n = toList).
    { intros n -> Hn Hin. apply (elsewhere_false _ _ _ _ Hok) in Hin.
      destruct Hin as [Hin|[Hin|[]]]; congruence. }
    destruct Ha as [[Hxa Ha]|[Hxa Ha]], Hb as [[Hxb Hb]|[Hxb Hb]]; try congruence.
    + eauto.
    + destruct Ha as [->|[Ha1 Ha2]], Hb as [->|[Hb1 Hb2]]; try reflexivity.
      * symmetry. eauto.
      * eauto.
      * rewrite (Hold a Hxa Ha1 Ha2). symmetry. eauto.
  - apply has_id_removeMovie in Ha, Hb. eauto.
Qed.

(** [move] looks for the identifier in the target list only: after a
    candidate was liked, a move of the same movie from the saved list, where
    it is not, to the disliked list leaves its identifier in two lists.  (The
    cards of the collection request a move from the list they are shown in.) *)
Example move_from_wrong_list_duplicates :
  has_id 1 (liked (apply_ops [OpClassify Like (sample_movie 1);
                              OpMove (sample_movie 1) Saved Disliked]
                             (userLists initial))) = true /\
  has_id 1 (disliked (apply_ops [OpClassify Like (sample_movie 1);
                                 OpMove (sample_movie 1) Saved Disliked]
                                (userLists initial))) = true.
Proof. split; reflexivity. Qed.

(** ** fetchNextMovie, case by case *)

Lemma fetchNextMovie_busy (c : Closure) (s : App) :
  cl_isLoading c = true -> fetchNextMovie c s = (s, None).
Proof. intros H. unfold fetchNextMovie. now rewrite H. Qed.

Lemma fetchNextMovie_exhausted (c : Closure) (s : App) :
  cl_isLoading c = false -> maxFetchAttempts <= fetchAttemptCount s ->
  fetchNextMovie c s
  = (set_isLoading false
       (set_currentMovie None
          (set_fetchAttemptCount 0
             (set_recentlyFetchedIds [] (set_fetchTimeoutRef None s)))), None).
Proof.
  intros H Hc. unfold fetchNextMovie. rewrite H. cbn [fetchAttemptCount set_fetchTimeoutRef].
  destruct (Z.geb_spec (fetchAttemptCount s) maxFetchAttempts); [reflexivity | lia].
Qed.

Lemma fetchNextMovie_sends (c : Closure) (s : App) :
  cl_isLoading c = false -> fetchAttemptCount s < maxFetchAttempts ->
  let allExcluded := getAllSeenIds (cl_userLists c) ++ recentlyFetchedIds s in
  let req := buildRequest c allExcluded (getLikedIds (cl_userLists c)) in
  fetchNextMovie c s
  = (set_requests (requests s ++ [req]) (set_isLoading true (set_fetchTimeoutRef None s)),
     Some {| request := req; allExcludedIds := allExcluded; self := c |}).
Proof.
  intros H Hc. unfold fetchNextMovie. rewrite H. cbn [fetchAttemptCount set_fetchTimeoutRef].
  destruct (Z.geb_spec (fetchAttemptCount s) maxFetchAttempts); [lia | reflexivity].
Qed.

(** A call that is left suspended has sent exactly one request, which
    carries what the continuation will compare the answer with. *)
Lemma fetchNextMovie_pending (c : Closure) (s s' : App) (k : Pending) :
  fetchNextMovie c s = (s', Some k) ->
  cl_isLoading c = false /\ fetchAttemptCount s < maxFetchAttempts /\
  self k = c /\
  allExcludedIds k = getAllSeenIds (cl_userLists c) ++ recentlyFetchedIds s /\
  MovieAPI.Request.seen_ids (request k) = allExcludedIds k /\
  request k = buildRequest c (allExcludedIds k) (getLikedIds (cl_userLists c)) /\
  s' = set_requests (requests s ++ [request k])
         (set_isLoading true (set_fetchTimeoutRef None s)).
Proof.
  intros H. destruct (cl_isLoading c) eqn:El.
  - rewrite fetchNextMovie_busy in H by assumption. discriminate.
  - destruct (Z_lt_ge_dec (fetchAttemptCount s) maxFetchAttempts) as [Hc|Hc].
    + rewrite (fetchNextMovie_sends c s El Hc) in H. cbv zeta in H.
      injection H as <- <-. cbn. repeat split; assumption.
    + rewrite fetchNextMovie_exhausted in H by (assumption || lia). discriminate.
Qed.

(** The synchronous part of a fetch never touches the lists, the stored
    vector or the filters. *)
Lemma fetchNextMovie_frame (c : Closure) (s : App) :
  let s' := fst (fetchNextMovie c s) in
  userLists s' = userLists s /\ userVector s' = userVector s /\
  filters s' = filters s /\ feedbacks s' = feedbacks s /\
  toasts s' = toasts s /\ timeouts s' = timeouts s /\
  currentView s' = currentView s /\ hasStarted s' = hasStarted s /\
  showControlsTip s' = showControlsTip s.
Proof.
  unfold fetchNextMovie. destruct (cl_isLoading c); [cbn; repeat split|].
  cbn [fetchAttemptCount set_fetchTimeoutRef].
  destruct (fetchAttemptCount s >=? maxFetchAttempts); cbn; repeat split.
Qed.

(** ** Request assembly *)

(** C8: the request sent by a fetch carries at most one genre and one
    language, the first element of the selected subset when there is one and
    no such field otherwise, and carries year_start (year_end) exactly when
    the lower (upper) bound of the selected range differs from 1900 (2024),
    with that bound as its value. *)
Theorem request_filter_fields (c : Closure) (s s' : App) (k : Pending) :
  fetchNextMovie c s = (s', Some k) ->
  let f := cl_filters c in
  let req := request k in
  requests s' = requests s ++ [req] /\
  MovieAPI.Request.genre req = hd_error (Filters.genres f) /\
  MovieAPI.Request.language req = hd_error (Filters.languages f) /\
  (fst (Filters.yearRange f) = 1900 -> MovieAPI.Request.year_start req = None) /\
  (fst (Filters.yearRange f) <> 1900 ->
   MovieAPI.Request.year_start req = Some (fst (Filters.yearRange f))) /\
  (snd (Filters.yearRange f) = 2024 -> MovieAPI.Request.year_end req = None) /\
  (snd (Filters.yearRange f) <> 2024 ->
   MovieAPI.Request.year_end req = Some (snd (Filters.yearRange f))).
Proof.
  intros H f req. subst f req.
  apply fetchNextMovie_pending in H.
  destruct H as (_ & _ & _ & _ & _ & Hreq & Hs'). rewrite Hs', Hreq. cbn.
  split; [reflexivity|].
  split; [destruct (Filters.genres (cl_filters c)); reflexivity|].
  split; [destruct (Filters.languages (cl_filters c)); reflexivity|].
  destruct (Z.eqb_spec (fst (Filters.yearRange (cl_filters c))) 1900);
    destruct (Z.eqb_spec (snd (Filters.yearRange (cl_filters c))) 2024);
    cbn; repeat split; intros; try reflexivity; contradiction.
Qed.

Lemma request_filter_fields_witness :
  let s := set_filters {| Filters.genres := ["Drama"; "Comedy"]; Filters.languages := [];
                          Filters.yearRange := (1900, 2010) |}%string initial in
  exists s' k,
    fetchNextMovie (closure_of s) s = (s', Some k) /\
    MovieAPI.Request.genre (request k) = Some "Drama"%string /\
    MovieAPI.Request.language (request k) = None /\
    MovieAPI.Request.year_start (request k) = None /\
    MovieAPI.Request.year_end (request k) = Some 2010.
Proof.
  intros s.
  destruct (fetchNextMovie (closure_of s) s) as [s' [k|]] eqn:E; [|discriminate].
  exists s', k. split; [reflexivity|].
  destruct (request_filter_fields (closure_of s) s E) as (_ & Hg & Hl & Hs & _ & _ & He).
  split; [exact Hg|]. split; [exact Hl|].
  split; [apply Hs; reflexivity | apply He; discriminate].
Defined.

(** ** Classification without a candidate *)

(** C9: for every action, the classification handler invoked while no
    candidate is displayed or while a fetch is in progress returns with the
    whole state as it was (the three lists, the rolling window, the attempt
    counter, the preference vector, the displayed candidate, and the logs of
    requests and feedback submissions) and leaves no request pending. *)
Theorem handleAction_noop (action : Action) (s : App) :
  currentMovie s = None \/ isLoading s = true ->
  handleAction action s = (s, None) /\
  forall pending,
    step (Act action) {| component := s; inflight := pending |}
    = {| component := s; inflight := pending |}.
Proof.
  intros H.
  assert (E : handleAction action s = (s, None)).
  { unfold handleAction. destruct (currentMovie s); [|reflexivity].
    destruct H as [H|H]; [discriminate | now rewrite H]. }
  split; [exact E|]. intros pending. unfold step. cbn [component inflight].
  rewrite E. cbn. now rewrite app_nil_r.
Qed.

Lemma handleAction_noop_witness :
  (currentMovie initial = None \/ isLoading initial = true) /\
  handleAction Like initial = (initial, None).
Proof.
  split; [left; reflexivity|].
  apply (handleAction_noop Like initial). left. reflexivity.
Defined.

(** ** Reset *)

(** C10: the reset operation, invoked while no fetch is in progress (the only
    time its button is shown), clears the displayed candidate, empties the
    rolling window, sets the attempt counter to 0, clears the stored
    preference vector, sets the filters to empty genre and language subsets
    and the year range (1900, 2024), and starts a fetch: exactly one request
    is sent, which excludes the identifiers of the three lists, and the
    loading flag is raised; the render that follows the reset sends no
    second request. *)
Theorem resetMovies_effect (s : App) :
  isLoading s = false ->
  let s' := fst (resetMovies s) in
  currentMovie s' = None /\
  recentlyFetchedIds s' = [] /\
  fetchAttemptCount s' = 0 /\
  userVector s' = None /\
  filters s' = {| Filters.genres := []; Filters.languages := [];
                  Filters.yearRange := (1900, 2024) |} /\
  userLists s' = userLists s /\
  isLoading s' = true /\
  exists k,
    snd (resetMovies s) = Some k /\
    requests s' = requests s ++ [request k] /\
    MovieAPI.Request.seen_ids (request k) = getAllSeenIds (userLists s) /\
    forall pending,
      step Reset {| component := s; inflight := pending |}
      = {| component := s'; inflight := pending ++ [k] |}.
Proof.
  intros H. unfold step, rerender, fetchEffect. cbn [component inflight].
  unfold resetMovies.
  rewrite fetchNextMovie_sends by (cbn; unfold maxFetchAttempts; (assumption || lia)).
  cbv zeta. cbn [fst snd].
  repeat (split; [reflexivity|]).
  eexists. split; [reflexivity|]. split; [reflexivity|]. split; [apply app_nil_r|].
  intros pending. cbn [orb].
  rewrite fetchNextMovie_busy by reflexivity.
  destruct (hasStarted _ && _); cbn [opt_list]; now rewrite app_nil_r.
Qed.

Lemma resetMovies_effect_witness :
  isLoading initial = false /\
  recentlyFetchedIds (fst (resetMovies initial)) = [] /\
  isLoading (fst (resetMovies initial)) = true.
Proof.
  split; [reflexivity|].
  destruct (resetMovies_effect initial eq_refl) as (_ & Hr & _ & _ & _ & _ & Hl & _).
  split; [exact Hr | exact Hl].
Defined.

(** The request sent by a reset is built by the render in which the button
    was pressed: it carries the vector and the filters from before the reset. *)
Lemma reset_request_uses_render (s : App) (k : Pending) :
  snd (resetMovies s) = Some k ->
  request k = buildRequest (closure_of s) (getAllSeenIds (userLists s))
                           (getLikedIds (userLists s)).
Proof.
  unfold resetMovies. intros H.
  destruct (fetchNextMovie _ _) as [s' k'] eqn:E. cbn [snd] in H. subst k'.
  apply fetchNextMovie_pending in E. destruct E as (_ & _ & _ & Hex & _ & -> & _).
  rewrite Hex. cbn. now rewrite app_nil_r.
Qed.

(** ** Errors *)

(** C6 (amended): on a transport error, or on a response whose error field
    holds a non-empty message (the code tests the field for truth, and takes
    the empty string for no error), the fetch clears the displayed
    candidate, sets the attempt counter to 0, shows the error to the user
    (the message of the response, or the connection failure text), lowers
    the loading flag, and schedules no retry and sends no request; the three
    lists and the rolling window are left as they were. *)
Theorem fetch_error_is_terminal (k : Pending) (o : MovieAPI.Outcome) (s : App)
        (msg : string) :
  (o = MovieAPI.Rejected /\ msg = connection_failure) \/
  (exists response,
     o = MovieAPI.Resolved response /\
     MovieAPI.Response.error response = Some msg /\ msg <> EmptyString) ->
  let s' := fetchNextMovie_resume k o s in
  currentMovie s' = None /\
  fetchAttemptCount s' = 0 /\
  toasts s' = toasts s ++ [msg] /\
  isLoading s' = false /\
  fetchTimeoutRef s' = fetchTimeoutRef s /\
  timeouts s' = timeouts s /\
  requests s' = requests s /\
  userLists s' = userLists s /\
  recentlyFetchedIds s' = recentlyFetchedIds s.
Proof.
  intros [[-> ->] | (response & -> & Herr & Hmsg)]; cbn.
  - repeat split.
  - unfold fetchNextMovie_resume. rewrite Herr. cbn [JS.truthy_string].
    apply String.eqb_neq in Hmsg. rewrite Hmsg. cbn. repeat split.
Qed.

Lemma fetch_error_is_terminal_witness :
  exists k s',
    fetchNextMovie (closure_of initial) initial = (s', Some k) /\
    currentMovie (fetchNextMovie_resume k (answer_error "No movies found") s') = None /\
    toasts (fetchNextMovie_resume k (answer_error "No movies found") s')
    = ["No movies found"%string].
Proof.
  destruct (fetchNextMovie (closure_of initial) initial) as [s' [k|]] eqn:E; [|discriminate].
  exists k, s'. split; [reflexivity|].
  assert (Hs' : toasts s' = []) by (injection E as <- _; reflexivity).
  destruct (@fetch_error_is_terminal k (answer_error "No movies found") s'
              "No movies found"%string) as (Hc & _ & Ht & _).
  - right. eexists. split; [reflexivity|]. split; [reflexivity | discriminate].
  - split; [exact Hc|]. rewrite Ht, Hs'. reflexivity.
Defined.

(** C6, as stated, fails: a response that carries an error field holding
    the empty string is not taken for an error.  After a candidate was
    accepted and a refetch was answered once with a duplicate, such a
    response leaves the candidate displayed, the counter at 1 and no message
    shown. *)
Lemma empty_error_is_ignored :
  let w := run [StartSwiping [sample_movie 9];
                Settle 0 (answer_movie 1);
                FiltersChange (filters initial);
                Settle 0 (answer_movie 9);
                FiltersChange (filters initial)] boot in
  let w' := step (Settle 0 (answer_error "")) w in
  List.length (inflight w) = 1%nat /\
  currentMovie (component w') = Some (sample_movie 1) /\
  fetchAttemptCount (component w') = 1 /\
  toasts (component w') = [].
Proof. vm_compute. repeat split. Qed.

(** ** Duplicates and backoff *)

(** The continuation on an answer that repeats an excluded identifier. *)
Lemma resume_duplicate (k : Pending) (o : MovieAPI.Outcome) (s : App) :
  is_duplicate k o = true ->
  MovieAPI.Request.seen_ids (request k) = allExcludedIds k ->
  exists m,
    let n := fetchAttemptCount s + 1 in
    let s1 := set_isLoading false
                (set_fetchAttemptCount n
                   (set_recentlyFetchedIds
                      (JS.set_add (movieId m) (recentlyFetchedIds s)) s)) in
    fetchNextMovie_resume k o s
    = if n >=? maxFetchAttempts
      then set_isLoading false (set_currentMovie None s1)
      else set_isLoading false
             (set_timeouts (timeouts s ++ [backoffDelay n])
                (set_fetchTimeoutRef
                   (Some {| delay := backoffDelay n; callback := self k |}) s1)).
Proof.
  destruct o as [response|]; [|discriminate]. unfold is_duplicate, fetchNextMovie_resume.
  intros H Hseen. apply andb_prop in H. destruct H as [Herr Hdup].
  apply negb_true_iff in Herr. rewrite Herr.
  destruct (MovieAPI.Response.movie response) as [m|]; [|discriminate].
  rewrite Hseen in Hdup. rewrite Hdup. exists m. reflexivity.
Qed.

Section RetryLoop.

(** The closure whose fetch is being retried; it was created by a render
    that was not loading. *)
Variable c : Closure.
Hypothesis c_idle : cl_isLoading c = false.

(** A duplicate that does not use up the attempts: the retry is scheduled
    with the delay of the new counter value, and when the timer fires one
    more request is sent by the same closure. *)
Lemma retry_round_again (n : Z) (tl : list Z) (nr : nat)
      (o : MovieAPI.Outcome) (rest : list MovieAPI.Outcome) (w : World) :
  n + 1 < maxFetchAttempts ->
  requesting c n tl nr w ->
  answered_with_duplicates (o :: rest) w = true ->
  requesting c (n + 1) (tl ++ [backoffDelay (n + 1)]) (S nr) (retry_round o w) /\
  answered_with_duplicates rest (retry_round o w) = true.
Proof.
  intros Hn (k & Hin & Hself & Hseen & Hcount & Htimer & Htl & Hnr) Hans.
  cbn [answered_with_duplicates] in Hans. rewrite Hin in Hans.
  apply andb_prop in Hans. destruct Hans as [Hdup Hrest].
  split; [|exact Hrest]. clear Hrest.
  unfold retry_round. unfold step at 2. rewrite Hin. cbn [nth_error remove_nth inflight component].
  destruct (resume_duplicate k o (component w) Hdup Hseen) as [m Hres].
  cbv zeta in Hres. rewrite Hcount in Hres.
  destruct (Z.geb_spec (n + 1) maxFetchAttempts); [lia|].
  rewrite Hres. unfold step. cbn [component inflight fetchTimeoutRef set_isLoading
                                  set_timeouts set_fetchTimeoutRef callback].
  rewrite Hself. rewrite fetchNextMovie_sends by (cbn; assumption).
  cbn. eexists. split; [reflexivity|]. cbn.
  rewrite Htl, length_app, Hnr. cbn. repeat split. lia.
Qed.

(** The duplicate that uses up the attempts: no retry is scheduled, nothing
    is pending, and the candidate is cleared. *)
Lemma retry_round_last (n : Z) (tl : list Z) (nr : nat)
      (o : MovieAPI.Outcome) (w : World) :
  n + 1 = maxFetchAttempts ->
  requesting c n tl nr w ->
  answered_with_duplicates [o] w = true ->
  let w' := retry_round o w in
  currentMovie (component w') = None /\
  fetchAttemptCount (component w') = maxFetchAttempts /\
  fetchTimeoutRef (component w') = None /\
  inflight w' = [] /\
  isLoading (component w') = false /\
  timeouts (component w') = tl /\
  List.length (requests (component w')) = nr /\
  step TimerFires w' = w'.
Proof.
  intros Hn (k & Hin & Hself & Hseen & Hcount & Htimer & Htl & Hnr) Hans.
  cbn [answered_with_duplicates] in Hans. rewrite Hin in Hans.
  apply andb_prop in Hans. destruct Hans as [Hdup _].
  destruct (resume_duplicate k o (component w) Hdup Hseen) as [m Hres].
  cbv zeta in Hres. rewrite Hcount in Hres.
  destruct (Z.geb_spec (n + 1) maxFetchAttempts); [|lia].
  assert (Hsettle : step (Settle 0 o) w
                    = {| component := fetchNextMovie_resume k o (component w);
                         inflight := [] |})
    by (unfold step; rewrite Hin; reflexivity).
  assert (Hquiet : forall w0, fetchTimeoutRef (component w0) = None ->
                              step TimerFires w0 = w0)
    by (intros w0 H0; unfold step; now rewrite H0).
  intros w'. subst w'. unfold retry_round. rewrite Hsettle.
  rewrite !Hquiet by (cbn; rewrite Hres; exact Htimer).
  cbn [component inflight]. rewrite Hres. cbn.
  repeat split; try assumption.
Qed.

End RetryLoop.

Lemma start_fetch_requesting (s : App) :
  isLoading s = false -> fetchAttemptCount s < maxFetchAttempts ->
  requesting (closure_of s) (fetchAttemptCount s) (timeouts s)
             (S (List.length (requests s))) (start_fetch s).
Proof.
  intros Hl Hc. unfold start_fetch.
  rewrite fetchNextMovie_sends by assumption. cbn.
  eexists. split; [reflexivity|]. cbn. rewrite length_app. cbn.
  repeat split. lia.
Qed.

(** C1 (amended): when a fetch is started with the counter at 0 and five
    answers in a row each carry a candidate whose identifier is in the
    exclusion list sent with the request it answers, exactly five requests
    are sent; the retries are scheduled with the delays 200, 400, 800 and
    1600 ms, each min(200 * 2^(FetchAttempt - 1), 2000) for the counter just
    incremented; the fifth duplicate schedules nothing: the candidate is
    cleared, the counter stands at 5, no request is pending and no timer is
    set, so that no sixth request follows. *)
Theorem five_duplicates_exhaust_retries (s : App) (os : list MovieAPI.Outcome) :
  isLoading s = false ->
  fetchAttemptCount s = 0 ->
  List.length os = 5%nat ->
  answered_with_duplicates os (start_fetch s) = true ->
  let w := retry_rounds os (start_fetch s) in
  currentMovie (component w) = None /\
  List.length (requests (component w)) = (List.length (requests s) + 5)%nat /\
  timeouts (component w) = timeouts s ++ [200; 400; 800; 1600] /\
  timeouts (component w)
  = timeouts s ++ map backoffDelay [1; 2; 3; 4] /\
  fetchAttemptCount (component w) = 5 /\
  fetchTimeoutRef (component w) = None /\
  inflight w = [] /\
  isLoading (component w) = false /\
  step TimerFires w = w.
Proof.
  intros Hl Hc Hlen Hans.
  destruct os as [|o1 [|o2 [|o3 [|o4 [|o5 [|]]]]]]; try discriminate. clear Hlen.
  assert (Hcl : cl_isLoading (closure_of s) = false) by exact Hl.
  assert (H0 : requesting (closure_of s) 0 (timeouts s)
                          (S (List.length (requests s))) (start_fetch s)).
  { rewrite <- Hc. apply start_fetch_requesting; [assumption|].
    rewrite Hc. reflexivity. }
  destruct (@retry_round_again _ Hcl 0 _ _ o1 _ _ eq_refl H0 Hans) as [H1 A1].
  destruct (@retry_round_again _ Hcl 1 _ _ o2 _ _ eq_refl H1 A1) as [H2 A2].
  destruct (@retry_round_again _ Hcl 2 _ _ o3 _ _ eq_refl H2 A2) as [H3 A3].
  destruct (@retry_round_again _ Hcl 3 _ _ o4 _ _ eq_refl H3 A3) as [H4 A4].
  destruct (@retry_round_last _ 4 _ _ o5 _ eq_refl H4 A4)
    as (R1 & R2 & R3 & R4 & R5 & R6 & R7 & R8).
  cbn [retry_rounds fold_left].
  assert (Hdelays : forall l : list Z,
             (((l ++ [backoffDelay (0 + 1)]) ++ [backoffDelay (1 + 1)])
                ++ [backoffDelay (2 + 1)]) ++ [backoffDelay (3 + 1)]
             = l ++ [200; 400; 800; 1600])
    by (intros l; repeat rewrite <- app_assoc; reflexivity).
  rewrite Hdelays in R6.
  split; [exact R1|]. split; [rewrite R7; lia|]. split; [exact R6|].
  split; [exact R6|]. split; [exact R2|]. split; [exact R3|].
  split; [exact R4|]. split; [exact R5 | exact R8].
Qed.

Lemma five_duplicates_exhaust_retries_witness :
  let s := set_userLists {| liked := [sample_movie 7]; saved := []; disliked := [] |}
                         initial in
  let os := repeat (answer_movie 7) 5 in
  isLoading s = false /\ fetchAttemptCount s = 0 /\ List.length os = 5%nat /\
  answered_with_duplicates os (start_fetch s) = true /\
  timeouts (component (retry_rounds os (start_fetch s))) = [200; 400; 800; 1600] /\
  inflight (retry_rounds os (start_fetch s)) = [].
Proof.
  intros s os.
  split; [reflexivity|]. split; [reflexivity|]. split; [reflexivity|].
  split; [reflexivity|].
  destruct (@five_duplicates_exhaust_retries s os eq_refl eq_refl eq_refl eq_refl)
    as (_ & _ & Ht & _ & _ & _ & Hi & _).
  split; [exact Ht | exact Hi].
Defined.

(** C1, as stated, fails: five duplicates in a row leave four scheduled
    delays; the delay of 2000 ms, the value of the formula at 5, is never
    scheduled. *)
Lemma no_fifth_delay :
  let s := set_userLists {| liked := [sample_movie 7]; saved := []; disliked := [] |}
                         initial in
  let os := repeat (answer_movie 7) 5 in
  let w := retry_rounds os (start_fetch s) in
  answered_with_duplicates os (start_fetch s) = true /\
  List.length (requests (component w)) = 5%nat /\
  timeouts (component w) = [200; 400; 800; 1600] /\
  timeouts (component w) <> [200; 400; 800; 1600; 2000] /\
  backoffDelay 5 = 2000.
Proof. vm_compute. repeat split. discriminate. Qed.

(** ** What the environment cannot break *)

Lemma consistent_frame (s s' : App) (pending : list Pending) :
  currentMovie s' = currentMovie s \/ currentMovie s' = None ->
  fetchAttemptCount s' = fetchAttemptCount s ->
  recentlyFetchedIds s' = recentlyFetchedIds s ->
  fetchTimeoutRef s' = fetchTimeoutRef s ->
  isLoading s' = isLoading s ->
  consistent {| component := s; inflight := pending |} ->
  consistent {| component := s'; inflight := pending |}.
Proof.
  unfold consistent. cbn [component inflight].
  intros Hm -> -> -> -> (Hrange & Hcur & Hrest).
  split; [assumption|]. split; [|assumption].
  intros Hmax. destruct Hm as [-> | ->]; auto.
Qed.

(** The state differs from a consistent one in fields the invariant does not
    read, or by a cleared candidate. *)
Ltac framed :=
  apply consistent_frame;
  [first [left; reflexivity | right; reflexivity] | reflexivity ..].

Ltac budget := unfold maxFetchAttempts in *; lia.

Lemma fetch_consistent (c : Closure) (s : App) (pending : list Pending) :
  consistent {| component := s; inflight := pending |} ->
  cl_isLoading c = isLoading s ->
  consistent {| component := fst (fetchNextMovie c s);
                inflight := pending ++ opt_list (snd (fetchNextMovie c s)) |}.
Proof.
  intros Hinv Hc. destruct (isLoading s) eqn:El.
  - rewrite fetchNextMovie_busy by assumption. cbn. now rewrite app_nil_r.
  - assert (Hp : pending = []).
    { destruct Hinv as (_ & _ & _ & H). cbn [component inflight] in H.
      destruct pending as [|k [|k' rest]]; [reflexivity| |contradiction].
      destruct H as (H & _). congruence. }
    subst pending. destruct Hinv as (Hrange & Hcur & Hnd & _).
    cbn [component] in Hrange, Hcur, Hnd.
    destruct (Z_lt_ge_dec (fetchAttemptCount s) maxFetchAttempts) as [Hlt|Hge].
    + rewrite (fetchNextMovie_sends c s Hc Hlt). cbv zeta. unfold consistent. cbn.
      repeat split; try assumption; lia.
    + rewrite fetchNextMovie_exhausted by (assumption || lia). unfold consistent. cbn.
      repeat split; try constructor; budget.
Qed.

Lemma resume_consistent (k : Pending) (o : MovieAPI.Outcome) (s : App) :
  consistent {| component := s; inflight := [k] |} ->
  consistent {| component := fetchNextMovie_resume k o s; inflight := [] |}.
Proof.
  intros (Hrange & Hcur & Hnd & Hload & Htimer & Hlt & Hcl & Hseen).
  cbn [component inflight] in *. unfold consistent. cbn [component inflight].
  unfold fetchNextMovie_resume.
  destruct o as [response|].
  2:{ cbn. rewrite Htimer. repeat split; try assumption; budget. }
  destruct (JS.truthy_string _).
  { cbn. rewrite Htimer. repeat split; try assumption; budget. }
  destruct (MovieAPI.Response.movie response) as [m|].
  2:{ cbn. rewrite Htimer. repeat split; try assumption; lia. }
  pose proof (set_add_NoDup (movieId m) Hnd) as Hnd'.
  destruct (JS.includes _ _).
  - cbn [fetchAttemptCount set_isLoading set_fetchAttemptCount set_recentlyFetchedIds].
    destruct (Z.geb_spec (fetchAttemptCount s + 1) maxFetchAttempts).
    + cbn. rewrite Htimer. repeat split; try assumption; lia.
    + cbn. repeat split; try assumption; lia.
  - cbn [recentlyFetchedIds set_recentlyFetchedIds].
    assert (Htrim : NoDup (JS.set_of_array
                             (JS.slice_last 50
                                (JS.array_from (JS.set_add (movieId m) (recentlyFetchedIds s)))))).
    { rewrite trimmed_set by assumption. now apply slice_last_NoDup. }
    destruct (MovieAPI.Response.user_vector response); destruct (JS.size _ >? 50);
      cbn; rewrite Htimer; repeat split; try assumption; budget.
Qed.

Lemma rerender_consistent (replaced : bool) (before s : App) (pending : list Pending) :
  consistent {| component := s; inflight := pending |} ->
  consistent {| component := fst (rerender replaced before s);
                inflight := pending ++ opt_list (snd (rerender replaced before s)) |}.
Proof.
  intros H. unfold rerender, fetchEffect.
  destruct (replaced || _ || _); [destruct (hasStarted s && _)|];
    try (cbn; now rewrite app_nil_r).
  now apply fetch_consistent.
Qed.

(** A handler that leaves the counter, the window, the timer and the loading
    flag alone, followed by the render it causes. *)
Ltac after_rerender H :=
  match goal with
  | |- context [rerender ?b ?before ?after] =>
      generalize (fun pending Hp => @rerender_consistent b before after pending Hp);
      destruct (rerender b before after); cbn [fst snd];
      let Hr := fresh "Hr" in
      intros Hr; apply Hr; revert H; framed
  end.

Lemma trim_consistent (s : App) (pending : list Pending) :
  consistent {| component := s; inflight := pending |} ->
  consistent
    {| component :=
         set_recentlyFetchedIds
           (JS.set_of_array (JS.slice_last 15 (JS.array_from (recentlyFetchedIds s)))) s;
       inflight := pending |}.
Proof.
  unfold consistent. cbn [component inflight]. intros (Hrange & Hcur & Hnd & H). cbn.
  split; [assumption|]. split; [assumption|]. split; [|exact H].
  rewrite trimmed_set by assumption. now apply slice_last_NoDup.
Qed.

Lemma step_consistent (e : Event) (w : World) : consistent w -> consistent (step e w).
Proof.
  destruct w as [s pending]. intros H.
  destruct e as [pre| |v|f|action|movie fromList toList|movie fromList| |shown|i o|];
    unfold step; cbn [component inflight].
  - after_rerender H.
  - after_rerender H.
  - after_rerender H.
  - after_rerender H.
  - unfold handleAction.
    destruct (currentMovie s) as [m|]; [|cbn; now rewrite app_nil_r].
    destruct (isLoading s) eqn:El; [cbn; now rewrite app_nil_r|].
    set (s1 := set_userLists _ _).
    assert (H1 : consistent {| component := s1; inflight := pending |})
      by (revert H; subst s1; destruct (showControlsTip s); framed).
    assert (Hl : cl_isLoading (closure_of s) = isLoading s1)
      by (subst s1; destruct (showControlsTip s); reflexivity).
    clearbody s1.
    set (trimmed := if JS.size (recentlyFetchedIds s1) >? 30 then _ else _).
    assert (Ht : consistent {| component := trimmed; inflight := pending |})
      by (subst trimmed; destruct (JS.size _ >? 30);
          [now apply trim_consistent | assumption]).
    assert (Hl' : cl_isLoading (closure_of s) = isLoading trimmed)
      by (subst trimmed; destruct (JS.size _ >? 30); exact Hl).
    pose proof (fetch_consistent (closure_of s) Ht Hl') as Hf.
    destruct (fetchNextMovie (closure_of s) trimmed) as [s' k]. cbn [fst snd] in Hf.
    destruct action; try exact Hf; revert Hf; framed.
  - revert H. framed.
  - revert H. framed.
  - unfold resetMovies.
    set (cleared := set_filters _ _).
    assert (Hc : consistent {| component := cleared; inflight := pending |}).
    { subst cleared. destruct H as (Hrange & Hcur & Hnd & H). unfold consistent.
      cbn [component inflight] in *. cbn.
      split; [budget|]. split; [reflexivity|]. split; [constructor|].
      destruct pending as [|k [|k' rest]]; [| |contradiction].
      - destruct (fetchTimeoutRef s); [|exact I].
        destruct H as (? & ? & ?). repeat split; assumption.
      - destruct H as (? & ? & ? & ? & ?). repeat split; assumption. }
    pose proof (@fetch_consistent (closure_of s) cleared pending Hc eq_refl) as Hf.
    destruct (fetchNextMovie (closure_of s) cleared) as [s1 k1]. cbn [fst snd] in Hf.
    pose proof (rerender_consistent true s Hf) as Hr.
    destruct (rerender true s s1) as [s2 k2]. cbn [fst snd] in Hr.
    now rewrite <- app_assoc in Hr.
  - revert H. framed.
  - destruct (nth_error pending i) as [k|] eqn:E; [|exact H].
    assert (Hp : pending = [k] /\ i = O).
    { destruct H as (_ & _ & _ & H). cbn [inflight] in H.
      destruct pending as [|k0 [|k1 rest]]; [destruct i; discriminate| |contradiction].
      destruct i as [|[|i]]; try discriminate. injection E as ->. now split. }
    destruct Hp as [-> ->]. cbn [remove_nth]. now apply resume_consistent.
  - destruct (fetchTimeoutRef s) as [t|] eqn:Et; [|exact H].
    assert (Hp : pending = [] /\ isLoading s = false /\ cl_isLoading (callback t) = false).
    { destruct H as (_ & _ & _ & H). cbn [component inflight] in H.
      destruct pending as [|k0 [|k1 rest]]; [| |contradiction].
      - rewrite Et in H. destruct H as (? & ? & ?). now repeat split.
      - destruct H as (_ & H & _). congruence. }
    destruct Hp as (-> & Hl & Hcl).
    assert (Hs : consistent {| component := set_fetchTimeoutRef None s; inflight := [] |}).
    { destruct H as (Hrange & Hcur & Hnd & _). unfold consistent. cbn. now repeat split. }
    pose proof (@fetch_consistent (callback t) _ [] Hs ltac:(cbn; congruence)) as Hf.
    destruct (fetchNextMovie (callback t) (set_fetchTimeoutRef None s)) as [s' k].
    exact Hf.
Qed.

Lemma boot_consistent : consistent boot.
Proof.
  unfold consistent. cbn. repeat split; try constructor; unfold maxFetchAttempts; lia.
Qed.

Lemma run_consistent (es : list Event) (w : World) : consistent w -> consistent (run es w).
Proof.
  revert w. induction es as [|e es IH]; intros w H; [exact H|].
  cbn [run fold_left]. apply IH. now apply step_consistent.
Qed.

(** ** The rolling window of recently fetched identifiers *)

(** The continuation on an answer that is taken as the next candidate. *)
Lemma resume_accepted (k : Pending) (o : MovieAPI.Outcome) (s : App) (m : Movie) :
  is_accepted k o = Some m ->
  let added := JS.set_add (movieId m) (recentlyFetchedIds s) in
  let s' := fetchNextMovie_resume k o s in
  recentlyFetchedIds s'
  = (if JS.size added >? 50
     then JS.set_of_array (JS.slice_last 50 (JS.array_from added))
     else added) /\
  currentMovie s' = Some m /\ fetchAttemptCount s' = 0 /\ isLoading s' = false /\
  userLists s' = userLists s /\ fetchTimeoutRef s' = fetchTimeoutRef s /\
  timeouts s' = timeouts s /\ requests s' = requests s /\ toasts s' = toasts s.
Proof.
  destruct o as [response|]; [|discriminate]. unfold is_accepted, fetchNextMovie_resume.
  destruct (JS.truthy_string _); [discriminate|].
  destruct (MovieAPI.Response.movie response) as [m'|]; [|discriminate].
  destruct (JS.includes _ _); [discriminate|]. intros [= <-].
  cbn [recentlyFetchedIds set_recentlyFetchedIds].
  destruct m'. cbn [movieId title poster_path overview genres release_date].
  destruct (MovieAPI.Response.user_vector response);
    destruct (JS.size _ >? 50); cbn; repeat split.
Qed.

(** C2 (amended): when a candidate is accepted, the window becomes the (at
    most) 50 most recently added identifiers, in insertion order, of the
    window with the accepted identifier added.  Immediately after a
    classification action that is carried out, the window holds at most 30
    identifiers: a window of more than 30 is cut to exactly its 15 most
    recently added identifiers, in insertion order, and a window of at most
    30 is left as it was.  (The last two are stated for a counter below the
    maximum and a window without repetitions, which is what every world the
    environment can bring about offers while a candidate is displayed.) *)
Theorem window_bounds :
  (forall (k : Pending) (o : MovieAPI.Outcome) (s : App) (m : Movie),
      is_accepted k o = Some m ->
      NoDup (recentlyFetchedIds s) ->
      let s' := fetchNextMovie_resume k o s in
      recentlyFetchedIds s'
      = JS.slice_last 50 (JS.set_add (movieId m) (recentlyFetchedIds s)) /\
      (List.length (recentlyFetchedIds s') <= 50)%nat) /\
  (forall (action : Action) (s : App) (m : Movie),
      currentMovie s = Some m ->
      isLoading s = false ->
      NoDup (recentlyFetchedIds s) ->
      let s' := fst (handleAction action s) in
      (List.length (recentlyFetchedIds s') <= 30)%nat /\
      (fetchAttemptCount s < maxFetchAttempts ->
       (30 < List.length (recentlyFetchedIds s))%nat ->
       recentlyFetchedIds s' = JS.slice_last 15 (recentlyFetchedIds s) /\
       List.length (recentlyFetchedIds s') = 15%nat) /\
      (fetchAttemptCount s < maxFetchAttempts ->
       (List.length (recentlyFetchedIds s) <= 30)%nat ->
       recentlyFetchedIds s' = recentlyFetchedIds s)) /\
  (forall es : list Event,
      let s := component (run es boot) in
      NoDup (recentlyFetchedIds s) /\
      (currentMovie s <> None -> fetchAttemptCount s < maxFetchAttempts)).
Proof.
  split; [|split].
  3:{ intros es s. subst s.
      destruct (run_consistent es boot_consistent) as (Hrange & Hcur & Hnd & _).
      split; [assumption|]. intros Hm.
      destruct (Z.eq_dec (fetchAttemptCount (component (run es boot))) maxFetchAttempts)
        as [E|E]; [now apply Hcur in E | lia]. }
  - intros k o s m Hacc Hnd s'. subst s'.
    destruct (resume_accepted k o s Hacc) as (-> & _).
    pose proof (set_add_NoDup (movieId m) Hnd) as Hnd'.
    unfold JS.size. destruct (Z.gtb_spec (Z.of_nat (List.length (JS.set_add (movieId m) (recentlyFetchedIds s)))) 50).
    + rewrite trimmed_set by assumption. split; [reflexivity|].
      rewrite slice_last_length. lia.
    + rewrite slice_last_short by lia. split; [reflexivity | lia].
  - intros action s m Hm Hl Hnd s'. subst s'.
    unfold handleAction. rewrite Hm, Hl.
    set (trimmed := if JS.size (recentlyFetchedIds _) >? 30 then _ else _).
    assert (Hcl : cl_isLoading (closure_of s) = false) by exact Hl.
    assert (Hcount : fetchAttemptCount trimmed = fetchAttemptCount s).
    { subst trimmed. destruct (JS.size _ >? 30); destruct (showControlsTip s); reflexivity. }
    assert (Hwin : recentlyFetchedIds trimmed
                   = if (30 <? List.length (recentlyFetchedIds s))%nat
                     then JS.slice_last 15 (recentlyFetchedIds s)
                     else recentlyFetchedIds s).
    { subst trimmed.
      replace (recentlyFetchedIds (set_userLists _ _)) with (recentlyFetchedIds s)
        by (destruct (showControlsTip s); reflexivity).
      unfold JS.size.
      destruct (Z.gtb_spec (Z.of_nat (List.length (recentlyFetchedIds s))) 30);
        destruct (Nat.ltb_spec 30 (List.length (recentlyFetchedIds s))); try lia.
      - cbn [recentlyFetchedIds set_recentlyFetchedIds]. now apply trimmed_set.
      - destruct (showControlsTip s); reflexivity. }
    assert (Hafter : recentlyFetchedIds (fst (fetchNextMovie (closure_of s) trimmed))
                     = if fetchAttemptCount s >=? maxFetchAttempts
                       then [] else recentlyFetchedIds trimmed).
    { destruct (Z.geb_spec (fetchAttemptCount s) maxFetchAttempts).
      - rewrite fetchNextMovie_exhausted by (assumption || lia). reflexivity.
      - rewrite fetchNextMovie_sends by (assumption || lia). reflexivity. }
    assert (Hfst : recentlyFetchedIds
                     (fst (let '(s0, k) := fetchNextMovie (closure_of s) trimmed in
                           (match action with
                            | Like | Dislike =>
                                set_feedbacks
                                  (feedbacks s0 ++
                                   [{| MovieAPI.Feedback.user_vector := userVector s;
                                       MovieAPI.Feedback.movie_id := movieId m;
                                       MovieAPI.Feedback.feedback := action |}]) s0
                            | _ => s0
                            end, k)))
                   = recentlyFetchedIds (fst (fetchNextMovie (closure_of s) trimmed))).
    { destruct (fetchNextMovie (closure_of s) trimmed) as [s0 k0].
      destruct action; reflexivity. }
    rewrite Hfst, Hafter, Hwin. clear Hfst Hafter Hwin.
    destruct (Z.geb_spec (fetchAttemptCount s) maxFetchAttempts);
      destruct (Nat.ltb_spec 30 (List.length (recentlyFetchedIds s)));
      repeat split; intros; try lia; try reflexivity;
      rewrite ?slice_last_length; cbn [List.length]; lia.
Qed.

Lemma window_bounds_witness :
  let w := run (removelast (skipping_session 31)) boot in
  let s := component (step (Settle 0 (answer_movie 32)) (step (FiltersChange (filters initial)) w)) in
  currentMovie s = Some (sample_movie 32) /\
  isLoading s = false /\
  recentlyFetchedIds s = ids_from 1 32 /\
  recentlyFetchedIds (fst (handleAction Like s)) = ids_from 18 15.
Proof.
  intros w s.
  assert (Hm : currentMovie s = Some (sample_movie 32)) by (vm_compute; reflexivity).
  assert (Hl : isLoading s = false) by (vm_compute; reflexivity).
  assert (Hw : recentlyFetchedIds s = ids_from 1 32) by (vm_compute; reflexivity).
  assert (Hnd : NoDup (recentlyFetchedIds s)).
  { rewrite Hw. apply (NoDup_count_occ' Z.eq_dec). intros x Hx.
    repeat (destruct Hx as [<-|Hx]; [vm_compute; reflexivity|]). destruct Hx. }
  assert (Hc : fetchAttemptCount s < maxFetchAttempts) by (vm_compute; reflexivity).
  assert (Hlen : (30 < List.length (recentlyFetchedIds s))%nat) by (rewrite Hw; simpl; lia).
  split; [exact Hm|]. split; [exact Hl|]. split; [exact Hw|].
  destruct (proj1 (proj2 window_bounds) Like s (sample_movie 32) Hm Hl Hnd) as (_ & Hcut & _).
  destruct (Hcut Hc Hlen) as [-> _]. rewrite Hw. reflexivity.
Defined.

(** C2, as stated, fails: after sixteen candidates were offered and skipped
    in turn, the window holds sixteen identifiers right after the sixteenth
    classification. *)
Lemma sixteen_after_classification :
  let w := run (removelast (skipping_session 16)) boot in
  let w' := step (Act Skip) w in
  currentMovie (component w) = Some (sample_movie 16) /\
  isLoading (component w) = false /\
  currentMovie (component w') = None /\
  recentlyFetchedIds (component w') = ids_from 1 16 /\
  (15 < List.length (recentlyFetchedIds (component w')))%nat.
Proof. vm_compute. repeat split; lia. Qed.

(** The path taken on a duplicate adds to the window without cutting it: with
    movie 999 picked at the start and 50 fresh candidates accepted since, a
    fetch answered with 999 leaves 51 identifiers in the window. *)
Example window_past_50 :
  let refetch i := [FiltersChange (filters initial); Settle 0 (answer_movie i)] in
  let w := run (StartSwiping [sample_movie 999] :: Settle 0 (answer_movie 1)
                :: flat_map refetch (ids_from 2 49)) boot in
  let w' := run (refetch 999) w in
  List.length (recentlyFetchedIds (component w)) = 50%nat /\
  List.length (recentlyFetchedIds (component w')) = 51%nat.
Proof. vm_compute. split; reflexivity. Qed.

(** ** The attempt counter *)




(** ** Links between the handlers and the statements above *)

Lemma has_id_includes (x : Z) (ms : list Movie) :
  has_id x ms = JS.includes (map movieId ms) x.
Proof.
  unfold has_id, JS.includes. induction ms as [|m ms IH]; simpl; [reflexivity|].
  now rewrite IH, (Z.eqb_sym x).
Qed.

(** A classification that is carried out applies [classify] to the lists. *)
Lemma handleAction_classifies (action : Action) (s : App) (m : Movie) :
  currentMovie s = Some m -> isLoading s = false ->
  userLists (fst (handleAction action s)) = classify action m (userLists s).
Proof.
  intros Hm Hl. unfold handleAction. rewrite Hm, Hl.
  set (trimmed := if JS.size (recentlyFetchedIds _) >? 30 then _ else _).
  assert (Ht : userLists trimmed = classify action m (userLists s))
    by (subst trimmed; destruct (JS.size _ >? 30); reflexivity).
  pose proof (fetchNextMovie_frame (closure_of s) trimmed) as (Hf & _).
  destruct (fetchNextMovie (closure_of s) trimmed) as [s' k]. cbn [fst] in *.
  rewrite <- Ht, <- Hf. destruct action; reflexivity.
Qed.

(** A candidate that is accepted is in none of the lists the fetch saw. *)
Lemma accepted_candidate_is_fresh (c : Closure) (s s' : App) (k : Pending)
      (o : MovieAPI.Outcome) (m : Movie) (n : ListName) :
  fetchNextMovie c s = (s', Some k) ->
  is_accepted k o = Some m ->
  has_id (movieId m) (get_list n (cl_userLists c)) = false.
Proof.
  intros Hf Hacc. apply fetchNextMovie_pending in Hf.
  destruct Hf as (_ & _ & _ & Hex & _).
  destruct o as [response|]; [|discriminate]. unfold is_accepted in Hacc.
  destruct (JS.truthy_string _); [discriminate|].
  destruct (MovieAPI.Response.movie response) as [m'|]; [|discriminate].
  destruct (JS.includes (allExcludedIds k) (movieId m')) eqn:E; [discriminate|].
  injection Hacc as <-. rewrite Hex in E. apply includes_not_In in E.
  rewrite has_id_includes. apply includes_not_In. intros Hin. apply E.
  apply in_or_app. left. unfold getAllSeenIds. rewrite !map_app, !in_app_iff.
  destruct n; cbn [get_list] in Hin; auto.
Qed.

(** In every world the environment can bring about, a failed fetch leaves
    no retry timer and no pending request behind. *)
Lemma error_leaves_no_retry (es : list Event) (o : MovieAPI.Outcome) :
  let w := run es boot in
  let w' := step (Settle 0 o) w in
  inflight w <> [] ->
  o = MovieAPI.Rejected \/
  (exists response,
      o = MovieAPI.Resolved response /\
      JS.truthy_string (MovieAPI.Response.error response) = true) ->
  fetchTimeoutRef (component w') = None /\ inflight w' = [].
Proof.
  intros w w' Hp Ho. subst w'.
  pose proof (run_consistent es boot_consistent) as (_ & _ & _ & H). fold w in H.
  destruct (inflight w) as [|k [|k' rest]] eqn:E; [congruence| |contradiction].
  destruct H as (_ & Ht & _).
  unfold step. rewrite E. cbn [nth_error remove_nth component inflight].
  split; [|reflexivity].
  destruct Ho as [-> | (response & -> & Herr)].
  - exact Ht.
  - unfold fetchNextMovie_resume. rewrite Herr. exact Ht.
Qed.

(** * Further properties of the components *)

(** ** SwipeCard.tsx: a whole gesture *)

(** X1: a gesture that starts at (x0, y0) and is released after a move to
    (x1, y1) reports what the displacement (x1 - x0, y1 - y0) alone decides,
    whatever the card was doing before; the release ends the drag, so a
    second release (mouse up, then mouse leave) reports nothing and a later
    move does not displace the card. *)
Theorem gesture_by_displacement (x0 y0 x1 y1 : Z) (st : SwipeCard.State) :
  let moved := SwipeCard.handleMove false x1 y1 (SwipeCard.handleStart false x0 y0 st) in
  let released := fst (SwipeCard.handleEnd false moved) in
  MovieCard.released false moved
  = MovieCard.released false (SwipeCard.dragged (x1 - x0) (y1 - y0)) /\
  SwipeCard.handleEnd false released = (released, None) /\
  (forall x y, SwipeCard.handleMove false x y released = released) /\
  SwipeCard.translateX released = 0 /\ SwipeCard.translateY released = 0.
Proof.
  cbv zeta. unfold MovieCard.released, SwipeCard.handleEnd, SwipeCard.handleMove,
    SwipeCard.handleStart, SwipeCard.dragged.
  cbn. repeat split.
Qed.

(** A disabled card ignores the whole gesture: start, move and release
    leave its state as it was and report nothing. *)
Remark disabled_card_ignores_gesture (x0 y0 x1 y1 : Z) (st : SwipeCard.State) :
  SwipeCard.handleEnd true
    (SwipeCard.handleMove true x1 y1 (SwipeCard.handleStart true x0 y0 st))
  = (st, None).
Proof.
  unfold SwipeCard.handleEnd, SwipeCard.handleMove, SwipeCard.handleStart.
  now rewrite !orb_true_r.
Qed.

(** A move or a release without a drag in progress does nothing. *)
Remark no_drag_no_effect (disabled : bool) (x y : Z) (st : SwipeCard.State) :
  SwipeCard.isDragging st = false ->
  SwipeCard.handleMove disabled x y st = st /\
  SwipeCard.handleEnd disabled st = (st, None).
Proof.
  intros H. unfold SwipeCard.handleMove, SwipeCard.handleEnd. now rewrite H.
Qed.

Lemma no_drag_no_effect_witness :
  SwipeCard.isDragging (fst (SwipeCard.handleEnd false (SwipeCard.dragged 130 0))) = false /\
  SwipeCard.handleEnd false (fst (SwipeCard.handleEnd false (SwipeCard.dragged 130 0)))
  = (fst (SwipeCard.handleEnd false (SwipeCard.dragged 130 0)), None).
Proof.
  split; [reflexivity|].
  apply (@no_drag_no_effect false 0 0
           (fst (SwipeCard.handleEnd false (SwipeCard.dragged 130 0))) eq_refl).
Defined.

(** X2: the indicator shown during the drag and the action committed at the
    release.  A committed like was announced as LIKE and a committed dislike
    as PASS.  A committed save was announced as SAVE only when |dx| < 60: it
    was announced as LIKE when dx > 60, as PASS when dx < -60, and not at all
    when |dx| = 60.  With no indicator on display the release commits
    nothing, but for that save at |dx| = 60. *)
Theorem indicator_and_commit (st : SwipeCard.State) :
  SwipeCard.isDragging st = true ->
  let dx := SwipeCard.translateX st in
  let shown := SwipeCard.getSwipeIndicator st in
  let committed := MovieCard.released false st in
  (committed = Some Like -> shown = Some "LIKE"%string) /\
  (committed = Some Dislike -> shown = Some "PASS"%string) /\
  (committed = Some Save ->
   (Z.abs dx < 60 -> shown = Some "SAVE"%string) /\
   (60 < dx -> shown = Some "LIKE"%string) /\
   (dx < -60 -> shown = Some "PASS"%string) /\
   (Z.abs dx = 60 -> shown = None)) /\
  (shown = None ->
   committed = None \/ (committed = Some Save /\ Z.abs dx = 60)).
Proof.
  intros Hdrag dx shown committed. subst shown committed.
  unfold MovieCard.released, SwipeCard.handleEnd, SwipeCard.getSwipeIndicator,
    SwipeCard.threshold, SwipeCard.verticalThreshold.
  rewrite Hdrag. fold dx. cbn [negb orb fst snd].
  set (dy := SwipeCard.translateY st).
  rewrite !(Z.gtb_ltb dx).
  destruct (Z.ltb_spec dy (- (100))); destruct (Z.ltb_spec (Z.abs dx) 120);
    destruct (Z.ltb_spec 120 dx); destruct (Z.ltb_spec dx (- (120)));
    destruct (Z.ltb_spec dy (- (60))); destruct (Z.ltb_spec (Z.abs dx) 60);
    destruct (Z.ltb_spec 60 dx); destruct (Z.ltb_spec dx (- (60)));
    cbn [andb option_map MovieCard.handleSwipe];
    repeat split; intros; try reflexivity; try discriminate; try lia;
    first [left; reflexivity | right; split; [reflexivity | lia]].
Qed.

Lemma indicator_and_commit_witness :
  SwipeCard.isDragging (SwipeCard.dragged 80 (-110)) = true /\
  MovieCard.released false (SwipeCard.dragged 80 (-110)) = Some Save /\
  SwipeCard.getSwipeIndicator (SwipeCard.dragged 80 (-110)) = Some "LIKE"%string.
Proof.
  split; [reflexivity|]. split; [reflexivity|].
  destruct (indicator_and_commit (SwipeCard.dragged 80 (-110)) eq_refl)
    as (_ & _ & Hsave & _).
  destruct (Hsave eq_refl) as (_ & Hlike & _). apply Hlike. simpl. lia.
Defined.

(** X3: no gesture reports skip, and a drag that stays within the horizontal
    thresholds and does not go above the vertical one (a swipe down, for
    one) commits nothing. *)
Theorem no_gesture_skips (disabled : bool) (st : SwipeCard.State) :
  MovieCard.released disabled st <> Some Skip /\
  (-120 <= SwipeCard.translateX st <= 120 ->
   -100 <= SwipeCard.translateY st ->
   MovieCard.released disabled st = None).
Proof.
  unfold MovieCard.released, SwipeCard.handleEnd,
    SwipeCard.threshold, SwipeCard.verticalThreshold.
  destruct (negb (SwipeCard.isDragging st) || disabled); cbn [snd option_map].
  - split; [discriminate | reflexivity].
  - rewrite (Z.gtb_ltb (SwipeCard.translateX st)).
    destruct (Z.ltb_spec (SwipeCard.translateY st) (- (100)));
      destruct (Z.ltb_spec (Z.abs (SwipeCard.translateX st)) 120);
      destruct (Z.ltb_spec 120 (SwipeCard.translateX st));
      destruct (Z.ltb_spec (SwipeCard.translateX st) (- (120)));
      cbn [andb option_map MovieCard.handleSwipe];
      split; intros; try discriminate; try reflexivity; lia.
Qed.

Lemma no_gesture_skips_witness :
  (-120 <= SwipeCard.translateX (SwipeCard.dragged 10 200) <= 120) /\
  -100 <= SwipeCard.translateY (SwipeCard.dragged 10 200) /\
  MovieCard.released false (SwipeCard.dragged 10 200) = None.
Proof.
  split; [simpl; lia|]. split; [simpl; lia|].
  apply (no_gesture_skips false (SwipeCard.dragged 10 200)); simpl; lia.
Defined.

(** ** Filters.tsx: toggles, clearing, and what reaches the request *)

Lemma includes_app_single (arr : list string) (x y : string) :
  Filters.includes (arr ++ [y]) x = Filters.includes arr x || String.eqb x y.
Proof.
  unfold Filters.includes. rewrite existsb_app. cbn. now rewrite orb_false_r.
Qed.

Lemma includes_without (arr : list string) (x y : string) :
  Filters.includes (filter (fun g => negb (String.eqb g y)) arr) x
  = Filters.includes arr x && negb (String.eqb x y).
Proof.
  unfold Filters.includes. induction arr as [|a arr IH]; cbn; [reflexivity|].
  destruct (String.eqb_spec a y) as [->|Hay]; cbn; rewrite IH.
  - destruct (String.eqb_spec x y) as [->|Hxy]; cbn.
    + now rewrite andb_false_r.
    + reflexivity.
  - destruct (String.eqb_spec x a) as [->|Hxa]; cbn; [|reflexivity].
    destruct (String.eqb_spec a y); [contradiction | reflexivity].
Qed.

Lemma without_absent (arr : list string) (y : string) :
  Filters.includes arr y = false ->
  filter (fun g => negb (String.eqb g y)) arr = arr.
Proof.
  unfold Filters.includes. induction arr as [|a arr IH]; cbn; [reflexivity|].
  intros H. apply orb_false_elim in H. destruct H as [Ha Hrest].
  rewrite String.eqb_sym, Ha. cbn. now rewrite IH.
Qed.

Lemma toggled_membership (arr : list string) (x y : string) :
  Filters.includes
    (if Filters.includes arr y
     then filter (fun g => negb (String.eqb g y)) arr
     else arr ++ [y]) x
  = if String.eqb x y then negb (Filters.includes arr y) else Filters.includes arr x.
Proof.
  destruct (Filters.includes arr y) eqn:E.
  - rewrite includes_without. destruct (String.eqb_spec x y) as [->|]; cbn.
    + apply andb_false_r.
    + apply andb_true_r.
  - rewrite includes_app_single. destruct (String.eqb_spec x y) as [->|]; cbn.
    + apply orb_true_r.
    + apply orb_false_r.
Qed.

(** X4: toggling a genre flips whether it is selected and changes the
    selection of no other genre, nor the languages, nor the year range; the
    same holds for toggling a language. *)
Theorem toggle_flips_one (x y : string) (f : Filters.FilterState) :
  let g := Filters.handleGenreToggle y f in
  let l := Filters.handleLanguageToggle y f in
  Filters.includes (Filters.genres g) y = negb (Filters.includes (Filters.genres f) y) /\
  (x <> y -> Filters.includes (Filters.genres g) x = Filters.includes (Filters.genres f) x) /\
  Filters.languages g = Filters.languages f /\
  Filters.yearRange g = Filters.yearRange f /\
  Filters.includes (Filters.languages l) y
  = negb (Filters.includes (Filters.languages f) y) /\
  (x <> y ->
   Filters.includes (Filters.languages l) x = Filters.includes (Filters.languages f) x) /\
  Filters.genres l = Filters.genres f /\
  Filters.yearRange l = Filters.yearRange f.
Proof.
  cbv zeta. unfold Filters.handleGenreToggle, Filters.handleLanguageToggle.
  cbn [Filters.genres Filters.languages Filters.yearRange].
  rewrite !toggled_membership, String.eqb_refl.
  repeat split; intros H; apply String.eqb_neq in H; now rewrite H.
Qed.

Lemma toggle_flips_one_witness :
  "Drama"%string <> "Comedy"%string /\
  Filters.includes
    (Filters.genres (Filters.handleGenreToggle "Comedy" (filters (component boot))))
    "Drama" = false.
Proof.
  split; [discriminate|].
  destruct (toggle_flips_one "Drama" "Comedy" (filters (component boot)))
    as (_ & Hother & _).
  rewrite Hother by discriminate. reflexivity.
Defined.

(** X5: toggling twice a genre (a language) that was not selected gives the
    filters back as they were. *)
Theorem toggle_twice_when_absent (y : string) (f : Filters.FilterState) :
  (Filters.includes (Filters.genres f) y = false ->
   Filters.handleGenreToggle y (Filters.handleGenreToggle y f) = f) /\
  (Filters.includes (Filters.languages f) y = false ->
   Filters.handleLanguageToggle y (Filters.handleLanguageToggle y f) = f).
Proof.
  assert (Hback : forall arr, Filters.includes arr y = false ->
            (if Filters.includes (arr ++ [y]) y
             then filter (fun g => negb (String.eqb g y)) (arr ++ [y])
             else (arr ++ [y]) ++ [y]) = arr).
  { intros arr H. rewrite includes_app_single, String.eqb_refl, orb_true_r.
    rewrite filter_app. cbn. rewrite String.eqb_refl. cbn.
    rewrite app_nil_r. now apply without_absent. }
  destruct f as [gs ls yr].
  unfold Filters.handleGenreToggle, Filters.handleLanguageToggle.
  cbn [Filters.genres Filters.languages Filters.yearRange].
  split; intros H; rewrite H; cbn [Filters.genres Filters.languages Filters.yearRange];
    now rewrite Hback.
Qed.

Lemma toggle_twice_when_absent_witness :
  Filters.includes (Filters.genres (filters (component boot))) "Horror" = false /\
  Filters.handleGenreToggle "Horror"
    (Filters.handleGenreToggle "Horror" (filters (component boot)))
  = filters (component boot).
Proof.
  split; [reflexivity|].
  apply (proj1 (toggle_twice_when_absent "Horror" (filters (component boot)))).
  reflexivity.
Defined.

(** X6: the filters count as active exactly when the request built from
    them carries a filter field; the badge count is positive exactly then;
    and cleared filters are not active. *)
Theorem active_filters_reach_request (f : Filters.FilterState) :
  (Filters.hasActiveFilters movieYearRange f = false <->
   buildFilterObj f = {| fo_genre := None; fo_language := None;
                         fo_year_start := None; fo_year_end := None |}) /\
  (Filters.hasActiveFilters movieYearRange f = true <->
   0 < Filters.activeFilterCount movieYearRange f) /\
  Filters.hasActiveFilters movieYearRange (Filters.clearFilters movieYearRange) = false.
Proof.
  destruct f as [gs ls [y0 y1]].
  unfold Filters.hasActiveFilters, Filters.activeFilterCount, buildFilterObj,
    Filters.clearFilters, movieYearRange.
  cbn [Filters.genres Filters.languages Filters.yearRange fst snd].
  split; [|split; [|reflexivity]].
  - destruct gs as [|g gs]; destruct ls as [|l ls];
      destruct (Z.eqb_spec y0 1900); destruct (Z.eqb_spec y1 2024);
      cbn; split; intros H; try reflexivity; try discriminate.
  - destruct (negb (y0 =? 1900) || negb (y1 =? 2024)); destruct gs; destruct ls;
      cbn [List.length orb Z.gtb Z.compare Z.of_nat];
      rewrite ?Z.gtb_ltb, ?orb_true_r; split; intros H; try reflexivity;
      try discriminate; try lia;
      try (exfalso; lia);
      try (apply orb_true_iff; left; apply Z.ltb_lt; lia);
      try (apply Z.ltb_lt; lia).
Qed.

(** ** IntroScreen.tsx: the selection *)

Lemma found_by_id (x : Z) (ms : list Movie) :
  (match find (fun selected => movieId selected =? x) ms with
   | Some _ => false
   | None => true
   end) = negb (has_id x ms).
Proof.
  unfold has_id. induction ms as [|m ms IH]; cbn; [reflexivity|].
  destruct (movieId m =? x); [reflexivity | exact IH].
Qed.

Lemma has_id_In (x : Z) (ms : list Movie) : has_id x ms = true <-> In x (map movieId ms).
Proof. rewrite has_id_includes. apply includes_In. Qed.

Lemma offered_not_selected (offer : list Movie) (st : IntroScreen.State) (x : Z) :
  has_id x (IntroScreen.filteredMovies offer st) = true ->
  has_id x offer = true /\ has_id x (IntroScreen.selectedMovies st) = false.
Proof.
  unfold IntroScreen.filteredMovies, has_id at 1. intros H.
  apply existsb_exists in H. destruct H as (m & Hin & Hid).
  apply filter_In in Hin. destruct Hin as [Hin Hsel].
  rewrite found_by_id in Hsel. apply negb_true_iff in Hsel.
  apply Z.eqb_eq in Hid. subst x. split; [|exact Hsel].
  unfold has_id. apply existsb_exists. exists m. split; [assumption | apply Z.eqb_refl].
Qed.

Lemma distinct_ids_filter (f : Movie -> bool) (ms : list Movie) :
  distinct_ids ms -> distinct_ids (filter f ms).
Proof.
  unfold distinct_ids. induction ms as [|m ms IH]; cbn; [auto|].
  intros H. inversion H as [|? ? Hnotin Hrest]; subst.
  destruct (f m); cbn; [|auto]. constructor; [|auto].
  intros Hin. apply Hnotin. apply in_map_iff in Hin. destruct Hin as (m' & Hid & Hin).
  apply filter_In in Hin. apply in_map_iff. exists m'. tauto.
Qed.

Lemma distinct_ids_snoc (m : Movie) (ms : list Movie) :
  distinct_ids ms -> has_id (movieId m) ms = false -> distinct_ids (ms ++ [m]).
Proof.
  unfold distinct_ids. intros Hnd Hm. rewrite map_app. cbn.
  apply NoDup_app; [assumption | repeat constructor; auto |].
  intros x Hx [<- | []]. apply has_id_In in Hx. congruence.
Qed.

(** X7: the onboarding screen offers no movie that is already selected, so
    a selection that starts without repeated identifiers and grows only by
    movies taken from the offer, with removals in between, never holds an
    identifier twice; that is the list handed over when swiping starts. *)
Theorem selection_stays_distinct (offer : nat -> list Movie) (es : list IntroEvent)
        (st st' : IntroScreen.State) :
  distinct_ids (IntroScreen.selectedMovies st) ->
  intro_run offer es st = Some st' ->
  distinct_ids (IntroScreen.handleStartSwiping st') /\
  forall movies x,
    has_id x (IntroScreen.filteredMovies movies st') = true ->
    has_id x (IntroScreen.selectedMovies st') = false.
Proof.
  intros Hnd Hrun.
  split; [| intros movies x H; exact (proj2 (offered_not_selected _ _ _ H))].
  revert st Hnd Hrun. induction es as [|[movie|i] es IH]; intros st Hnd Hrun; cbn in Hrun.
  - injection Hrun as <-. exact Hnd.
  - destruct (existsb _ _) eqn:E; [|discriminate].
    refine (IH _ _ Hrun). cbn.
    apply distinct_ids_snoc; [assumption|].
    exact (proj2 (offered_not_selected _ _ _ E)).
  - refine (IH _ _ Hrun). cbn. now apply distinct_ids_filter.
Qed.

Lemma selection_stays_distinct_witness :
  let st0 := {| IntroScreen.searchTerm := EmptyString; IntroScreen.selectedMovies := [] |} in
  let offer := fun _ : nat => [sample_movie 1; sample_movie 2; sample_movie 1] in
  let es := [Select (sample_movie 1); Unselect 1; Select (sample_movie 2);
             Select (sample_movie 1)] in
  distinct_ids (IntroScreen.selectedMovies st0) /\
  exists st',
    intro_run offer es st0 = Some st' /\
    distinct_ids (IntroScreen.handleStartSwiping st').
Proof.
  intros st0 offer es.
  assert (H0 : distinct_ids (IntroScreen.selectedMovies st0)) by constructor.
  split; [exact H0|].
  destruct (intro_run offer es st0) as [st'|] eqn:E; [|discriminate].
  exists st'. split; [reflexivity|].
  exact (proj1 (@selection_stays_distinct offer es st0 st' H0 E)).
Defined.

(** X8: selecting a movie whose identifier is not selected yet and removing
    it again gives the selection back as it was, and the removed movie is on
    offer again. *)
Theorem select_then_remove (movie : Movie) (st : IntroScreen.State) :
  has_id (movieId movie) (IntroScreen.selectedMovies st) = false ->
  let st' := IntroScreen.handleRemoveMovie (movieId movie)
               (IntroScreen.handleMovieSelect movie st) in
  IntroScreen.selectedMovies st' = IntroScreen.selectedMovies st /\
  IntroScreen.filteredMovies [movie] st' = [movie].
Proof.
  intros H. cbv zeta.
  assert (Hsel : IntroScreen.selectedMovies
                   (IntroScreen.handleRemoveMovie (movieId movie)
                      (IntroScreen.handleMovieSelect movie st))
                 = IntroScreen.selectedMovies st).
  { cbn. rewrite filter_app. cbn. rewrite Z.eqb_refl. cbn. rewrite app_nil_r.
    revert H. generalize (IntroScreen.selectedMovies st) as ms.
    induction ms as [|m ms IH]; cbn; [reflexivity|].
    intros H. apply orb_false_elim in H. destruct H as [Hm Hrest].
    rewrite Hm. cbn. now rewrite IH. }
  split; [exact Hsel|].
  unfold IntroScreen.filteredMovies. rewrite Hsel. cbn. rewrite found_by_id, H. reflexivity.
Qed.

Lemma select_then_remove_witness :
  let st0 := {| IntroScreen.searchTerm := "fi"; IntroScreen.selectedMovies := [sample_movie 2] |} in
  has_id 1 (IntroScreen.selectedMovies st0) = false /\
  IntroScreen.selectedMovies
    (IntroScreen.handleRemoveMovie 1 (IntroScreen.handleMovieSelect (sample_movie 1) st0))
  = [sample_movie 2].
Proof.
  intros st0. split; [reflexivity|].
  exact (proj1 (@select_then_remove (sample_movie 1) st0 eq_refl)).
Defined.

(** ** MovieMatchApp.tsx: removing and moving back *)

Lemma lists_ext (l l' : UserMovieList) :
  (forall n, get_list n l = get_list n l') -> l = l'.
Proof.
  intros H. destruct l, l'.
  pose proof (H Liked) as H1. pose proof (H Saved) as H2. pose proof (H Disliked) as H3.
  cbn in H1, H2, H3. now subst.
Qed.

Lemma without_twice (movie : Movie) (ms : list Movie) :
  filter (fun m => negb (same_id movie m)) (filter (fun m => negb (same_id movie m)) ms)
  = filter (fun m => negb (same_id movie m)) ms.
Proof.
  induction ms as [|m ms IH]; cbn; [reflexivity|].
  destruct (same_id movie m) eqn:E; cbn; [exact IH|]. rewrite E. cbn. now rewrite IH.
Qed.

Lemma without_when_absent (movie : Movie) (ms : list Movie) :
  has_id (movieId movie) ms = false ->
  filter (fun m => negb (same_id movie m)) ms = ms.
Proof.
  unfold has_id, same_id. induction ms as [|m ms IH]; cbn; [reflexivity|].
  intros H. apply orb_false_elim in H. destruct H as [Hm Hrest].
  rewrite Hm. cbn. now rewrite IH.
Qed.

Lemma removeMovie_get (movie : Movie) (fromList n : ListName) (l : UserMovieList) :
  get_list n (removeMovie movie fromList l)
  = if ListName_eqb fromList n
    then filter (fun m => negb (same_id movie m)) (get_list n l)
    else get_list n l.
Proof.
  unfold removeMovie. destruct (ListName_eq_dec fromList n) as [->|Hne].
  - rewrite get_set_same. now rewrite (proj2 (ListName_eqb_eq n n) eq_refl).
  - rewrite get_set_other by assumption.
    destruct (ListName_eqb fromList n) eqn:E; [|reflexivity].
    apply ListName_eqb_eq in E. contradiction.
Qed.

(** X9: [remove] takes out of the named list every entry that carries the
    movie's identifier (whatever its other fields) and nothing else, leaves
    the other two lists alone, changes nothing when the identifier is not
    in the list, and changes nothing when done a second time. *)
Theorem remove_by_identifier (movie : Movie) (fromList : ListName) (l : UserMovieList) :
  let l' := removeMovie movie fromList l in
  (forall m, In m (get_list fromList l') <->
             In m (get_list fromList l) /\ movieId m <> movieId movie) /\
  (forall n, n <> fromList -> get_list n l' = get_list n l) /\
  (has_id (movieId movie) (get_list fromList l) = false -> l' = l) /\
  removeMovie movie fromList l' = l'.
Proof.
  cbv zeta. split; [|split; [|split]].
  - intros m. rewrite removeMovie_get, (proj2 (ListName_eqb_eq _ _) eq_refl).
    rewrite filter_In. unfold same_id. rewrite negb_true_iff, Z.eqb_neq. tauto.
  - intros n Hn. rewrite removeMovie_get.
    destruct (ListName_eqb fromList n) eqn:E; [|reflexivity].
    apply ListName_eqb_eq in E. congruence.
  - intros H. apply lists_ext. intros n. rewrite removeMovie_get.
    destruct (ListName_eqb fromList n) eqn:E; [|reflexivity].
    apply ListName_eqb_eq in E. subst n. now apply without_when_absent.
  - apply lists_ext. intros n. rewrite !removeMovie_get.
    destruct (ListName_eqb fromList n); [apply without_twice | reflexivity].
Qed.

Lemma remove_by_identifier_witness :
  has_id 3 (get_list Saved {| liked := [sample_movie 3]; saved := []; disliked := [] |}) = false /\
  removeMovie (sample_movie 3) Saved {| liked := [sample_movie 3]; saved := []; disliked := [] |}
  = {| liked := [sample_movie 3]; saved := []; disliked := [] |}.
Proof.
  split; [reflexivity|].
  destruct (remove_by_identifier (sample_movie 3) Saved
              {| liked := [sample_movie 3]; saved := []; disliked := [] |})
    as (_ & _ & Habsent & _).
  apply Habsent. reflexivity.
Defined.

(** X10: a move to another list that does not hold the identifier yet,
    followed by the move back, leaves the target as it was before the two
    moves and the third list untouched; in the source the entries with the
    identifier are replaced by the moved movie, now last. *)
Theorem move_there_and_back (movie : Movie) (fromList toList : ListName)
        (l : UserMovieList) :
  fromList <> toList ->
  has_id (movieId movie) (get_list toList l) = false ->
  let l' := moveMovie movie toList fromList (moveMovie movie fromList toList l) in
  get_list toList l' = get_list toList l /\
  get_list fromList l'
  = filter (fun m => negb (same_id movie m)) (get_list fromList l) ++ [movie] /\
  (forall n, n <> fromList -> n <> toList -> get_list n l' = get_list n l).
Proof.
  intros Hne Hto. cbv zeta.
  assert (Hne' : toList <> fromList) by congruence.
  split; [|split].
  - rewrite moveMovie_source, moveMovie_target by assumption. rewrite Hto.
    rewrite filter_app. cbn. unfold same_id at 2. rewrite Z.eqb_refl. cbn.
    rewrite app_nil_r. now apply without_when_absent.
  - rewrite moveMovie_target, moveMovie_source by assumption.
    rewrite has_id_without, Z.eqb_refl, andb_false_r. reflexivity.
  - intros n H1 H2. now rewrite !moveMovie_other.
Qed.

Lemma move_there_and_back_witness :
  let l := {| liked := [sample_movie 1; sample_movie 2]; saved := [sample_movie 3];
              disliked := [] |} in
  Liked <> Saved /\
  has_id 1 (get_list Saved l) = false /\
  moveMovie (sample_movie 1) Saved Liked (moveMovie (sample_movie 1) Liked Saved l)
  = {| liked := [sample_movie 2; sample_movie 1]; saved := [sample_movie 3];
       disliked := [] |}.
Proof.
  intros l. split; [discriminate|]. split; [reflexivity|].
  destruct (@move_there_and_back (sample_movie 1) Liked Saved l
              ltac:(discriminate) eq_refl) as (Hto & Hfrom & Hother).
  apply lists_ext. intros [| |].
  - exact Hfrom.
  - exact Hto.
  - apply Hother; discriminate.
Defined.

(** X11: removing a movie from the list it was just moved to comes to the
    same as removing it from the source and from the target. *)
Theorem move_then_remove (movie : Movie) (fromList toList : ListName)
        (l : UserMovieList) :
  removeMovie movie toList (moveMovie movie fromList toList l)
  = removeMovie movie toList (removeMovie movie fromList l).
Proof.
  apply lists_ext. intros n. rewrite !removeMovie_get.
  assert (Hnew : filter (fun m => negb (same_id movie m)) [movie] = []).
  { cbn. unfold same_id. now rewrite Z.eqb_refl. }
  destruct (ListName_eq_dec toList n) as [->|Hton].
  - rewrite (proj2 (ListName_eqb_eq n n) eq_refl).
    destruct (ListName_eq_dec fromList n) as [->|Hfn].
    + rewrite (proj2 (ListName_eqb_eq n n) eq_refl).
      rewrite moveMovie_same_list, filter_app, Hnew, app_nil_r. reflexivity.
    + destruct (ListName_eqb fromList n) eqn:E;
        [apply ListName_eqb_eq in E; contradiction|].
      rewrite moveMovie_target by assumption.
      destruct (has_id _ _); [reflexivity|].
      now rewrite filter_app, Hnew, app_nil_r.
  - destruct (ListName_eqb toList n) eqn:E;
      [apply ListName_eqb_eq in E; contradiction|].
    destruct (ListName_eq_dec fromList n) as [->|Hfn].
    + rewrite (proj2 (ListName_eqb_eq n n) eq_refl).
      apply moveMovie_source. congruence.
    + destruct (ListName_eqb fromList n) eqn:E';
        [apply ListName_eqb_eq in E'; contradiction|].
      apply moveMovie_other; congruence.
Qed.

(** X12: [move] and [remove] never make a list repeat an identifier: lists
    that each hold every identifier at most once still do so afterwards. *)
Theorem move_remove_keep_ids_distinct (movie : Movie) (fromList toList : ListName)
        (l : UserMovieList) :
  (forall n, distinct_ids (get_list n l)) ->
  (forall n, distinct_ids (get_list n (moveMovie movie fromList toList l))) /\
  (forall n, distinct_ids (get_list n (removeMovie movie fromList l))).
Proof.
  intros H. split; intros n.
  - destruct (ListName_eq_dec fromList toList) as [<-|Hft].
    + destruct (ListName_eq_dec n fromList) as [->|Hn].
      * rewrite moveMovie_same_list. apply distinct_ids_snoc.
        -- now apply distinct_ids_filter.
        -- rewrite has_id_without, Z.eqb_refl. apply andb_false_r.
      * now rewrite moveMovie_other.
    + destruct (ListName_eq_dec n fromList) as [->|Hn].
      * rewrite moveMovie_source by assumption. now apply distinct_ids_filter.
      * destruct (ListName_eq_dec n toList) as [->|Hn'].
        -- rewrite moveMovie_target by assumption.
           destruct (has_id _ _) eqn:E; [apply H|]. now apply distinct_ids_snoc.
        -- now rewrite moveMovie_other.
  - rewrite removeMovie_get. destruct (ListName_eqb fromList n); [|apply H].
    now apply distinct_ids_filter.
Qed.

Lemma move_remove_keep_ids_distinct_witness :
  (forall n, distinct_ids (get_list n (userLists initial))) /\
  distinct_ids (get_list Saved (moveMovie (sample_movie 1) Liked Saved (userLists initial))).
Proof.
  assert (H : forall n, distinct_ids (get_list n (userLists initial)))
    by (intros [| |]; constructor).
  split; [exact H|].
  exact (proj1 (@move_remove_keep_ids_distinct (sample_movie 1) Liked Saved
                  (userLists initial) H) Saved).
Defined.

(** ** MovieLists.tsx: the buttons of a card *)

Lemma handleMoveTo_cases (target : ListName) (movie : Movie) (currentList : ListName)
      (s : App) :
  MovieLists.handleMoveTo target movie currentList s
  = if ListName_eqb currentList target then s
    else MovieLists.toast_success
           (MovieLists.moved_message movie
              (match target with
               | Liked => "Liked" | Saved => "Saved" | Disliked => "Disliked"
               end)%string)
           (handleMoveMovie movie currentList target s).
Proof.
  destruct target; cbn; unfold MovieLists.handleMoveToLiked,
    MovieLists.handleMoveToSaved, MovieLists.handleMoveToDisliked;
    destruct (ListName_eqb currentList _); reflexivity.
Qed.

(** X13: a move requested from a card of the collection (the movie is an
    entry of the list the card is shown in) keeps the lists apart: if no
    identifier was in two lists, none is afterwards, and the movie's
    identifier is in the target list and in no other.  The button for the
    list the card is already in does nothing; any other shows one message
    and touches neither the candidate, the window, the counter nor the
    requests. *)
Theorem card_move_keeps_lists_apart (target : ListName) (movie : Movie)
        (currentList : ListName) (s : App) :
  In movie (get_list currentList (userLists s)) ->
  disjoint_lists (userLists s) ->
  let s' := MovieLists.handleMoveTo target movie currentList s in
  disjoint_lists (userLists s') /\
  (forall n, has_id (movieId movie) (get_list n (userLists s')) = true <-> n = target) /\
  (target = currentList -> s' = s) /\
  (target <> currentList -> List.length (toasts s') = S (List.length (toasts s))) /\
  currentMovie s' = currentMovie s /\
  recentlyFetchedIds s' = recentlyFetchedIds s /\
  fetchAttemptCount s' = fetchAttemptCount s /\
  requests s' = requests s.
Proof.
  intros Hin Hdis s'. subst s'.
  assert (Hhere : has_id (movieId movie) (get_list currentList (userLists s)) = true).
  { unfold has_id. apply existsb_exists. exists movie. split; [assumption | apply Z.eqb_refl]. }
  assert (Honly : forall n, has_id (movieId movie) (get_list n (userLists s)) = true ->
                            n = currentList)
    by (intros n Hn; exact (Hdis _ _ _ Hn Hhere)).
  rewrite handleMoveTo_cases.
  destruct (ListName_eq_dec currentList target) as [->|Hne].
  - rewrite (proj2 (ListName_eqb_eq target target) eq_refl).
    repeat split; try assumption; try reflexivity.
    + apply Honly.
    + intros ->. exact Hhere.
    + congruence.
  - destruct (ListName_eqb currentList target) eqn:E;
      [apply ListName_eqb_eq in E; contradiction|].
    unfold MovieLists.toast_success, handleMoveMovie. cbn.
    assert (Hconf : op_confined (OpMove movie currentList target) (userLists s) = true).
    { unfold op_confined. apply negb_true_iff.
      destruct (elsewhere (movieId movie) [currentList; target] (userLists s)) eqn:Ee;
        [|reflexivity].
      unfold elsewhere in Ee. apply existsb_exists in Ee.
      destruct Ee as (n & _ & Hn). apply andb_prop in Hn. destruct Hn as [Hkeep Hn].
      apply Honly in Hn. subst n. cbn in Hkeep.
      rewrite (proj2 (ListName_eqb_eq currentList currentList) eq_refl) in Hkeep.
      discriminate. }
    pose proof (proj1 (move_source_target movie currentList target (userLists s))) as Hsrc.
    split; [exact (apply_op_disjoint (OpMove movie currentList target) Hdis Hconf)|].
    split; [|repeat split; try reflexivity; try congruence;
             rewrite length_app; cbn; lia].
    intros n. split.
    + intros Hn. apply has_id_moveMovie in Hn.
      destruct Hn as [[Hx _] | [_ [Hn | [Hn1 Hn2]]]]; [congruence | assumption |].
      apply Honly in Hn2. contradiction.
    + intros ->.
      exact (proj1 (proj2 (proj2 (proj2 (proj2
               (proj2 (move_source_target movie currentList target (userLists s)))))))).
Qed.

Lemma card_move_keeps_lists_apart_witness :
  let s := set_userLists {| liked := [sample_movie 1]; saved := []; disliked := [] |}
                         initial in
  In (sample_movie 1) (get_list Liked (userLists s)) /\
  disjoint_lists (userLists s) /\
  disjoint_lists (userLists (MovieLists.handleMoveTo Disliked (sample_movie 1) Liked s)).
Proof.
  intros s.
  assert (Hin : In (sample_movie 1) (get_list Liked (userLists s))) by (left; reflexivity).
  assert (Hdis : disjoint_lists (userLists s)).
  { intros x a b Ha Hb. destruct a, b; try reflexivity; cbn in Ha, Hb; discriminate. }
  split; [exact Hin|]. split; [exact Hdis|].
  exact (proj1 (@card_move_keeps_lists_apart Disliked (sample_movie 1) Liked s Hin Hdis)).
Defined.

(** ** MovieMatchApp.tsx: more that the environment cannot break *)

Lemma slice_last_keeps_last {A : Type} (n : nat) (l : list A) (x : A) :
  (0 < n)%nat -> In x (JS.slice_last n (l ++ [x])).
Proof.
  intros Hn. unfold JS.slice_last. rewrite length_app. cbn [List.length].
  rewrite skipn_app. apply in_or_app. right.
  replace (List.length l + 1 - n - List.length l)%nat with O by lia. now left.
Qed.

Lemma slice_last_incl {A : Type} (n : nat) (l : list A) : incl (JS.slice_last n l) l.
Proof.
  unfold JS.slice_last. intros x Hx.
  rewrite <- (firstn_skipn (List.length l - n) l). apply in_or_app. now right.
Qed.

Lemma set_add_incl (x : Z) (s : list Z) : incl s (JS.set_add x s).
Proof.
  unfold JS.set_add. destruct (JS.includes s x); intros y Hy; [assumption|].
  apply in_or_app. now left.
Qed.

Lemma set_add_has (x : Z) (s : list Z) : In x (JS.set_add x s).
Proof.
  unfold JS.set_add. destruct (JS.includes s x) eqn:E.
  - now apply includes_In.
  - apply in_or_app. right. now left.
Qed.

Lemma tracked_frame (s s' : App) (pending : list Pending) :
  currentMovie s' = currentMovie s \/ currentMovie s' = None ->
  recentlyFetchedIds s' = recentlyFetchedIds s ->
  isLoading s' = isLoading s ->
  tracked {| component := s; inflight := pending |} ->
  tracked {| component := s'; inflight := pending |}.
Proof.
  unfold tracked. cbn [component inflight]. intros Hm -> -> (Hcur & Hrest).
  split; [|exact Hrest]. intros m Hm'. destruct Hm as [Hm | Hm]; rewrite Hm in Hm'.
  - now apply Hcur.
  - discriminate.
Qed.

Ltac kept :=
  apply tracked_frame;
  [first [left; reflexivity | right; reflexivity] | reflexivity ..].

Lemma fetch_tracked (c : Closure) (s : App) (pending : list Pending) :
  consistent {| component := s; inflight := pending |} ->
  tracked {| component := s; inflight := pending |} ->
  cl_isLoading c = isLoading s ->
  tracked {| component := fst (fetchNextMovie c s);
             inflight := pending ++ opt_list (snd (fetchNextMovie c s)) |}.
Proof.
  intros Hinv Htr Hc. destruct (isLoading s) eqn:El.
  - rewrite fetchNextMovie_busy by assumption. cbn. now rewrite app_nil_r.
  - assert (Hp : pending = []).
    { destruct Hinv as (_ & _ & _ & H). cbn [component inflight] in H.
      destruct pending as [|k [|k' rest]]; [reflexivity| |contradiction].
      destruct H as (H & _). congruence. }
    subst pending. destruct Htr as (Hcur & _ & _). cbn [component] in Hcur.
    destruct (Z_lt_ge_dec (fetchAttemptCount s) maxFetchAttempts) as [Hlt|Hge].
    + rewrite (fetchNextMovie_sends c s Hc Hlt). cbv zeta. unfold tracked. cbn.
      split; [exact Hcur|]. split; [|discriminate].
      intros k [<- | []]. cbn. intros x Hx. apply in_or_app. now right.
    + rewrite fetchNextMovie_exhausted by (assumption || lia). unfold tracked. cbn.
      split; [discriminate|]. split; [intros k []|reflexivity].
Qed.

Lemma resume_tracked (k : Pending) (o : MovieAPI.Outcome) (s : App) :
  consistent {| component := s; inflight := [k] |} ->
  tracked {| component := s; inflight := [k] |} ->
  tracked {| component := fetchNextMovie_resume k o s; inflight := [] |}.
Proof.
  intros (_ & _ & Hnd & _) (Hcur & Hcov & _). cbn [component inflight] in *.
  specialize (Hcov k (or_introl eq_refl)).
  unfold tracked. cbn [component inflight].
  split; [|split; [intros k' [] |]].
  - destruct (is_accepted k o) as [m|] eqn:Hacc.
    + destruct (resume_accepted k o s Hacc) as (Hwin & Hm & _).
      cbv zeta in Hwin. rewrite Hwin, Hm. intros m' [= <-].
      assert (Hfresh : JS.includes (recentlyFetchedIds s) (movieId m) = false).
      { apply includes_not_In. intros Hin. apply Hcov in Hin.
        destruct o as [response|]; [|discriminate]. unfold is_accepted in Hacc.
        destruct (JS.truthy_string _); [discriminate|].
        destruct (MovieAPI.Response.movie response) as [m0|]; [|discriminate].
        destruct (JS.includes (allExcludedIds k) (movieId m0)) eqn:E; [discriminate|].
        injection Hacc as <-. apply includes_not_In in E. contradiction. }
      assert (Hadd : JS.set_add (movieId m) (recentlyFetchedIds s)
                     = recentlyFetchedIds s ++ [movieId m])
        by (unfold JS.set_add; now rewrite Hfresh).
      pose proof (set_add_NoDup (movieId m) Hnd) as Hnd'.
      rewrite Hadd in *.
      destruct (JS.size _ >? 50).
      * rewrite trimmed_set by assumption. apply slice_last_keeps_last. lia.
      * apply in_or_app. right. now left.
    + unfold fetchNextMovie_resume. unfold is_accepted in Hacc.
      destruct o as [response|]; [|cbn; discriminate].
      destruct (JS.truthy_string _); [cbn; discriminate|].
      destruct (MovieAPI.Response.movie response) as [m0|]; [|exact Hcur].
      destruct (JS.includes (allExcludedIds k) (movieId m0)); [|discriminate].
      cbn [fetchAttemptCount set_isLoading set_fetchAttemptCount set_recentlyFetchedIds].
      destruct (fetchAttemptCount s + 1 >=? maxFetchAttempts); cbn; [discriminate|].
      intros m Hm. apply set_add_incl. now apply Hcur.
  - intros _. unfold fetchNextMovie_resume.
    destruct o as [response|]; [|reflexivity].
    destruct (JS.truthy_string _); [reflexivity|].
    destruct (MovieAPI.Response.movie response) as [m0|]; [|reflexivity].
    destruct (JS.includes _ _).
    + cbn [fetchAttemptCount set_isLoading set_fetchAttemptCount set_recentlyFetchedIds].
      destruct (_ >=? _); reflexivity.
    + cbn [recentlyFetchedIds set_recentlyFetchedIds].
      destruct (MovieAPI.Response.user_vector response); destruct (JS.size _ >? 50);
        reflexivity.
Qed.

Lemma rerender_tracked (replaced : bool) (before s : App) (pending : list Pending) :
  consistent {| component := s; inflight := pending |} ->
  tracked {| component := s; inflight := pending |} ->
  tracked {| component := fst (rerender replaced before s);
             inflight := pending ++ opt_list (snd (rerender replaced before s)) |}.
Proof.
  intros Hc H. unfold rerender, fetchEffect.
  destruct (replaced || _ || _); [destruct (hasStarted s && _)|];
    try (cbn; now rewrite app_nil_r).
  now apply fetch_tracked.
Qed.

(** A handler that leaves the counter, the window, the timer and the loading
    flag alone, followed by the render it causes. *)
Ltac tracked_after_rerender Hc Ht :=
  match goal with
  | |- context [rerender ?b ?before ?after] =>
      generalize (fun pending Hc' Hp => @rerender_tracked b before after pending Hc' Hp);
      destruct (rerender b before after); cbn [fst snd];
      let Hr := fresh "Hr" in
      intros Hr; apply Hr; [revert Hc; framed | revert Ht; kept]
  end.

Lemma step_tracked (e : Event) (w : World) :
  consistent w -> tracked w -> tracked (step e w).
Proof.
  destruct w as [s pending]. intros Hc Ht.
  destruct e as [pre| |v|f|action|movie fromList toList|movie fromList| |shown|i o|];
    unfold step; cbn [component inflight].
  - tracked_after_rerender Hc Ht.
  - tracked_after_rerender Hc Ht.
  - tracked_after_rerender Hc Ht.
  - tracked_after_rerender Hc Ht.
  - unfold handleAction.
    destruct (currentMovie s) as [m|]; [|cbn; now rewrite app_nil_r].
    destruct (isLoading s) eqn:El; [cbn; now rewrite app_nil_r|].
    set (s1 := set_userLists _ _).
    assert (Hc1 : consistent {| component := s1; inflight := pending |})
      by (revert Hc; subst s1; destruct (showControlsTip s); framed).
    assert (Ht1 : tracked {| component := s1; inflight := pending |})
      by (revert Ht; subst s1; destruct (showControlsTip s); kept).
    assert (Hl : cl_isLoading (closure_of s) = isLoading s1)
      by (subst s1; destruct (showControlsTip s); reflexivity).
    assert (Hnone : currentMovie s1 = None)
      by (subst s1; destruct (showControlsTip s); reflexivity).
    clearbody s1.
    set (trimmed := if JS.size (recentlyFetchedIds s1) >? 30 then _ else _).
    assert (Hct : consistent {| component := trimmed; inflight := pending |})
      by (subst trimmed; destruct (JS.size _ >? 30);
          [now apply trim_consistent | assumption]).
    assert (Htt : tracked {| component := trimmed; inflight := pending |}).
    { subst trimmed. destruct (JS.size _ >? 30); [|assumption].
      destruct Ht1 as (_ & Hcov & Hidle). destruct Hc1 as (_ & _ & Hnd & _).
      cbn [component inflight] in *. unfold tracked. cbn.
      split; [rewrite Hnone; discriminate|]. split; [|exact Hidle].
      intros k Hk x Hx. apply (Hcov k Hk).
      rewrite trimmed_set in Hx by assumption. now apply slice_last_incl in Hx. }
    assert (Hl' : cl_isLoading (closure_of s) = isLoading trimmed)
      by (subst trimmed; destruct (JS.size _ >? 30); exact Hl).
    pose proof (fetch_tracked (closure_of s) Hct Htt Hl') as Hf.
    destruct (fetchNextMovie (closure_of s) trimmed) as [s' k]. cbn [fst snd] in Hf.
    destruct action; try exact Hf; revert Hf; kept.
  - revert Ht. kept.
  - revert Ht. kept.
  - unfold resetMovies.
    set (cleared := set_filters _ _).
    assert (Hcc : consistent {| component := cleared; inflight := pending |}).
    { subst cleared. destruct Hc as (Hrange & Hcur & Hnd & H). unfold consistent.
      cbn [component inflight] in *. cbn.
      split; [budget|]. split; [reflexivity|]. split; [constructor|].
      destruct pending as [|k [|k' rest]]; [| |contradiction].
      - destruct (fetchTimeoutRef s); [|exact I].
        destruct H as (? & ? & ?). repeat split; assumption.
      - destruct H as (? & ? & ? & ? & ?). repeat split; assumption. }
    assert (Htc : tracked {| component := cleared; inflight := pending |}).
    { subst cleared. destruct Ht as (_ & _ & Hidle). unfold tracked. cbn.
      split; [discriminate|]. split; [intros k _ x []|exact Hidle]. }
    pose proof (@fetch_consistent (closure_of s) cleared pending Hcc eq_refl) as Hfc.
    pose proof (@fetch_tracked (closure_of s) cleared pending Hcc Htc eq_refl) as Hf.
    destruct (fetchNextMovie (closure_of s) cleared) as [s1 k1]. cbn [fst snd] in Hf, Hfc.
    pose proof (rerender_tracked true s Hfc Hf) as Hr.
    destruct (rerender true s s1) as [s2 k2]. cbn [fst snd] in Hr.
    now rewrite <- app_assoc in Hr.
  - revert Ht. kept.
  - destruct (nth_error pending i) as [k|] eqn:E; [|exact Ht].
    assert (Hp : pending = [k] /\ i = O).
    { destruct Hc as (_ & _ & _ & H). cbn [inflight] in H.
      destruct pending as [|k0 [|k1 rest]]; [destruct i; discriminate| |contradiction].
      destruct i as [|[|i]]; try discriminate. injection E as ->. now split. }
    destruct Hp as [-> ->]. cbn [remove_nth]. now apply resume_tracked.
  - destruct (fetchTimeoutRef s) as [t|] eqn:Et; [|exact Ht].
    assert (Hp : pending = [] /\ isLoading s = false /\ cl_isLoading (callback t) = false).
    { destruct Hc as (_ & _ & _ & H). cbn [component inflight] in H.
      destruct pending as [|k0 [|k1 rest]]; [| |contradiction].
      - rewrite Et in H. destruct H as (? & ? & ?). now repeat split.
      - destruct H as (_ & H & _). congruence. }
    destruct Hp as (-> & Hl & Hcl).
    assert (Hcs : consistent {| component := set_fetchTimeoutRef None s; inflight := [] |}).
    { destruct Hc as (Hrange & Hcur & Hnd & _). unfold consistent. cbn. now repeat split. }
    assert (Hts : tracked {| component := set_fetchTimeoutRef None s; inflight := [] |})
      by (revert Ht; kept).
    pose proof (@fetch_tracked (callback t) _ [] Hcs Hts ltac:(cbn; congruence)) as Hf.
    destruct (fetchNextMovie (callback t) (set_fetchTimeoutRef None s)) as [s' k].
    exact Hf.
Qed.

Lemma run_invariants (es : list Event) (w : World) :
  consistent w -> tracked w -> consistent (run es w) /\ tracked (run es w).
Proof.
  revert w. induction es as [|e es IH]; intros w Hc Ht; [now split|].
  cbn [run fold_left]. apply IH; [now apply step_consistent | now apply step_tracked].
Qed.

Lemma boot_tracked : tracked boot.
Proof. unfold tracked. cbn. split; [discriminate|]. split; [intros k []|reflexivity]. Qed.

(** X14: single flight.  In every world the environment can bring about at
    most one recommendation request is pending; while one is pending no
    retry timer is set, and while a retry timer is set nothing is pending. *)
Theorem single_flight (es : list Event) :
  let w := run es boot in
  (List.length (inflight w) <= 1)%nat /\
  (inflight w <> [] -> fetchTimeoutRef (component w) = None) /\
  (fetchTimeoutRef (component w) <> None -> inflight w = []).
Proof.
  intros w. destruct (run_consistent es boot_consistent) as (_ & _ & _ & H). fold w in H.
  destruct (inflight w) as [|k [|k' rest]]; [| |contradiction]; cbn.
  - repeat split; try lia; congruence.
  - destruct H as (_ & Ht & _). repeat split; try lia; congruence.
Qed.

(** X15: the loading flag is up exactly while a request is pending, in every
    world the environment can bring about: the spinner neither stays after
    the answer nor hides a pending request. *)
Theorem loading_iff_pending (es : list Event) :
  let w := run es boot in
  isLoading (component w) = true <-> inflight w <> [].
Proof.
  intros w.
  destruct (run_invariants es boot_consistent boot_tracked)
    as ((_ & _ & _ & Hc) & (_ & _ & Hidle)). fold w in Hc, Hidle.
  destruct (inflight w) as [|k [|k' rest]]; [| |contradiction].
  - rewrite (Hidle eq_refl). split; [discriminate | congruence].
  - destruct Hc as (-> & _). split; [discriminate | reflexivity].
Qed.

(** X16: in every world the environment can bring about, the identifier of
    the displayed candidate is in the rolling window, so every request sent
    while it is displayed asks to exclude it; and a candidate is accepted
    only if its identifier is not in the window at that moment. *)
Theorem displayed_candidate_is_excluded (es : list Event) :
  let w := run es boot in
  (forall m, currentMovie (component w) = Some m ->
     In (movieId m) (recentlyFetchedIds (component w)) /\
     forall c s' k,
       fetchNextMovie c (component w) = (s', Some k) ->
       In (movieId m) (MovieAPI.Request.seen_ids (request k))) /\
  (forall k o m,
     In k (inflight w) -> is_accepted k o = Some m ->
     ~ In (movieId m) (recentlyFetchedIds (component w))).
Proof.
  intros w.
  destruct (run_invariants es boot_consistent boot_tracked) as (_ & (Hcur & Hcov & _)).
  fold w in Hcur, Hcov. split.
  - intros m Hm. split; [now apply Hcur|].
    intros c s' k Hf. apply fetchNextMovie_pending in Hf.
    destruct Hf as (_ & _ & _ & Hex & Hseen & _). rewrite Hseen, Hex.
    apply in_or_app. right. now apply Hcur.
  - intros k o m Hk Hacc Hin. apply (Hcov k Hk) in Hin.
    destruct o as [response|]; [|discriminate]. unfold is_accepted in Hacc.
    destruct (JS.truthy_string _); [discriminate|].
    destruct (MovieAPI.Response.movie response) as [m0|]; [|discriminate].
    destruct (JS.includes (allExcludedIds k) (movieId m0)) eqn:E; [discriminate|].
    injection Hacc as <-. apply includes_not_In in E. contradiction.
Qed.

Lemma displayed_candidate_is_excluded_witness :
  let w := run [StartSwiping []; Settle 0 (answer_movie 5)] boot in
  currentMovie (component w) = Some (sample_movie 5) /\
  In 5 (recentlyFetchedIds (component w)).
Proof.
  intros w. split; [reflexivity|].
  exact (proj1 (proj1 (displayed_candidate_is_excluded
                         [StartSwiping []; Settle 0 (answer_movie 5)])
                      (sample_movie 5) eq_refl)).
Defined.

(** ** MovieMatchApp.tsx: the backoff *)

(** X17: for a counter of at least 1 the backoff delay lies between 200 and
    2000 ms and does not decrease with the counter; it is 200 * 2^(n - 1)
    up to n = 4 and 2000 from n = 5 on. *)
Theorem backoff_bounds (n : Z) :
  1 <= n ->
  200 <= backoffDelay n <= 2000 /\
  backoffDelay n <= backoffDelay (n + 1) /\
  (n <= 4 -> backoffDelay n = 200 * 2 ^ (n - 1)) /\
  (5 <= n -> backoffDelay n = 2000).
Proof.
  intros Hn. unfold backoffDelay.
  assert (H1 : 1 <= 2 ^ (n - 1)) by (apply Z.lt_pred_le, Z.pow_pos_nonneg; lia).
  assert (Hstep : 2 ^ (n + 1 - 1) = 2 * 2 ^ (n - 1)).
  { replace (n + 1 - 1) with (Z.succ (n - 1)) by lia. apply Z.pow_succ_r. lia. }
  rewrite Hstep. repeat split; try lia.
  - intros H4. assert (2 ^ (n - 1) <= 2 ^ 3) by (apply Z.pow_le_mono_r; lia).
    change (2 ^ 3) with 8 in *. lia.
  - intros H5. assert (2 ^ 4 <= 2 ^ (n - 1)) by (apply Z.pow_le_mono_r; lia).
    change (2 ^ 4) with 16 in *. lia.
Qed.

Lemma backoff_bounds_witness : 1 <= 7 /\ backoffDelay 7 = 2000.
Proof.
  split; [lia|].
  destruct (@backoff_bounds 7 ltac:(lia)) as (_ & _ & _ & Hcap). apply Hcap. lia.
Defined.

Lemma resume_frame (k : Pending) (o : MovieAPI.Outcome) (s : App) :
  let s' := fetchNextMovie_resume k o s in
  userLists s' = userLists s /\ filters s' = filters s /\
  currentView s' = currentView s /\ hasStarted s' = hasStarted s /\
  showControlsTip s' = showControlsTip s /\ requests s' = requests s /\
  feedbacks s' = feedbacks s.
Proof.
  cbv zeta. unfold fetchNextMovie_resume.
  destruct o as [response|]; [|cbn; repeat split].
  destruct (JS.truthy_string _); [cbn; repeat split|].
  destruct (MovieAPI.Response.movie response) as [m|]; [|cbn; repeat split].
  destruct (JS.includes _ _).
  - cbn [fetchAttemptCount set_isLoading set_fetchAttemptCount set_recentlyFetchedIds].
    destruct (_ >=? _); cbn; repeat split.
  - cbn [recentlyFetchedIds set_recentlyFetchedIds].
    destruct (MovieAPI.Response.user_vector response); destruct (JS.size _ >? 50);
      cbn; repeat split.
Qed.

Lemma resume_timeouts (k : Pending) (o : MovieAPI.Outcome) (s : App) :
  0 <= fetchAttemptCount s ->
  timeouts (fetchNextMovie_resume k o s) = timeouts s \/
  exists n, 1 <= n <= 4 /\
            timeouts (fetchNextMovie_resume k o s) = timeouts s ++ [backoffDelay n].
Proof.
  intros Hc. unfold fetchNextMovie_resume.
  destruct o as [response|]; [|now left].
  destruct (JS.truthy_string _); [now left|].
  destruct (MovieAPI.Response.movie response) as [m|]; [|now left].
  destruct (JS.includes _ _).
  - cbn [fetchAttemptCount set_isLoading set_fetchAttemptCount set_recentlyFetchedIds].
    destruct (Z.geb_spec (fetchAttemptCount s + 1) maxFetchAttempts); [now left|].
    right. exists (fetchAttemptCount s + 1). split; [budget | reflexivity].
  - cbn [recentlyFetchedIds set_recentlyFetchedIds].
    destruct (MovieAPI.Response.user_vector response); destruct (JS.size _ >? 50);
      now left.
Qed.

Lemma step_timeouts (e : Event) (w : World) :
  consistent w ->
  timeouts (component (step e w)) = timeouts (component w) \/
  exists n, 1 <= n <= 4 /\
            timeouts (component (step e w)) = timeouts (component w) ++ [backoffDelay n].
Proof.
  destruct w as [s pending]. intros Hc.
  destruct e as [pre| |v|f|action|movie fromList toList|movie fromList| |shown|i o|];
    unfold step; cbn [component inflight]; try (now left).
  1-4: left; unfold rerender, fetchEffect;
       destruct (_ || _ || _); [destruct (hasStarted _ && _)|]; try reflexivity;
       match goal with
       | |- context [fetchNextMovie ?c ?t] =>
           pose proof (fetchNextMovie_frame c t) as (_ & _ & _ & _ & _ & Hf & _);
           destruct (fetchNextMovie c t); exact Hf
       end.
  - left. unfold handleAction.
    destruct (currentMovie s); [|reflexivity]. destruct (isLoading s); [reflexivity|].
    match goal with
    | |- context [fetchNextMovie ?c ?t] =>
        pose proof (fetchNextMovie_frame c t) as (_ & _ & _ & _ & _ & Hf & _);
        destruct (fetchNextMovie c t) as [s0 k0]; cbn [fst] in Hf;
        assert (Ht : timeouts t = timeouts s)
          by (destruct (JS.size _ >? 30); destruct (showControlsTip s); reflexivity)
    end.
    destruct action; cbn [component]; cbn; congruence.
  - left. unfold resetMovies, rerender, fetchEffect.
    match goal with
    | |- context [fetchNextMovie ?c ?t] =>
        pose proof (fetchNextMovie_frame c t) as (_ & _ & _ & _ & _ & Hf & _);
        destruct (fetchNextMovie c t) as [s1 k1]; cbn [fst] in Hf
    end.
    cbn [orb]. destruct (hasStarted s1 && _); [|exact Hf].
    pose proof (fetchNextMovie_frame (closure_of s1) s1) as (_ & _ & _ & _ & _ & Hf' & _).
    destruct (fetchNextMovie (closure_of s1) s1). cbn in Hf, Hf' |- *. congruence.
  - destruct (nth_error pending i) as [k|]; [|now left].
    cbn [component]. apply resume_timeouts. exact (proj1 (proj1 Hc)).
  - destruct (fetchTimeoutRef s) as [t|]; [|now left]. left.
    pose proof (fetchNextMovie_frame (callback t) (set_fetchTimeoutRef None s))
      as (_ & _ & _ & _ & _ & Hf & _).
    destruct (fetchNextMovie _ _). exact Hf.
Qed.

(** X18: every delay the retry timer is ever set to, in any world the
    environment can bring about, is one of 200, 400, 800 and 1600 ms: the
    cap of 2000 ms is never used. *)
Theorem scheduled_delays (es : list Event) :
  Forall (fun d => In d [200; 400; 800; 1600]) (timeouts (component (run es boot))).
Proof.
  assert (Hgen : forall w, consistent w ->
            Forall (fun d => In d [200; 400; 800; 1600]) (timeouts (component w)) ->
            Forall (fun d => In d [200; 400; 800; 1600]) (timeouts (component (run es w)))).
  { induction es as [|e es IH]; intros w Hc Hw; [exact Hw|].
    cbn [run fold_left]. apply IH; [now apply step_consistent|].
    destruct (step_timeouts e Hc) as [-> | (n & Hn & ->)]; [exact Hw|].
    apply Forall_app. split; [exact Hw|]. constructor; [|constructor].
    assert (Hcases : n = 1 \/ n = 2 \/ n = 3 \/ n = 4) by lia.
    destruct Hcases as [-> | [-> | [-> | ->]]]; cbn; tauto. }
  apply Hgen; [exact boot_consistent | constructor].
Qed.

(** ** MovieMatchApp.tsx: retries and requests *)

Lemma fetch_timer (c : Closure) (s : App) :
  fetchTimeoutRef (fst (fetchNextMovie c s))
  = if cl_isLoading c then fetchTimeoutRef s else None.
Proof.
  unfold fetchNextMovie. destruct (cl_isLoading c); [reflexivity|].
  cbn [fetchAttemptCount set_fetchTimeoutRef].
  destruct (fetchAttemptCount s >=? maxFetchAttempts); reflexivity.
Qed.

Lemma fetch_requests (c : Closure) (s : App) :
  requests (fst (fetchNextMovie c s))
  = requests s ++ map request (opt_list (snd (fetchNextMovie c s))).
Proof.
  unfold fetchNextMovie. destruct (cl_isLoading c); [cbn; now rewrite app_nil_r|].
  cbn [fetchAttemptCount set_fetchTimeoutRef].
  destruct (fetchAttemptCount s >=? maxFetchAttempts); cbn; [now rewrite app_nil_r|].
  reflexivity.
Qed.

Lemma loading_has_no_timer (es : list Event) :
  isLoading (component (run es boot)) = true ->
  fetchTimeoutRef (component (run es boot)) = None.
Proof.
  intros H. apply loading_iff_pending in H. now apply single_flight.
Qed.

(** X19: a fetch that is started cancels the pending retry.  In every world
    the environment can bring about, after a reset, after a change of the
    filters in the started swipe view, and after a classification that is
    carried out, no retry timer is set, so the retry scheduled earlier never
    fires. *)
Theorem new_fetch_cancels_retry (es : list Event) (e : Event) :
  let w := run es boot in
  e = Reset \/
  (exists f, e = FiltersChange f /\
             hasStarted (component w) = true /\ currentView (component w) = Swipe) \/
  (exists action m, e = Act action /\
                    currentMovie (component w) = Some m /\
                    isLoading (component w) = false) ->
  fetchTimeoutRef (component (step e w)) = None /\
  step TimerFires (step e w) = step e w.
Proof.
  intros w He.
  assert (Hquiet : forall w0, fetchTimeoutRef (component w0) = None ->
                              step TimerFires w0 = w0)
    by (intros w0 H0; unfold step; now rewrite H0).
  assert (Hnone : fetchTimeoutRef (component (step e w)) = None);
    [|split; [exact Hnone | now apply Hquiet]].
  pose proof (loading_has_no_timer es) as Hload. fold w in Hload.
  destruct w as [s pending]. cbn [component] in *.
  assert (Hfetch : forall t, fetchTimeoutRef t = fetchTimeoutRef s ->
                             isLoading t = isLoading s ->
                             fetchTimeoutRef (fst (fetchNextMovie (closure_of t) t)) = None).
  { intros t Ht Hl. rewrite fetch_timer. cbn. rewrite Hl, Ht.
    destruct (isLoading s); [now apply Hload | reflexivity]. }
  destruct He as [-> | [(f & -> & Hs & Hv) | (action & m & -> & Hm & Hl)]];
    unfold step; cbn [component inflight].
  - unfold resetMovies, rerender, fetchEffect. cbn [orb].
    set (cleared := set_filters _ _).
    assert (H1 : fetchTimeoutRef (fst (fetchNextMovie (closure_of s) cleared)) = None).
    { rewrite fetch_timer. cbn. destruct (isLoading s) eqn:El; [now apply Hload | reflexivity]. }
    destruct (fetchNextMovie (closure_of s) cleared) as [s1 k1]. cbn [fst] in H1.
    destruct (hasStarted s1 && _); [|exact H1].
    pose proof (fetch_timer (closure_of s1) s1) as H2.
    destruct (fetchNextMovie (closure_of s1) s1). cbn [fst component] in *.
    rewrite H2. destruct (cl_isLoading _); [exact H1 | reflexivity].
  - unfold rerender, fetchEffect. cbn [orb]. cbn [hasStarted currentView set_filters].
    rewrite Hs, Hv. cbn [View_eqb andb].
    pose proof (Hfetch (set_filters f s) eq_refl eq_refl) as H1.
    destruct (fetchNextMovie _ _). exact H1.
  - unfold handleAction. rewrite Hm, Hl.
    match goal with
    | |- context [fetchNextMovie ?c ?t] =>
        pose proof (fetch_timer c t) as H1; destruct (fetchNextMovie c t) as [s0 k0]
    end.
    cbn [closure_of cl_isLoading fst] in H1. rewrite Hl in H1.
    destruct action; cbn [component]; exact H1.
Qed.

Lemma new_fetch_cancels_retry_witness :
  let es := [StartSwiping [sample_movie 7]; Settle 0 (answer_movie 7)] in
  option_map delay (fetchTimeoutRef (component (run es boot))) = Some 200 /\
  fetchTimeoutRef (component (step Reset (run es boot))) = None.
Proof.
  intros es. split; [reflexivity|].
  exact (proj1 (@new_fetch_cancels_retry es Reset (or_introl eq_refl))).
Defined.

(** X20: after the retries were used up (the counter is at the maximum) the
    first call of the fetch operation sends nothing and lowers the loading
    flag; the call after it sends a request, whose exclusions are the
    identifiers of the lists alone, the window having been emptied. *)
Theorem trigger_after_abort (c c' : Closure) (s : App) :
  cl_isLoading c = false ->
  cl_isLoading c' = false ->
  fetchAttemptCount s = maxFetchAttempts ->
  let s1 := fst (fetchNextMovie c s) in
  snd (fetchNextMovie c s) = None /\
  requests s1 = requests s /\
  isLoading s1 = false /\
  exists k,
    snd (fetchNextMovie c' s1) = Some k /\
    MovieAPI.Request.seen_ids (request k) = getAllSeenIds (cl_userLists c') /\
    requests (fst (fetchNextMovie c' s1)) = requests s ++ [request k].
Proof.
  intros Hc Hc' Hmax. cbv zeta.
  rewrite fetchNextMovie_exhausted by (assumption || lia). cbn [fst snd].
  split; [reflexivity|]. split; [reflexivity|]. split; [reflexivity|].
  rewrite fetchNextMovie_sends by (assumption || (cbn; budget)).
  cbv zeta. cbn [fst snd]. eexists. split; [reflexivity|]. cbn.
  split; [apply app_nil_r | reflexivity].
Qed.

Lemma trigger_after_abort_witness :
  let s := set_fetchAttemptCount 5 (set_recentlyFetchedIds [7] initial) in
  cl_isLoading (closure_of s) = false /\
  fetchAttemptCount s = maxFetchAttempts /\
  snd (fetchNextMovie (closure_of s) s) = None.
Proof.
  intros s. split; [reflexivity|]. split; [reflexivity|].
  exact (proj1 (@trigger_after_abort (closure_of s) (closure_of s) s
                  eq_refl eq_refl eq_refl)).
Defined.

Lemma remove_nth_length {A : Type} (i : nat) (l : list A) :
  (List.length (remove_nth i l) <= List.length l)%nat.
Proof.
  revert i. induction l as [|a l IH]; intros [|i]; cbn; try lia.
  specialize (IH i). lia.
Qed.

(** X21: no event makes the component send more than one recommendation
    request, and only an event that sends one adds a pending call. *)
Theorem one_request_per_event (e : Event) (w : World) :
  exists sent,
    requests (component (step e w)) = requests (component w) ++ sent /\
    (List.length sent <= 1)%nat /\
    (List.length (inflight (step e w)) <= List.length (inflight w) + List.length sent)%nat.
Proof.
  destruct w as [s pending].
  assert (Hone : forall c t p,
            requests t = requests s ->
            exists sent,
              requests (fst (fetchNextMovie c t)) = requests s ++ sent /\
              (List.length sent <= 1)%nat /\
              (List.length (p ++ opt_list (snd (fetchNextMovie c t)))
               <= List.length p + List.length sent)%nat).
  { intros c t p Ht. exists (map request (opt_list (snd (fetchNextMovie c t)))).
    rewrite fetch_requests, Ht. split; [reflexivity|].
    rewrite length_app, length_map.
    destruct (snd (fetchNextMovie c t)); cbn; lia. }
  assert (Hnothing : forall t,
            requests t = requests s ->
            exists sent, requests t = requests s ++ sent /\
                         (List.length sent <= 1)%nat /\
                         (List.length (pending ++ []) <= List.length pending + List.length sent)%nat).
  { intros t Ht. exists []. rewrite app_nil_r, app_nil_r. cbn. repeat split; [exact Ht | lia | lia]. }
  destruct e as [pre| |v|f|action|movie fromList toList|movie fromList| |shown|i o|];
    unfold step; cbn [component inflight].
  1-4: unfold rerender, fetchEffect;
       destruct (_ || _ || _); [destruct (hasStarted _ && _)|];
       try (apply Hnothing; reflexivity);
       match goal with
       | |- context [fetchNextMovie ?c ?t] =>
           specialize (Hone c t pending eq_refl); destruct (fetchNextMovie c t); exact Hone
       end.
  - unfold handleAction.
    destruct (currentMovie s); [|apply Hnothing; reflexivity].
    destruct (isLoading s); [apply Hnothing; reflexivity|].
    match goal with
    | |- context [fetchNextMovie ?c ?t] =>
        assert (Ht : requests t = requests s)
          by (destruct (JS.size _ >? 30); destruct (showControlsTip s); reflexivity);
        specialize (Hone c t pending Ht); destruct (fetchNextMovie c t) as [s0 k0]
    end.
    cbn [fst snd] in Hone. destruct action; cbn [component inflight]; exact Hone.
  - exists []. rewrite app_nil_r. cbn. repeat split; lia.
  - exists []. rewrite app_nil_r. cbn. repeat split; lia.
  - unfold resetMovies, rerender, fetchEffect. cbn [orb].
    set (cleared := set_filters _ _).
    destruct (isLoading s) eqn:El.
    + rewrite fetchNextMovie_busy by exact El.
      assert (Hbusy : forall b : bool, (if b then fetchNextMovie (closure_of cleared) cleared
                                 else (cleared, @None Pending)) = (cleared, None))
        by (intros [|]; [apply fetchNextMovie_busy; exact El | reflexivity]).
      rewrite Hbusy. exists []. cbn. rewrite !app_nil_r. repeat split; lia.
    + rewrite fetchNextMovie_sends by (subst cleared; cbn; (exact El || budget)).
      cbv zeta.
      set (sent := set_requests _ _).
      match goal with |- context [opt_list (Some ?p)] => set (k := p) end.
      assert (Hbusy : forall b : bool, (if b then fetchNextMovie (closure_of sent) sent
                                 else (sent, @None Pending)) = (sent, None))
        by (intros [|]; [apply fetchNextMovie_busy; reflexivity | reflexivity]).
      rewrite Hbusy. exists [request k]. cbn. rewrite app_nil_r, length_app. cbn.
      repeat split; lia.
  - exists []. rewrite app_nil_r. cbn. repeat split; lia.
  - destruct (nth_error pending i) as [k|] eqn:E.
    + exists []. rewrite app_nil_r. cbn [component inflight].
      split; [apply resume_frame|]. split; [cbn; lia|].
      cbn. pose proof (remove_nth_length i pending). lia.
    + exists []. rewrite app_nil_r. cbn. repeat split; lia.
  - destruct (fetchTimeoutRef s) as [t|].
    + specialize (Hone (callback t) (set_fetchTimeoutRef None s) pending eq_refl).
      destruct (fetchNextMovie _ _). exact Hone.
    + exists []. rewrite app_nil_r. cbn. repeat split; lia.
Qed.

(** ** MovieMatchApp.tsx: what the handlers do *)

Lemma fetch_candidate (c : Closure) (s : App) :
  currentMovie (fst (fetchNextMovie c s)) = currentMovie s \/
  currentMovie (fst (fetchNextMovie c s)) = None.
Proof.
  unfold fetchNextMovie. destruct (cl_isLoading c); [now left|].
  cbn [fetchAttemptCount set_fetchTimeoutRef].
  destruct (fetchAttemptCount s >=? maxFetchAttempts); [now right | now left].
Qed.

(** X22: a classification that is carried out clears the displayed
    candidate and the controls tip, appends the candidate to the list the
    action names and to no other (to none for skip), and submits feedback
    exactly for like and dislike, with the vector the render held and the
    candidate's identifier; the stored vector and the filters are kept. *)
Theorem classification_effects (action : Action) (s : App) (m : Movie) :
  currentMovie s = Some m ->
  isLoading s = false ->
  let s' := fst (handleAction action s) in
  currentMovie s' = None /\
  showControlsTip s' = false /\
  (forall n, get_list n (userLists s')
             = if match target_of action with
                  | Some t => ListName_eqb t n
                  | None => false
                  end
               then get_list n (userLists s) ++ [m]
               else get_list n (userLists s)) /\
  feedbacks s'
  = feedbacks s ++
    (match action with
     | Like | Dislike =>
         [{| MovieAPI.Feedback.user_vector := userVector s;
             MovieAPI.Feedback.movie_id := movieId m;
             MovieAPI.Feedback.feedback := action |}]
     | Save | Skip => []
     end) /\
  userVector s' = userVector s /\
  filters s' = filters s.
Proof.
  intros Hm Hl s'. subst s'.
  pose proof (handleAction_classifies action s Hm Hl) as Hlists.
  unfold handleAction in *. rewrite Hm, Hl in *.
  set (trimmed := if JS.size (recentlyFetchedIds _) >? 30 then _ else _) in *.
  assert (Ht : currentMovie trimmed = None /\ showControlsTip trimmed = false /\
               feedbacks trimmed = feedbacks s /\ userVector trimmed = userVector s /\
               filters trimmed = filters s).
  { subst trimmed. destruct (JS.size _ >? 30); destruct (showControlsTip s) eqn:Etip;
      cbn; rewrite ?Etip; repeat split. }
  destruct Ht as (Hcur & Htip & Hfb & Hvec & Hfil).
  pose proof (fetchNextMovie_frame (closure_of s) trimmed)
    as (_ & Hv & Hf & Hfeed & _ & _ & _ & _ & Hshow).
  pose proof (fetch_candidate (closure_of s) trimmed) as Hcand.
  destruct (fetchNextMovie (closure_of s) trimmed) as [s0 k0]. cbn [fst] in *.
  assert (Hnone : currentMovie s0 = None) by (destruct Hcand; congruence).
  split; [destruct action; exact Hnone|].
  split; [destruct action; cbn; congruence|].
  split; [intros n; rewrite Hlists; destruct action, n; reflexivity|].
  split; [destruct action; cbn; rewrite ?app_nil_r; congruence|].
  split; destruct action; cbn; congruence.
Qed.

Lemma classification_effects_witness :
  let s := component (run [StartSwiping []; Settle 0 (answer_movie 5)] boot) in
  currentMovie s = Some (sample_movie 5) /\
  isLoading s = false /\
  get_list Saved (userLists (fst (handleAction Save s))) = [sample_movie 5] /\
  feedbacks (fst (handleAction Save s)) = [].
Proof.
  intros s. split; [reflexivity|]. split; [reflexivity|].
  destruct (@classification_effects Save s (sample_movie 5) eq_refl eq_refl)
    as (_ & _ & Hlists & Hfb & _).
  split; [exact (Hlists Saved) | exact Hfb].
Defined.

(** X23: the request that follows a classification is built by the render
    in which the action was taken: with the counter below the maximum,
    exactly one request is sent; its liked identifiers are those of the
    liked list before the classification (a movie just liked is not among
    them), its vector is the stored one, and its exclusions are the
    identifiers of the lists before the classification followed by the
    window as the classification left it. *)
Theorem request_after_classification (action : Action) (s : App) (m : Movie) :
  currentMovie s = Some m ->
  isLoading s = false ->
  fetchAttemptCount s < maxFetchAttempts ->
  let s' := fst (handleAction action s) in
  exists k,
    snd (handleAction action s) = Some k /\
    requests s' = requests s ++ [request k] /\
    isLoading s' = true /\
    MovieAPI.Request.liked_ids (request k) = getLikedIds (userLists s) /\
    MovieAPI.Request.user_vector (request k) = userVector s /\
    MovieAPI.Request.seen_ids (request k)
    = getAllSeenIds (userLists s) ++ recentlyFetchedIds s'.
Proof.
  intros Hm Hl Hc s'. subst s'. unfold handleAction. rewrite Hm, Hl.
  set (trimmed := if JS.size (recentlyFetchedIds _) >? 30 then _ else _).
  assert (Ht : fetchAttemptCount trimmed < maxFetchAttempts /\
               requests trimmed = requests s).
  { subst trimmed. destruct (JS.size _ >? 30); destruct (showControlsTip s);
      cbn; split; (assumption || reflexivity). }
  destruct Ht as (Hct & Hrt).
  rewrite (@fetchNextMovie_sends (closure_of s) trimmed Hl Hct). cbv zeta.
  eexists. split; [destruct action; reflexivity|].
  destruct action; cbn; rewrite Hrt; repeat split.
Qed.

Lemma request_after_classification_witness :
  let s := component (run [StartSwiping []; Settle 0 (answer_movie 5)] boot) in
  currentMovie s = Some (sample_movie 5) /\
  isLoading s = false /\
  fetchAttemptCount s < maxFetchAttempts /\
  exists k,
    snd (handleAction Like s) = Some k /\
    MovieAPI.Request.liked_ids (request k) = [] /\
    MovieAPI.Request.seen_ids (request k) = [5].
Proof.
  intros s. split; [reflexivity|]. split; [reflexivity|]. split; [reflexivity|].
  destruct (@request_after_classification Like s (sample_movie 5) eq_refl eq_refl eq_refl)
    as (k & Hk & _ & _ & Hliked & _ & Hseen).
  exists k. split; [exact Hk|]. split; [exact Hliked|].
  rewrite Hseen. reflexivity.
Defined.

(** X24: starting to swipe from a component that was not started, is not
    loading and has attempts left adds the picked movies to the liked list,
    shows the swipe view, and sends exactly one request, which lists the
    picked movies among the liked and among the excluded identifiers. *)
Theorem start_swiping_fetches (pre : list Movie) (s : App) (pending : list Pending) :
  hasStarted s = false ->
  isLoading s = false ->
  fetchAttemptCount s < maxFetchAttempts ->
  let w := step (StartSwiping pre) {| component := s; inflight := pending |} in
  exists k,
    inflight w = pending ++ [k] /\
    requests (component w) = requests s ++ [request k] /\
    liked (userLists (component w)) = liked (userLists s) ++ pre /\
    currentView (component w) = Swipe /\
    hasStarted (component w) = true /\
    MovieAPI.Request.liked_ids (request k)
    = getLikedIds (userLists s) ++ map movieId pre /\
    (forall m, In m pre -> In (movieId m) (MovieAPI.Request.seen_ids (request k))).
Proof.
  intros Hs Hl Hc. cbv zeta. unfold step, rerender, fetchEffect. cbn [component inflight].
  cbn [hasStarted currentView handleStartSwiping set_hasStarted set_currentView
       set_userLists].
  rewrite Hs. cbn [Bool.eqb negb orb andb View_eqb].
  rewrite fetchNextMovie_sends by (cbn; assumption). cbv zeta.
  eexists. split; [reflexivity|]. cbn.
  split; [reflexivity|]. split; [reflexivity|]. split; [reflexivity|].
  split; [reflexivity|]. split; [unfold getLikedIds; cbn; apply map_app|].
  intros m Hin. unfold getAllSeenIds. cbn. rewrite !map_app, !in_app_iff.
  left. left. right. now apply in_map.
Qed.

Lemma start_swiping_fetches_witness :
  hasStarted initial = false /\ isLoading initial = false /\
  fetchAttemptCount initial < maxFetchAttempts /\
  exists k,
    inflight (step (StartSwiping [sample_movie 3]) boot) = [k] /\
    MovieAPI.Request.liked_ids (request k) = [3].
Proof.
  split; [reflexivity|]. split; [reflexivity|]. split; [reflexivity|].
  destruct (@start_swiping_fetches [sample_movie 3] initial [] eq_refl eq_refl eq_refl)
    as (k & Hk & _ & _ & _ & _ & Hliked & _).
  exists k. split; [exact Hk | exact Hliked].
Defined.

(** X25: going home shows the intro screen, clears the candidate and the
    stored vector, and sends nothing; the three lists, the window, the
    counter and whatever is pending are kept, and an answer that arrives
    afterwards is still taken: an accepted candidate becomes the displayed
    one. *)
Theorem going_home (s : App) (pending : list Pending) :
  let w := step GoHome {| component := s; inflight := pending |} in
  currentView (component w) = Intro /\
  hasStarted (component w) = false /\
  currentMovie (component w) = None /\
  userVector (component w) = None /\
  userLists (component w) = userLists s /\
  recentlyFetchedIds (component w) = recentlyFetchedIds s /\
  fetchAttemptCount (component w) = fetchAttemptCount s /\
  requests (component w) = requests s /\
  inflight w = pending /\
  (forall k rest o m,
     pending = k :: rest -> is_accepted k o = Some m ->
     currentMovie (component (step (Settle 0 o) w)) = Some m).
Proof.
  assert (Hstep : step GoHome {| component := s; inflight := pending |}
                  = {| component := handleGoHome s; inflight := pending |}).
  { unfold step, rerender, fetchEffect. cbn [component inflight].
    cbn [hasStarted handleGoHome set_userVector set_currentMovie set_hasStarted
         set_currentView andb].
    destruct (false || _ || _); cbn [opt_list]; now rewrite app_nil_r. }
  cbv zeta. rewrite Hstep. cbn [component inflight].
  repeat (split; [reflexivity|]).
  intros k rest o m -> Hacc. unfold step. cbn [nth_error component inflight].
  now destruct (resume_accepted k o (handleGoHome s) Hacc) as (_ & Hm & _).
Qed.

Lemma going_home_witness :
  let w := run [StartSwiping []] boot in
  exists k,
    inflight w = [k] /\
    is_accepted k (answer_movie 5) = Some (sample_movie 5) /\
    currentView (component (step (Settle 0 (answer_movie 5)) (step GoHome w))) = Intro /\
    currentMovie (component (step (Settle 0 (answer_movie 5)) (step GoHome w)))
    = Some (sample_movie 5).
Proof.
  intros w. destruct (inflight w) as [|k rest] eqn:E; [discriminate|].
  exists k. assert (Hrest : rest = []) by (injection E as _ <-; reflexivity). subst rest.
  split; [reflexivity|].
  assert (Hacc : is_accepted k (answer_movie 5) = Some (sample_movie 5))
    by (injection E as <-; reflexivity).
  split; [exact Hacc|]. split; [reflexivity|].
  destruct w as [s pending]. cbn [inflight] in E.
  destruct (going_home s pending) as (_ & _ & _ & _ & _ & _ & _ & _ & _ & Hlate).
  exact (Hlate k [] (answer_movie 5) (sample_movie 5) E Hacc).
Defined.

(** X26: a change of the filters in the started swipe view, with no fetch in
    progress and attempts left, stores the new filters and sends exactly one
    request, which carries the fields of the new filters; the displayed
    candidate stays on display until the answer arrives.  While a fetch is
    in progress the new filters are stored and no request is sent. *)
Theorem filter_change_refetches (f : Filters.FilterState) (s : App)
        (pending : list Pending) :
  hasStarted s = true ->
  currentView s = Swipe ->
  let w := step (FiltersChange f) {| component := s; inflight := pending |} in
  filters (component w) = f /\
  currentMovie (component w)
  = (if isLoading s then currentMovie s
     else if fetchAttemptCount s >=? maxFetchAttempts then None else currentMovie s) /\
  (isLoading s = true -> inflight w = pending /\ requests (component w) = requests s) /\
  (isLoading s = false -> fetchAttemptCount s < maxFetchAttempts ->
   exists k,
     inflight w = pending ++ [k] /\
     requests (component w) = requests s ++ [request k] /\
     MovieAPI.Request.genre (request k) = hd_error (Filters.genres f) /\
     MovieAPI.Request.language (request k) = hd_error (Filters.languages f) /\
     MovieAPI.Request.year_start (request k) = fo_year_start (buildFilterObj f) /\
     MovieAPI.Request.year_end (request k) = fo_year_end (buildFilterObj f)).
Proof.
  intros Hs Hv. cbv zeta. unfold step, rerender, fetchEffect. cbn [component inflight orb].
  cbn [hasStarted currentView set_filters]. rewrite Hs, Hv. cbn [andb View_eqb].
  destruct (isLoading s) eqn:El.
  - rewrite fetchNextMovie_busy by exact El. cbn. rewrite app_nil_r.
    repeat split; discriminate.
  - destruct (Z.geb_spec (fetchAttemptCount s) maxFetchAttempts) as [Hge|Hlt].
    + rewrite fetchNextMovie_exhausted by (cbn; (exact El || lia)). cbn.
      repeat split; try discriminate. intros _ H. lia.
    + rewrite fetchNextMovie_sends by (cbn; (exact El || lia)). cbv zeta. cbn.
      split; [reflexivity|]. split; [reflexivity|]. split; [discriminate|].
      intros _ _. eexists. split; [reflexivity|]. cbn.
      split; [reflexivity|].
      split; [destruct (Filters.genres f); reflexivity|].
      split; [destruct (Filters.languages f); reflexivity|].
      split; reflexivity.
Qed.

Lemma filter_change_refetches_witness :
  let s := component (run [StartSwiping []; Settle 0 (answer_movie 5)] boot) in
  let f := {| Filters.genres := ["Drama"%string]; Filters.languages := [];
              Filters.yearRange := (1900, 2024) |} in
  hasStarted s = true /\ currentView s = Swipe /\
  currentMovie (component (step (FiltersChange f) {| component := s; inflight := [] |}))
  = Some (sample_movie 5).
Proof.
  intros s f. split; [reflexivity|]. split; [reflexivity|].
  destruct (@filter_change_refetches f s [] eq_refl eq_refl) as (_ & Hcur & _).
  rewrite Hcur. reflexivity.
Defined.

(** X27: the preference vector is stored and forwarded as it is.  An
    accepted answer that carries a vector replaces the stored one, and one
    without a vector leaves it; a request carries the vector of the render
    that sends it; so the request sent by the render that follows an
    acceptance with a vector carries exactly that vector. *)
Theorem vector_is_forwarded (k : Pending) (response : MovieAPI.Response.t)
        (s : App) (m : Movie) :
  is_accepted k (MovieAPI.Resolved response) = Some m ->
  let s' := fetchNextMovie_resume k (MovieAPI.Resolved response) s in
  userVector s'
  = (match MovieAPI.Response.user_vector response with
     | Some v => Some v
     | None => userVector s
     end) /\
  (forall t k',
     fetchNextMovie (closure_of s') s' = (t, Some k') ->
     MovieAPI.Request.user_vector (request k') = userVector s') /\
  (forall c t t' k',
     fetchNextMovie c t = (t', Some k') ->
     MovieAPI.Request.user_vector (request k') = cl_userVector c).
Proof.
  intros Hacc s'.
  assert (Hany : forall c t t' k',
             fetchNextMovie c t = (t', Some k') ->
             MovieAPI.Request.user_vector (request k') = cl_userVector c).
  { intros c t t' k' Hf. apply fetchNextMovie_pending in Hf.
    destruct Hf as (_ & _ & _ & _ & _ & -> & _). reflexivity. }
  split; [|split; [intros t k' Hf; exact (Hany _ _ _ _ Hf) | exact Hany]].
  subst s'. unfold is_accepted in Hacc. unfold fetchNextMovie_resume.
  destruct (JS.truthy_string _); [discriminate|].
  destruct (MovieAPI.Response.movie response) as [m0|]; [|discriminate].
  destruct (JS.includes _ _); [discriminate|].
  cbn [recentlyFetchedIds set_recentlyFetchedIds].
  destruct (MovieAPI.Response.user_vector response); destruct (JS.size _ >? 50);
    reflexivity.
Qed.

Lemma vector_is_forwarded_witness :
  let response := {| MovieAPI.Response.movie := Some (sample_movie 5);
                     MovieAPI.Response.user_vector := Some [0.5%float; 0.25%float];
                     MovieAPI.Response.error := None |} in
  let w := run [StartSwiping []] boot in
  exists k,
    inflight w = [k] /\
    is_accepted k (MovieAPI.Resolved response) = Some (sample_movie 5) /\
    userVector (fetchNextMovie_resume k (MovieAPI.Resolved response) (component w))
    = Some [0.5%float; 0.25%float].
Proof.
  intros response w. destruct (inflight w) as [|k rest] eqn:E; [discriminate|].
  exists k. assert (Hrest : rest = []) by (injection E as _ <-; reflexivity). subst rest.
  split; [reflexivity|].
  assert (Hacc : is_accepted k (MovieAPI.Resolved response) = Some (sample_movie 5))
    by (injection E as <-; reflexivity).
  split; [exact Hacc|].
  exact (proj1 (@vector_is_forwarded k response (component w) (sample_movie 5) Hacc)).
Defined.

(** X28: the three lists change only by a classification, a move, a removal
    or the start of swiping: answers of any kind, retries, filter changes,
    view changes, a reset and going home leave them as they are. *)
Theorem lists_change_only_by_list_events (e : Event) (w : World) :
  writes_lists e = false ->
  userLists (component (step e w)) = userLists (component w).
Proof.
  intros He. destruct w as [s pending].
  destruct e as [pre| |v|f|action|movie fromList toList|movie fromList| |shown|i o|];
    try discriminate He; clear He; unfold step; cbn [component inflight].
  1-3: unfold rerender, fetchEffect;
       destruct (_ || _ || _); [destruct (hasStarted _ && _)|]; try reflexivity;
       match goal with
       | |- context [fetchNextMovie ?c ?t] =>
           pose proof (fetchNextMovie_frame c t) as (Hf & _);
           destruct (fetchNextMovie c t); exact Hf
       end.
  - unfold resetMovies, rerender, fetchEffect. cbn [orb].
    match goal with
    | |- context [fetchNextMovie ?c ?t] =>
        pose proof (fetchNextMovie_frame c t) as (Hf & _);
        destruct (fetchNextMovie c t) as [s1 k1]; cbn [fst] in Hf
    end.
    destruct (hasStarted s1 && _); [|exact Hf].
    pose proof (fetchNextMovie_frame (closure_of s1) s1) as (Hf' & _).
    destruct (fetchNextMovie (closure_of s1) s1). cbn in Hf, Hf' |- *. congruence.
  - reflexivity.
  - destruct (nth_error pending i) as [k|]; [|reflexivity].
    apply resume_frame.
  - destruct (fetchTimeoutRef s) as [t|]; [|reflexivity].
    pose proof (fetchNextMovie_frame (callback t) (set_fetchTimeoutRef None s)) as (Hf & _).
    destruct (fetchNextMovie _ _). exact Hf.
Qed.

Lemma lists_change_only_by_list_events_witness :
  let w := run [StartSwiping [sample_movie 3]] boot in
  writes_lists (Settle 0 (answer_movie 5)) = false /\
  liked (userLists (component (step (Settle 0 (answer_movie 5)) w))) = [sample_movie 3].
Proof.
  intros w. split; [reflexivity|].
  rewrite (@lists_change_only_by_list_events (Settle 0 (answer_movie 5)) w eq_refl).
  reflexivity.
Defined.

(** ** The three lists along a session *)

(** What keeps a candidate out of the lists is not a test in [handleAction],
    which appends unchecked, but the exclusions a request is sent with: the
    identifiers of the lists of the render that sent it and the window.  The
    lemmas below show that they cover the lists for as long as the request
    or its retries can be answered, provided the events are [orderly]. *)

Lemma has_id_In_ids (x : Z) (ms : list Movie) :
  has_id x ms = true <-> In x (map movieId ms).
Proof. rewrite has_id_includes. apply includes_In. Qed.

Lemma listed_has_id (x : Z) (l : UserMovieList) :
  In x (getAllSeenIds l) <-> exists n, has_id x (get_list n l) = true.
Proof.
  unfold getAllSeenIds. rewrite !map_app, !in_app_iff, <- !has_id_In_ids. split.
  - intros [H | [H | H]]; [exists Liked | exists Saved | exists Disliked]; exact H.
  - intros [[] H]; cbn in H; auto.
Qed.

Lemma slice_last_snoc {A : Type} (n : nat) (l : list A) (x : A) :
  JS.slice_last (S n) (l ++ [x]) = JS.slice_last n l ++ [x].
Proof.
  unfold JS.slice_last. rewrite length_app. cbn [List.length].
  replace (List.length l + 1 - S n)%nat with (List.length l - n)%nat by lia.
  rewrite skipn_app.
  replace (List.length l - n - List.length l)%nat with O by lia. reflexivity.
Qed.

Lemma slice_last_mono {A : Type} (n n' : nat) (l : list A) :
  (n <= n')%nat -> incl (JS.slice_last n l) (JS.slice_last n' l).
Proof.
  unfold JS.slice_last. intros Hn x Hx.
  replace (List.length l - n)%nat
    with ((List.length l - n - (List.length l - n')) + (List.length l - n'))%nat in Hx
    by lia.
  rewrite <- skipn_skipn in Hx.
  rewrite <- (firstn_skipn (List.length l - n - (List.length l - n'))
                           (skipn (List.length l - n') l)).
  apply in_or_app. now right.
Qed.

Lemma screened_frame (s s' : App) (pending : list Pending) :
  userLists s' = userLists s ->
  currentMovie s' = currentMovie s \/ currentMovie s' = None ->
  fetchAttemptCount s' = fetchAttemptCount s ->
  recentlyFetchedIds s' = recentlyFetchedIds s ->
  fetchTimeoutRef s' = fetchTimeoutRef s ->
  screened {| component := s; inflight := pending |} ->
  screened {| component := s'; inflight := pending |}.
Proof.
  unfold screened. cbn [component inflight].
  intros -> Hm -> -> -> (Hdis & Hcand & Hrest).
  split; [exact Hdis|]. split; [|exact Hrest].
  intros m Hm'. destruct Hm as [Hm | Hm]; rewrite Hm in Hm'; [now apply Hcand | discriminate].
Qed.

Ltac unchanged :=
  apply screened_frame;
  [reflexivity | first [left; reflexivity | right; reflexivity] | reflexivity ..].

(** The lists are replaced by lists that hold no new identifier. *)
Lemma screened_lists (l : UserMovieList) (s : App) (pending : list Pending) :
  disjoint_lists l ->
  incl (getAllSeenIds l) (getAllSeenIds (userLists s)) ->
  screened {| component := s; inflight := pending |} ->
  screened {| component := set_userLists l s; inflight := pending |}.
Proof.
  unfold screened. cbn [component inflight]. cbn.
  intros Hdis Hincl (_ & Hcand & Hpend & Htimer).
  split; [exact Hdis|]. split; [|split].
  - intros m Hm. destruct (Hcand m Hm) as [Hnot Hin]. split; [|exact Hin].
    intros H. apply Hnot. now apply Hincl.
  - intros k Hk. destruct (Hpend k Hk) as [H1 H2].
    split; eapply incl_tran; eassumption.
  - intros t Ht. eapply incl_tran; [exact Hincl | now apply Htimer].
Qed.

Lemma idle_has_no_pending (s : App) (pending : list Pending) :
  consistent {| component := s; inflight := pending |} ->
  isLoading s = false -> pending = [].
Proof.
  intros (_ & _ & _ & H) El. cbn [component inflight] in H.
  destruct pending as [|k [|k' rest]]; [reflexivity| |contradiction].
  destruct H as (H & _). congruence.
Qed.

(** A fetch that is not refused, in a closure whose lists, together with the
    window, cover the identifiers in the lists. *)
Lemma fetch_screened (c : Closure) (s : App) (pending : list Pending) :
  consistent {| component := s; inflight := pending |} ->
  cl_isLoading c = false ->
  isLoading s = false ->
  disjoint_lists (userLists s) ->
  (forall m, currentMovie s = Some m ->
     ~ In (movieId m) (getAllSeenIds (userLists s)) /\
     In (movieId m)
        (JS.slice_last (Z.to_nat (fetchAttemptCount s + 1)) (recentlyFetchedIds s))) ->
  incl (getAllSeenIds (userLists s))
       (getAllSeenIds (cl_userLists c) ++ recentlyFetchedIds s) ->
  screened {| component := fst (fetchNextMovie c s);
              inflight := pending ++ opt_list (snd (fetchNextMovie c s)) |}.
Proof.
  intros Hinv Hc El Hdis Hcand Hcov.
  rewrite (idle_has_no_pending Hinv El).
  destruct (Z_lt_ge_dec (fetchAttemptCount s) maxFetchAttempts) as [Hlt|Hge].
  - rewrite (fetchNextMovie_sends c s Hc Hlt). cbv zeta. unfold screened. cbn.
    split; [exact Hdis|]. split; [exact Hcand|]. split; [|discriminate].
    intros k [<- | []]. cbn. split; exact Hcov.
  - rewrite fetchNextMovie_exhausted by (assumption || lia). unfold screened. cbn.
    split; [exact Hdis|]. split; [discriminate|]. split; [intros k []|discriminate].
Qed.

Lemma rerender_screened (replaced : bool) (before s : App) (pending : list Pending) :
  consistent {| component := s; inflight := pending |} ->
  screened {| component := s; inflight := pending |} ->
  screened {| component := fst (rerender replaced before s);
              inflight := pending ++ opt_list (snd (rerender replaced before s)) |}.
Proof.
  intros Hc H. unfold rerender, fetchEffect.
  destruct (replaced || _ || _); [destruct (hasStarted s && _)|];
    try (cbn; now rewrite app_nil_r).
  destruct (isLoading s) eqn:El.
  - rewrite fetchNextMovie_busy by exact El. cbn. now rewrite app_nil_r.
  - destruct H as (Hdis & Hcand & _). cbn [component] in Hdis, Hcand.
    apply fetch_screened; try assumption. cbn. apply incl_appl, incl_refl.
Qed.

Lemma accepted_not_excluded (k : Pending) (o : MovieAPI.Outcome) (m : Movie) :
  is_accepted k o = Some m -> ~ In (movieId m) (allExcludedIds k).
Proof.
  unfold is_accepted. destruct o as [response|]; [|discriminate].
  destruct (JS.truthy_string _); [discriminate|].
  destruct (MovieAPI.Response.movie response) as [m0|]; [|discriminate].
  destruct (JS.includes (allExcludedIds k) (movieId m0)) eqn:E; [discriminate|].
  intros [= <-]. now apply includes_not_In.
Qed.

Lemma resume_screened (k : Pending) (o : MovieAPI.Outcome) (s : App) :
  consistent {| component := s; inflight := [k] |} ->
  tracked {| component := s; inflight := [k] |} ->
  screened {| component := s; inflight := [k] |} ->
  screened {| component := fetchNextMovie_resume k o s; inflight := [] |}.
Proof.
  intros (Hrange & _ & Hnd & _ & Htimer & _) (_ & Hwin & _) (Hdis & Hcand & Hpend & _).
  cbn [component inflight] in *.
  specialize (Hwin k (or_introl eq_refl)).
  destruct (Hpend k (or_introl eq_refl)) as [Hexcl Hcov]. clear Hpend.
  destruct (is_accepted k o) as [m|] eqn:Hacc.
  - destruct (resume_accepted k o s Hacc) as (Hw & Hm & Hcount & _ & Hlists & Ht & _).
    cbv zeta in Hw. unfold screened. cbn [component inflight].
    rewrite Hlists, Hm, Hcount, Ht, Htimer.
    split; [exact Hdis|]. split; [|split; [intros k' []|discriminate]].
    intros m' [= <-]. pose proof (accepted_not_excluded k o Hacc) as Hfresh.
    split; [intros H; apply Hfresh; now apply Hexcl|].
    assert (Hadd : JS.set_add (movieId m) (recentlyFetchedIds s)
                   = recentlyFetchedIds s ++ [movieId m]).
    { unfold JS.set_add.
      replace (JS.includes (recentlyFetchedIds s) (movieId m)) with false; [reflexivity|].
      symmetry. apply includes_not_In. intros H. apply Hfresh. now apply Hwin. }
    pose proof (set_add_NoDup (movieId m) Hnd) as Hnd'.
    rewrite Hw, Hadd in *. change (Z.to_nat (0 + 1)) with 1%nat.
    destruct (JS.size _ >? 50).
    + rewrite trimmed_set by assumption.
      change 50%nat with (S 49). rewrite !slice_last_snoc.
      apply in_or_app. right. now left.
    + rewrite slice_last_snoc. apply in_or_app. right. now left.
  - unfold fetchNextMovie_resume. unfold is_accepted in Hacc.
    destruct o as [response|].
    2:{ unfold screened. cbn. rewrite Htimer.
        split; [exact Hdis|]. split; [discriminate|]. split; [intros k' []|discriminate]. }
    destruct (JS.truthy_string _).
    { unfold screened. cbn. rewrite Htimer.
      split; [exact Hdis|]. split; [discriminate|]. split; [intros k' []|discriminate]. }
    destruct (MovieAPI.Response.movie response) as [m0|].
    2:{ unfold screened. cbn. rewrite Htimer.
        split; [exact Hdis|]. split; [exact Hcand|]. split; [intros k' []|discriminate]. }
    destruct (JS.includes (allExcludedIds k) (movieId m0)); [|discriminate].
    cbn [fetchAttemptCount set_isLoading set_fetchAttemptCount set_recentlyFetchedIds].
    destruct (fetchAttemptCount s + 1 >=? maxFetchAttempts).
    + unfold screened. cbn. rewrite Htimer.
      split; [exact Hdis|]. split; [discriminate|]. split; [intros k' []|discriminate].
    + unfold screened. cbn.
      split; [exact Hdis|]. split; [|split; [intros k' []|]].
      * intros m Hm. destruct (Hcand m Hm) as [Hnot Hin]. split; [exact Hnot|].
        replace (Z.to_nat (fetchAttemptCount s + 1 + 1))
          with (S (Z.to_nat (fetchAttemptCount s + 1))) by lia.
        unfold JS.set_add. destruct (JS.includes _ _).
        -- revert Hin. apply slice_last_mono. lia.
        -- change (In (movieId m)
                      (JS.slice_last (S (Z.to_nat (fetchAttemptCount s + 1)))
                                     (recentlyFetchedIds s ++ [movieId m0]))).
           rewrite slice_last_snoc. apply in_or_app. now left.
      * intros t [= <-]. cbn. intros x Hx. apply Hcov in Hx.
        apply in_app_or in Hx. apply in_or_app.
        destruct Hx as [Hx | Hx]; [now left | right; now apply set_add_incl].
Qed.

(** *** The operations on the lists *)

Lemma unlisted_nowhere (x : Z) (l : UserMovieList) (n : ListName) :
  ~ In x (getAllSeenIds l) -> has_id x (get_list n l) = false.
Proof.
  intros H. destruct (has_id x (get_list n l)) eqn:E; [|reflexivity].
  exfalso. apply H. apply listed_has_id. now exists n.
Qed.

Lemma classify_disjoint (action : Action) (m : Movie) (l : UserMovieList) :
  disjoint_lists l -> ~ In (movieId m) (getAllSeenIds l) ->
  disjoint_lists (classify action m l).
Proof.
  intros Hdis Hnot. apply (apply_op_disjoint (OpClassify action m) Hdis).
  unfold op_confined. destruct (target_of action); [|reflexivity].
  unfold elsewhere. cbn [existsb].
  pose proof (fun n => @unlisted_nowhere (movieId m) l n Hnot) as Hno.
  now rewrite !Hno, !andb_false_r.
Qed.

Lemma classify_listed (action : Action) (m : Movie) (l : UserMovieList) (x : Z) :
  In x (getAllSeenIds (classify action m l)) ->
  In x (getAllSeenIds l) \/ x = movieId m.
Proof.
  rewrite !listed_has_id. intros [n Hn]. apply has_id_classify in Hn.
  destruct Hn as [Hn | [-> _]]; [left; now exists n | now right].
Qed.

Lemma move_disjoint (movie : Movie) (fromList toList : ListName) (l : UserMovieList) :
  disjoint_lists l ->
  has_id (movieId movie) (get_list fromList l) = true ->
  disjoint_lists (moveMovie movie fromList toList l).
Proof.
  intros Hdis Hin. apply (apply_op_disjoint (OpMove movie fromList toList) Hdis).
  unfold op_confined, elsewhere. apply negb_true_iff.
  apply not_true_is_false. intros H. apply existsb_exists in H.
  destruct H as (n & _ & Hn). apply andb_prop in Hn. destruct Hn as [Hkeep Hn].
  rewrite (Hdis _ _ _ Hn Hin) in Hkeep. cbn in Hkeep.
  destruct fromList; discriminate.
Qed.

Lemma move_listed (movie : Movie) (fromList toList : ListName) (l : UserMovieList) :
  has_id (movieId movie) (get_list fromList l) = true ->
  incl (getAllSeenIds (moveMovie movie fromList toList l)) (getAllSeenIds l).
Proof.
  intros Hin x. rewrite !listed_has_id. intros [n Hn]. apply has_id_moveMovie in Hn.
  destruct Hn as [[_ Hn] | [-> _]]; [now exists n | now exists fromList].
Qed.

Lemma remove_disjoint (movie : Movie) (fromList : ListName) (l : UserMovieList) :
  disjoint_lists l -> disjoint_lists (removeMovie movie fromList l).
Proof. intros Hdis. now apply (apply_op_disjoint (OpRemove movie fromList) Hdis). Qed.

Lemma remove_listed (movie : Movie) (fromList : ListName) (l : UserMovieList) :
  incl (getAllSeenIds (removeMovie movie fromList l)) (getAllSeenIds l).
Proof.
  intros x. rewrite !listed_has_id. intros [n Hn]. apply has_id_removeMovie in Hn.
  now exists n.
Qed.

Lemma preselected_disjoint (pre : list Movie) (l : UserMovieList) :
  disjoint_lists l ->
  (forall m, In m pre ->
     has_id (movieId m) (saved l) = false /\ has_id (movieId m) (disliked l) = false) ->
  disjoint_lists (set_list Liked (liked l ++ pre) l).
Proof.
  intros Hdis Hpre.
  assert (Hnew : forall x n, has_id x pre = true -> has_id x (get_list n l) = true ->
                             n = Liked).
  { intros x n Hx Hn. apply existsb_exists in Hx. destruct Hx as (m & Hm & Hid).
    apply Z.eqb_eq in Hid. subst x. destruct (Hpre m Hm) as [Hs Hd].
    destruct n; [reflexivity | cbn [get_list] in Hn; congruence ..]. }
  intros x a b Ha Hb.
  assert (Hold : forall n, has_id x (get_list n (set_list Liked (liked l ++ pre) l)) = true ->
                           n = Liked \/ has_id x (get_list n l) = true).
  { intros n Hn. destruct n; [now left | right; exact Hn | right; exact Hn]. }
  assert (Hliked : forall n, has_id x (liked l ++ pre) = true ->
                             has_id x (get_list n l) = true -> n = Liked).
  { intros n Hl Hn. rewrite has_id_app in Hl. apply orb_prop in Hl.
    destruct Hl as [Hl | Hl]; [exact (Hdis x n Liked Hn Hl) | exact (Hnew x n Hl Hn)]. }
  destruct (Hold a Ha) as [-> | Ha'], (Hold b Hb) as [-> | Hb'].
  - reflexivity.
  - symmetry. now apply Hliked.
  - now apply Hliked.
  - exact (Hdis x a b Ha' Hb').
Qed.

(** A handler that leaves the lists, the counter, the window, the timer and
    the loading flag alone, followed by the render it causes. *)
Ltac screened_after_rerender Hc Hs :=
  match goal with
  | |- context [rerender ?b ?before ?after] =>
      generalize (fun pending Hc' Hp => @rerender_screened b before after pending Hc' Hp);
      destruct (rerender b before after); cbn [fst snd];
      let Hr := fresh "Hr" in
      intros Hr; apply Hr; [revert Hc; framed | revert Hs; unchanged]
  end.

Lemma step_screened (e : Event) (w : World) :
  consistent w -> tracked w -> screened w -> orderly e w = true ->
  screened (step e w).
Proof.
  destruct w as [s pending]. intros Hc Ht Hs Hok.
  destruct e as [pre| |v|f|action|movie fromList toList|movie fromList| |shown|i o|];
    unfold step; cbn [component inflight]; cbn [orderly component] in Hok.
  - (* the start of swiping *)
    apply andb_prop in Hok. destruct Hok as [Hok Hpre].
    apply andb_prop in Hok. destruct Hok as [Hview El].
    apply negb_true_iff in El. rewrite forallb_forall in Hpre.
    assert (Hv : currentView s = Intro) by (destruct (currentView s); discriminate || reflexivity).
    assert (Hstep : rerender false s (handleStartSwiping pre s)
                    = fetchNextMovie (closure_of (handleStartSwiping pre s))
                                     (handleStartSwiping pre s)).
    { unfold rerender, fetchEffect. cbn [hasStarted currentView handleStartSwiping
        set_hasStarted set_currentView set_userLists]. rewrite Hv. cbn.
      now rewrite orb_true_r. }
    rewrite Hstep.
    generalize (@fetch_screened (closure_of (handleStartSwiping pre s))
                  (handleStartSwiping pre s) pending).
    destruct (fetchNextMovie _ _) as [s' k]. cbn [fst snd]. intros Hf. apply Hf; clear Hf.
    + revert Hc. framed.
    + exact El.
    + exact El.
    + destruct Hs as (Hdis & _). cbn [component] in Hdis.
      cbn [currentMovie userLists fetchAttemptCount recentlyFetchedIds
           handleStartSwiping set_hasStarted set_currentView set_userLists].
      apply preselected_disjoint; [exact Hdis|].
      intros m Hm. specialize (Hpre m Hm).
      apply andb_prop in Hpre. destruct Hpre as [Hpre _].
      apply andb_prop in Hpre. destruct Hpre as [H1 H2].
      now rewrite negb_true_iff in H1, H2.
    + destruct Hs as (_ & Hcand & _). cbn [component] in Hcand.
      cbn [currentMovie userLists fetchAttemptCount recentlyFetchedIds
           handleStartSwiping set_hasStarted set_currentView set_userLists].
      intros c Hcur. destruct (Hcand c Hcur) as [Hnot Hin]. split; [|exact Hin].
      rewrite listed_has_id. intros [n Hn].
      assert (Hcase : has_id (movieId c) (get_list n (userLists s)) = true \/
                      has_id (movieId c) pre = true).
      { destruct n; cbn in Hn |- *; auto.
        change (has_id (movieId c) (liked (userLists s) ++ pre) = true) in Hn.
        rewrite has_id_app in Hn. now apply orb_prop in Hn. }
      destruct Hcase as [Hold | Hnew].
      * apply Hnot. apply listed_has_id. now exists n.
      * apply existsb_exists in Hnew. destruct Hnew as (m & Hm & Hid).
        specialize (Hpre m Hm). rewrite Hcur in Hpre.
        apply andb_prop in Hpre. destruct Hpre as [_ Hne].
        apply negb_true_iff in Hne. apply Z.eqb_eq in Hid. apply Z.eqb_neq in Hne.
        congruence.
    + cbn. apply incl_appl, incl_refl.
  - screened_after_rerender Hc Hs.
  - screened_after_rerender Hc Hs.
  - screened_after_rerender Hc Hs.
  - (* a classification *)
    unfold handleAction.
    destruct (currentMovie s) as [m|] eqn:Hm; [|cbn; now rewrite app_nil_r].
    destruct (isLoading s) eqn:El; [cbn; now rewrite app_nil_r|].
    destruct Hs as (Hdis & Hcand & _). cbn [component] in Hdis, Hcand.
    destruct (Hcand m Hm) as [Hnot Hin].
    assert (Hcount : (Z.to_nat (fetchAttemptCount s + 1) <= 15)%nat).
    { destruct Hc as (Hrange & Hmax & _). cbn [component] in Hrange, Hmax.
      assert (fetchAttemptCount s <> maxFetchAttempts) by (intros H; apply Hmax in H; congruence).
      unfold maxFetchAttempts in *. lia. }
    set (s1 := set_userLists _ _).
    assert (Hc1 : consistent {| component := s1; inflight := pending |})
      by (revert Hc; subst s1; destruct (showControlsTip s); framed).
    assert (H1 : userLists s1 = classify action m (userLists s) /\
                 currentMovie s1 = None /\ isLoading s1 = false /\
                 recentlyFetchedIds s1 = recentlyFetchedIds s)
      by (subst s1; destruct (showControlsTip s); repeat split; assumption).
    destruct H1 as (Hl1 & Hm1 & El1 & Hw1). clearbody s1.
    set (trimmed := if JS.size (recentlyFetchedIds s1) >? 30 then _ else _).
    assert (Hct : consistent {| component := trimmed; inflight := pending |})
      by (subst trimmed; destruct (JS.size _ >? 30);
          [now apply trim_consistent | assumption]).
    assert (H2 : userLists trimmed = classify action m (userLists s) /\
                 currentMovie trimmed = None /\ isLoading trimmed = false /\
                 In (movieId m) (recentlyFetchedIds trimmed)).
    { subst trimmed. destruct (JS.size _ >? 30); cbn; repeat split; try assumption.
      - destruct Hc1 as (_ & _ & Hnd & _). cbn [component] in Hnd.
        rewrite trimmed_set by assumption. rewrite Hw1.
        revert Hin. now apply slice_last_mono.
      - rewrite Hw1. now apply slice_last_incl in Hin. }
    destruct H2 as (Hl2 & Hm2 & El2 & Hw2). clearbody trimmed.
    assert (Hf : screened {| component := fst (fetchNextMovie (closure_of s) trimmed);
                             inflight := pending ++
                               opt_list (snd (fetchNextMovie (closure_of s) trimmed)) |}).
    { apply fetch_screened; try assumption.
      - rewrite Hl2. now apply classify_disjoint.
      - rewrite Hm2. discriminate.
      - rewrite Hl2. cbn. intros x Hx. apply classify_listed in Hx. apply in_or_app.
        destruct Hx as [Hx | ->]; [now left | now right]. }
    destruct (fetchNextMovie (closure_of s) trimmed) as [s' k]. cbn [fst snd] in Hf.
    destruct action; try exact Hf; revert Hf; unchanged.
  - (* a move *)
    destruct Hs as (Hdis & Hrest). cbn [component] in Hdis.
    apply screened_lists; [now apply move_disjoint | now apply move_listed | now split].
  - (* a removal *)
    destruct Hs as (Hdis & Hrest). cbn [component] in Hdis.
    apply screened_lists; [now apply remove_disjoint | apply remove_listed | now split].
  - (* the reset *)
    apply negb_true_iff in Hok. unfold resetMovies.
    set (cleared := set_filters _ _).
    assert (Hcc : consistent {| component := cleared; inflight := pending |}).
    { subst cleared. destruct Hc as (Hrange & Hcur & Hnd & H). unfold consistent.
      cbn [component inflight] in *. cbn.
      split; [budget|]. split; [reflexivity|]. split; [constructor|].
      destruct pending as [|k [|k' rest]]; [| |contradiction].
      - destruct (fetchTimeoutRef s); [|exact I].
        destruct H as (? & ? & ?). repeat split; assumption.
      - destruct H as (? & ? & ? & ? & ?). repeat split; assumption. }
    pose proof (@fetch_consistent (closure_of s) cleared pending Hcc eq_refl) as Hfc.
    assert (Hf : screened {| component := fst (fetchNextMovie (closure_of s) cleared);
                             inflight := pending ++
                               opt_list (snd (fetchNextMovie (closure_of s) cleared)) |}).
    { destruct Hs as (Hdis & _). cbn [component] in Hdis.
      apply fetch_screened; try assumption.
      - subst cleared. cbn. discriminate.
      - subst cleared. cbn. rewrite app_nil_r. apply incl_refl. }
    destruct (fetchNextMovie (closure_of s) cleared) as [s1 k1]. cbn [fst snd] in Hf, Hfc.
    pose proof (rerender_screened true s Hfc Hf) as Hr.
    destruct (rerender true s s1) as [s2 k2]. cbn [fst snd] in Hr.
    now rewrite <- app_assoc in Hr.
  - revert Hs. unchanged.
  - (* an answer *)
    destruct (nth_error pending i) as [k|] eqn:E; [|exact Hs].
    assert (Hp : pending = [k] /\ i = O).
    { destruct Hc as (_ & _ & _ & H). cbn [inflight] in H.
      destruct pending as [|k0 [|k1 rest]]; [destruct i; discriminate| |contradiction].
      destruct i as [|[|i]]; try discriminate. injection E as ->. now split. }
    destruct Hp as [-> ->]. cbn [remove_nth]. now apply resume_screened.
  - (* the retry timer *)
    destruct (fetchTimeoutRef s) as [t|] eqn:Et; [|exact Hs].
    assert (Hp : pending = [] /\ isLoading s = false /\ cl_isLoading (callback t) = false).
    { destruct Hc as (_ & _ & _ & H). cbn [component inflight] in H.
      destruct pending as [|k0 [|k1 rest]]; [| |contradiction].
      - rewrite Et in H. destruct H as (? & ? & ?). now repeat split.
      - destruct H as (_ & H & _). congruence. }
    destruct Hp as (-> & Hl & Hcl).
    assert (Hcs : consistent {| component := set_fetchTimeoutRef None s; inflight := [] |}).
    { destruct Hc as (Hrange & Hcur & Hnd & _). unfold consistent. cbn. now repeat split. }
    destruct Hs as (Hdis & Hcand & _ & Htimer). cbn [component] in Hdis, Hcand, Htimer.
    generalize (@fetch_screened (callback t) (set_fetchTimeoutRef None s) [] Hcs Hcl Hl
                  Hdis Hcand (Htimer t Et)).
    destruct (fetchNextMovie (callback t) (set_fetchTimeoutRef None s)) as [s' k].
    exact (fun H => H).
Qed.

Lemma boot_screened : screened boot.
Proof.
  unfold screened. cbn.
  split; [intros x a b Ha; destruct a; discriminate|].
  split; [discriminate|]. split; [intros k []|discriminate].
Qed.

Lemma orderly_run_app (pre post : list Event) (w : World) :
  orderly_run (pre ++ post) w = orderly_run pre w && orderly_run post (run pre w).
Proof.
  revert w. induction pre as [|e pre IH]; intros w; [reflexivity|].
  cbn [orderly_run app run fold_left]. rewrite IH. apply andb_assoc.
Qed.

Lemma run_screened (es : list Event) (w : World) :
  consistent w -> tracked w -> screened w -> orderly_run es w = true ->
  screened (run es w).
Proof.
  revert w. induction es as [|e es IH]; intros w Hc Ht Hs Hok; [exact Hs|].
  cbn [orderly_run] in Hok. apply andb_prop in Hok. destruct Hok as [He Hrest].
  cbn [run fold_left]. apply IH;
    [now apply step_consistent | now apply step_tracked | now apply step_screened
     | exact Hrest].
Qed.

(** C3 (amended): in every run of the component from its initial state,
    with classify, move and remove operations interleaved in any order with
    the other events (start of swiping, answers of any content, retry
    timers, filter and view changes, going home, reset), no identifier is
    in more than one of liked, saved and disliked after any prefix of the
    run, provided every event is orderly: swiping is started from the intro
    view, while no request is in progress, with movies whose identifiers
    are neither in the saved list, nor in the disliked list, nor that of the
    stored candidate; a move names a source list that holds the identifier
    of the moved movie; the reset is used while no request is in progress. *)
Theorem orderly_runs_keep_lists_disjoint (pre post : list Event) :
  orderly_run (pre ++ post) boot = true ->
  disjoint_lists (userLists (component (run pre boot))).
Proof.
  rewrite orderly_run_app. intros Hok. apply andb_prop in Hok. destruct Hok as [Hok _].
  exact (proj1 (run_screened pre boot_consistent boot_tracked boot_screened Hok)).
Qed.

Lemma orderly_runs_keep_lists_disjoint_witness :
  let session :=
    [StartSwiping [sample_movie 3];
     Settle 0 (answer_movie 5); Act Like;
     Settle 0 (answer_movie 3); TimerFires;
     Settle 0 (answer_movie 6); Act Dislike;
     Settle 0 (answer_error "down"); FiltersChange (filters initial);
     Settle 0 (answer_movie 7); Act Save;
     MoveMovie (sample_movie 5) Liked Disliked;
     RemoveMovie (sample_movie 6) Disliked;
     GoHome; Settle 0 (answer_movie 8); StartSwiping [sample_movie 9]] in
  orderly_run (session ++ [Settle 0 (answer_movie 10); Reset]) boot = true /\
  map movieId (liked (userLists (component (run session boot)))) = [3; 9] /\
  disjoint_lists (userLists (component (run session boot))).
Proof.
  intros session. split; [vm_compute; reflexivity|]. split; [vm_compute; reflexivity|].
  apply (@orderly_runs_keep_lists_disjoint session [Settle 0 (answer_movie 10); Reset]).
  vm_compute. reflexivity.
Defined.

(** C3, as stated, fails: a request left pending when the user goes home is
    answered after movie 5 was picked on the intro screen; the answer, movie
    5, is compared with the exclusions the request was sent with, is taken
    as the candidate, and a dislike puts it into a second list. *)
Lemma late_answer_lands_in_two_lists :
  let w := run [StartSwiping []; GoHome; StartSwiping [sample_movie 5];
                Settle 0 (answer_movie 5); Act Dislike] boot in
  map movieId (liked (userLists (component w))) = [5] /\
  map movieId (disliked (userLists (component w))) = [5] /\
  has_id 5 (get_list Liked (userLists (component w))) = true /\
  has_id 5 (get_list Disliked (userLists (component w))) = true.
Proof. vm_compute. repeat split. Qed.

(** What the other conditions on the start of swiping and on the reset are
    for.  A stored candidate that is picked on the intro screen, a pick that
    is in the disliked list, a start outside the intro view while a retry is
    scheduled, and a reset during a request each lead to an identifier in
    two lists. *)
Example each_condition_is_needed :
  let in_both x es :=
    has_id x (liked (userLists (component (run es boot)))) &&
    has_id x (disliked (userLists (component (run es boot)))) in
  in_both 5 [StartSwiping []; GoHome; Settle 0 (answer_movie 5);
             StartSwiping [sample_movie 5]; Settle 0 (answer_movie 5); Act Dislike]
  = true /\
  in_both 5 [StartSwiping []; Settle 0 (answer_movie 5); Act Dislike;
             Settle 0 (answer_movie 6); GoHome; StartSwiping [sample_movie 5]]
  = true /\
  in_both 5 [StartSwiping [sample_movie 1]; Settle 0 (answer_movie 1);
             StartSwiping [sample_movie 5]; TimerFires;
             Settle 0 (answer_movie 5); Act Dislike]
  = true /\
  in_both 5 [StartSwiping [sample_movie 1]; Settle 0 (answer_movie 5); Act Like; Reset;
             Settle 0 (answer_movie 1); TimerFires; Settle 0 (answer_movie 5); Act Dislike]
  = true.
Proof. vm_compute. repeat split. Qed.
